
(** * Mask-wear classification pipeline: dataset indexer, transforms, models

    A shallow embedding of [dataset.py] and [model.py].

    Conventions.
    - A Python or numpy float is a real number or [nan] ([float]); rounding
      and the infinities are not modelled.
    - A raised exception is a value of [exn]; a method that mutates process
      state is a function [Process -> (exn + A) * Process], so that whatever
      was mutated before an exception is raised is still there afterwards.
    - The three list objects created when the classes are defined
      ([image_paths], [labels], [gender_labels]) live in the process state,
      not in the instances: instances reach them by attribute lookup through
      the class. *)

From Stdlib Require Import String Ascii List ZArith Bool Lia Reals Lra.
Import ListNotations.

Set Implicit Arguments.

(** ** The Python runtime used by the sources *)

Module Py.

(** Exceptions that the sources raise or let through. *)
Inductive exn :=
| AssertionError (msg : string)
| AttributeError
| ValueError
| IndexError
| NotImplementedError
| RuntimeError
| TypeError
| ParserError          (* pandas.errors.ParserError *)
| OSError.             (* unreadable file *)

(** A float: a real number, or [nan]. *)
Inductive float :=
| Real (x : R)
| Nan.

Bind Scope R_scope with float.

Coercion Real : R >-> float.

(** Arithmetic on floats: [nan] propagates. *)
Definition float_map (f : R -> R) (x : float) : float :=
  match x with
  | Real r => Real (f r)
  | Nan => Nan
  end.

Definition float_map2 (f : R -> R -> R) (x y : float) : float :=
  match x, y with
  | Real a, Real b => Real (f a b)
  | _, _ => Nan
  end.

(** [x ** 0.5] in numpy: [nan] for a negative number. *)
Definition float_sqrt (x : float) : float :=
  match x with
  | Real r => if Rlt_dec r 0 then Nan else Real (sqrt r)
  | Nan => Nan
  end.

(** A sum divided by the number of its terms; the sum of no term is 0 and
    [0 / 0] is [nan]. *)
Definition float_mean (sum : float) (count : nat) : float :=
  match count with
  | O => Nan
  | S _ => float_map (fun s => s / INR count)%R sum
  end.

(** Objects stored in the lists of the sources, and cells of a table read
    by pandas, whose type pandas infers column by column: strings,
    integers, floats ([nan] for a missing value) or booleans.
    [PBuiltinMethod] is what attribute lookup on a class returns for a
    method of [type]. *)
Inductive pyval :=
| PStr (s : string)
| PInt (z : Z)
| PFloat (x : float)
| PBool (b : bool)
| PBuiltinMethod (name : string).

Definition is_str (v : pyval) : bool :=
  match v with
  | PStr _ => true
  | _ => false
  end.

(** [s.endswith(suffix)] *)
Definition endswith (s suffix : string) : bool :=
  let n := String.length s in
  let k := String.length suffix in
  if (k <=? n)%nat then String.eqb (substring (n - k) k s) suffix else false.

(** [s.startswith(prefix)] *)
Definition startswith (s pre : string) : bool := String.prefix pre s.

(** [s.split(sep)] for a one-character separator. *)
Fixpoint split (sep : ascii) (s : string) : list string :=
  match s with
  | EmptyString => [EmptyString]
  | String c rest =>
      if Ascii.eqb c sep then EmptyString :: split sep rest
      else match split sep rest with
           | field :: fields => String c field :: fields
           | [] => [String c EmptyString]
           end
  end.

(** [c in s] for a character. *)
Fixpoint has_char (c : ascii) (s : string) : bool :=
  match s with
  | EmptyString => false
  | String a rest => Ascii.eqb a c || has_char c rest
  end.

(** [posixpath.join(a, *p)] *)
Definition join_step (path b : string) : string :=
  if startswith b "/" then b
  else if (String.eqb path "" || endswith path "/")%bool then (path ++ b)%string
  else (path ++ "/" ++ b)%string.

Definition os_path_join (a : string) (p : list string) : string :=
  fold_left join_step p a.

(** [x in xs] for a list of strings. *)
Definition str_in (x : string) (xs : list string) : bool :=
  existsb (String.eqb x) xs.

End Py.

Import Py.

(** ** State and error monad of a Python process *)

Module Proc.

(** The mutable objects of the process that the dataset classes touch.
    The first three are the list objects bound in the class bodies
    (dataset.py lines 55, 56 and 147); [opened] records every path handed
    to [Image.open]; [stdout] what was printed. *)
Record Process := mkProcess {
  image_paths_obj : list pyval;
  labels_obj : list pyval;
  gender_labels_obj : list pyval;
  opened : list string;
  stdout : list string
}.

(** The state of a fresh interpreter, right after the module is imported. *)
Definition fresh : Process := mkProcess [] [] [] [] [].

Definition M (A : Type) : Type := Process -> (exn + A) * Process.

Definition ret {A} (a : A) : M A := fun st => (inr a, st).

Definition raise {A} (e : exn) : M A := fun st => (inl e, st).

Definition bind {A B} (m : M A) (k : A -> M B) : M B :=
  fun st =>
    match m st with
    | (inr a, st') => k a st'
    | (inl e, st') => (inl e, st')
    end.

(** A pure computation that may raise. *)
Definition lift {A} (r : exn + A) : M A :=
  match r with
  | inr a => ret a
  | inl e => raise e
  end.

(** [for x in xs: body(x)] *)
Fixpoint for_each {A} (xs : list A) (body : A -> M unit) : M unit :=
  match xs with
  | [] => ret tt
  | x :: rest => bind (body x) (fun _ => for_each rest body)
  end.

End Proc.

Import Proc.

Declare Scope py_scope.
Delimit Scope py_scope with py.
Notation "x <- m ;; k" := (bind m (fun x => k))
  (at level 61, m at next level, right associativity) : py_scope.
Notation "m ;; k" := (bind m (fun _ => k))
  (at level 61, right associativity) : py_scope.
Open Scope py_scope.

(** ** dataset.py *)

Module Dataset.

Definition IMG_EXTENSIONS : list string :=
  [".jpg"; ".JPG"; ".jpeg"; ".JPEG"; ".png";
   ".PNG"; ".ppm"; ".PPM"; ".bmp"; ".BMP"]%string.

Definition is_image_file (filename : string) : bool :=
  existsb (fun extension => endswith filename extension) IMG_EXTENSIONS.

(** *** External collaborators *)

(** What [pd.read_csv] returns: the columns, by name, each with the cells
    that [tolist()] gives. *)
Definition DataFrame := list (string * list pyval).

Definition pixel := (Z * Z * Z)%type.

(** [np.array(Image.open(path))] for an RGB image: rows of pixels. *)
Definition image := list (list pixel).

Record World := mkWorld {
  read_csv : string -> exn + DataFrame;
  path_exists : string -> bool;
  image_open : string -> exn + image
}.

(** [df.path.tolist()]: a frame without that column has no such attribute. *)
Fixpoint df_column (df : DataFrame) (name : string) : exn + list pyval :=
  match df with
  | [] => inl AttributeError
  | (col, values) :: rest =>
      if String.eqb col name then inr values else df_column rest name
  end.

(** *** Classes and attribute lookup *)

Inductive klass := MaskBaseDataset | MaskMultiLabelDataset.

Module Labels.
Definition mask : Z := 0.
Definition incorrect : Z := 1.
Definition normal : Z := 2.
End Labels.

(** The dict keeps insertion order, which is the order [items()] yields. *)
Definition _file_names : list (string * Z) :=
  [("mask1.jpg", Labels.mask);
   ("mask2.jpg", Labels.mask);
   ("mask3.jpg", Labels.mask);
   ("mask4.jpg", Labels.mask);
   ("mask5.jpg", Labels.mask);
   ("incorrect_mask.jpg", Labels.incorrect);
   ("normal.jpg", Labels.normal)]%string.

(** The list objects that exist: one per list display in a class body. *)
Inductive list_obj := ImagePathsObj | LabelsObj | GenderLabelsObj.

(** Which names each class body binds to a list object. *)
Definition class_dict (c : klass) (name : string) : option list_obj :=
  match c with
  | MaskBaseDataset =>
      if String.eqb name "image_paths" then Some ImagePathsObj
      else if String.eqb name "labels" then Some LabelsObj
      else None
  | MaskMultiLabelDataset =>
      if String.eqb name "gender_labels" then Some GenderLabelsObj
      else None
  end.

(** Method resolution order. *)
Definition mro (c : klass) : list klass :=
  match c with
  | MaskBaseDataset => [MaskBaseDataset]
  | MaskMultiLabelDataset => [MaskMultiLabelDataset; MaskBaseDataset]
  end.

Fixpoint lookup_mro (cs : list klass) (name : string) : option list_obj :=
  match cs with
  | [] => None
  | c :: rest =>
      match class_dict c name with
      | Some o => Some o
      | None => lookup_mro rest name
      end
  end.

(** Per-channel statistics: an array of 3 floats, or the scalar [nan] that
    numpy returns for the mean of nothing. *)
Inductive stats :=
| Vec3 (r g b : float)
| NaN.

(** The attributes that [__init__] binds on the instance itself. No method
    ever binds [image_paths], [labels] or [gender_labels] on an instance. *)
Record Instance := mkInstance {
  cls : klass;
  img_root : string;
  meta_path : string;
  phase : string;
  mean : option stats;
  std : option stats
}.

(** [self.<name>] for one of the list attributes: found on the class. *)
Definition list_attr (self : Instance) (name : string) : M list_obj :=
  match lookup_mro (mro (cls self)) name with
  | Some o => ret o
  | None => raise AttributeError
  end.

Definition read_obj (o : list_obj) (st : Process) : list pyval :=
  match o with
  | ImagePathsObj => image_paths_obj st
  | LabelsObj => labels_obj st
  | GenderLabelsObj => gender_labels_obj st
  end.

(** [obj.append(v)]: in place. *)
Definition append_obj (o : list_obj) (v : pyval) (st : Process) : Process :=
  match o with
  | ImagePathsObj =>
      mkProcess (image_paths_obj st ++ [v]) (labels_obj st)
                (gender_labels_obj st) (opened st) (stdout st)
  | LabelsObj =>
      mkProcess (image_paths_obj st) (labels_obj st ++ [v])
                (gender_labels_obj st) (opened st) (stdout st)
  | GenderLabelsObj =>
      mkProcess (image_paths_obj st) (labels_obj st)
                (gender_labels_obj st ++ [v]) (opened st) (stdout st)
  end.

(** [self.<name>.append(v)] *)
Definition append (self : Instance) (name : string) (v : pyval) : M unit :=
  o <- list_attr self name ;;
  fun st => (inr tt, append_obj o v st).

(** [self.<name>] read as a value. *)
Definition get_list (self : Instance) (name : string) : M (list pyval) :=
  o <- list_attr self name ;;
  fun st => (inr (read_obj o st), st).

(** *** MaskBaseDataset.setup *)

Definition img_path_of (self : Instance) (profile file_name : string) : string :=
  os_path_join (img_root self) [profile; file_name].

Definition keeps (w : World) (self : Instance) (profile : string)
    (entry : string * Z) : bool :=
  let img_path := img_path_of self profile (fst entry) in
  path_exists w img_path && is_image_file img_path.

(** [os.path.join(self.img_root, profile, file_name)] for a cell of the
    table: anything but a string is refused with [TypeError]. *)
Definition join_cell (self : Instance) (profile : pyval) (file_name : string)
    : exn + string :=
  match profile with
  | PStr p => inr (img_path_of self p file_name)
  | _ => inl TypeError
  end.

Definition base_body (w : World) (self : Instance) (profile : pyval)
    (entry : string * Z) : M unit :=
  let '(file_name, label) := entry in
  img_path <- lift (join_cell self profile file_name) ;;
  if path_exists w img_path && is_image_file img_path then
    append self "image_paths" (PStr img_path) ;;
    append self "labels" (PInt label)
  else ret tt.

Definition setup_base (w : World) (self : Instance) : M unit :=
  df <- lift (read_csv w (meta_path self)) ;;
  profiles <- lift (df_column df "path") ;;
  for_each profiles (fun profile =>
    for_each _file_names (base_body w self profile)).

(** *** MaskMultiLabelDataset.setup *)

(** [getattr(GenderLabels, name)] for a name without an underscore, which
    is all that a field of [profile.split("_")] can be. The class body binds
    [male] and [female]; [mro] is found on the metaclass [type]. *)
Definition getattr_GenderLabels (name : string) : exn + pyval :=
  if String.eqb name "male" then inr (PInt 0)
  else if String.eqb name "female" then inr (PInt 1)
  else if String.eqb name "mro" then inr (PBuiltinMethod "mro")
  else inl AttributeError.

(** [id, gender, race, age = profile.split("_")] followed by the lookup. *)
Definition gender_label_of (profile : string) : exn + pyval :=
  match split "_" profile with
  | [_id; gender; _race; _age] => getattr_GenderLabels gender
  | _ => inl ValueError
  end.

(** The same for a cell of the table: only a string has [split]. *)
Definition gender_label_of_cell (profile : pyval) : exn + pyval :=
  match profile with
  | PStr p => gender_label_of p
  | _ => inl AttributeError
  end.

Definition multi_body (w : World) (self : Instance) (profile : pyval)
    (entry : string * Z) : M unit :=
  let '(file_name, label) := entry in
  img_path <- lift (join_cell self profile file_name) ;;
  if path_exists w img_path && is_image_file img_path then
    append self "image_paths" (PStr img_path) ;;
    append self "labels" (PInt label) ;;
    gender_label <- lift (gender_label_of_cell profile) ;;
    append self "gender_labels" gender_label
  else ret tt.

Definition setup_multi (w : World) (self : Instance) : M unit :=
  df <- lift (read_csv w (meta_path self)) ;;
  profiles <- lift (df_column df "path") ;;
  for_each profiles (fun profile =>
    for_each _file_names (multi_body w self profile)).

(** [self.setup()]: the method found first along the MRO. *)
Definition setup (w : World) (self : Instance) : M unit :=
  match cls self with
  | MaskBaseDataset => setup_base w self
  | MaskMultiLabelDataset => setup_multi w self
  end.

(** *** MaskBaseDataset.calc_statistics *)

(** Two's-complement wrap-around of numpy's int32. *)
Definition wrap32 (z : Z) : Z := ((z + 2 ^ 31) mod 2 ^ 32 - 2 ^ 31)%Z.

(** An array of 3 floats, one per channel. *)
Definition vec3 := (float * float * float)%type.

Definition vadd (a b : vec3) : vec3 :=
  let '(a1, a2, a3) := a in
  let '(b1, b2, b3) := b in
  (float_map2 Rplus a1 b1, float_map2 Rplus a2 b2, float_map2 Rplus a3 b3).

Definition vsum (vs : list vec3) : vec3 :=
  fold_right vadd (Real 0, Real 0, Real 0) vs.

(** [arr.mean(axis=(0, 1))] of [f] applied to every cell of an int32 array
    of shape (H, W, 3): the sum over all pixels divided by their number,
    [nan] in every channel when there is no pixel. *)
Definition mean_axis01 (f : Z -> Z) (img : image) : vec3 :=
  let pixels := concat img in
  let n := List.length pixels in
  let '(s1, s2, s3) :=
    vsum (map (fun px : pixel =>
                 let '(r, g, b) := px in
                 (Real (IZR (f (wrap32 r))), Real (IZR (f (wrap32 g))),
                  Real (IZR (f (wrap32 b)))))
              pixels) in
  (float_mean s1 n, float_mean s2 n, float_mean s3 n).

(** [image ** 2] on int32 cells. *)
Definition square32 (x : Z) : Z := wrap32 (x * x).

(** [np.mean(vs, axis=0)]: the scalar [nan] for the empty list. *)
Definition np_mean_axis0 (vs : list vec3) : stats :=
  match vs with
  | [] => NaN
  | _ :: _ =>
      let n := List.length vs in
      let '(s1, s2, s3) := vsum vs in
      Vec3 (float_mean s1 n) (float_mean s2 n) (float_mean s3 n)
  end.

(** An operation on every cell. *)
Definition stats_map (f : float -> float) (s : stats) : stats :=
  match s with
  | Vec3 r g b => Vec3 (f r) (f g) (f b)
  | NaN => NaN
  end.

(** [a - b]; a scalar is broadcast over the three channels. *)
Definition stats_sub (a b : stats) : stats :=
  match a, b with
  | Vec3 a1 a2 a3, Vec3 b1 b2 b3 =>
      Vec3 (float_map2 Rminus a1 b1) (float_map2 Rminus a2 b2)
           (float_map2 Rminus a3 b3)
  | Vec3 _ _ _, NaN | NaN, Vec3 _ _ _ => Vec3 Nan Nan Nan
  | NaN, NaN => NaN
  end.

(** [x / 255] and [x ** 2] on a cell. *)
Definition div255 : float -> float := float_map (fun x => x / 255)%R.
Definition square : float -> float := float_map (fun x => x ^ 2)%R.

(** [Image.open(image_path)] and the conversion to int32; the call is
    recorded. Anything but a string is refused by the opener. *)
Definition Image_open (w : World) (image_path : pyval) : M image :=
  match image_path with
  | PStr p =>
      fun st =>
        let st' := mkProcess (image_paths_obj st) (labels_obj st)
                             (gender_labels_obj st) (opened st ++ [p])
                             (stdout st) in
        match image_open w p with
        | inr img => (inr img, st')
        | inl e => (inl e, st')
        end
  | _ => raise AttributeError
  end.

Definition print (line : string) : M unit :=
  fun st =>
    (inr tt, mkProcess (image_paths_obj st) (labels_obj st)
                       (gender_labels_obj st) (opened st)
                       (stdout st ++ [line])).

(** The loop of lines 85-88, with its two local accumulators. *)
Fixpoint accumulate (w : World) (paths : list pyval) (sums squared : list vec3)
    : M (list vec3 * list vec3) :=
  match paths with
  | [] => ret (sums, squared)
  | image_path :: rest =>
      img <- Image_open w image_path ;;
      accumulate w rest
        (sums ++ [mean_axis01 (fun x => x) img])
        (squared ++ [mean_axis01 square32 img])
  end.

Definition set_mean (self : Instance) (m : option stats) : Instance :=
  mkInstance (cls self) (img_root self) (meta_path self) (phase self)
             m (std self).

Definition set_std (self : Instance) (s : option stats) : Instance :=
  mkInstance (cls self) (img_root self) (meta_path self) (phase self)
             (mean self) s.

Definition is_not_None {A} (o : option A) : bool :=
  match o with Some _ => true | None => false end.

Definition statistics_warning : string :=
  "[Warning] Calculating statistics... It can takes huge amounts of time depending on your CPU machine :(".

(** Returns [self] as the method leaves it. [self.mean] is rebound before
    [self.std] is computed, and the second line reads the new value. Where
    the difference under the root is negative, that channel of the
    deviation is [nan]. *)
Definition calc_statistics (w : World) (self : Instance) : M Instance :=
  let has_statistics := is_not_None (mean self) && is_not_None (std self) in
  if negb has_statistics then
    print statistics_warning ;;
    paths <- get_list self "image_paths" ;;
    acc <- accumulate w (firstn 3000 paths) [] [] ;;
    let '(sums, squared) := acc in
    let new_mean := stats_map div255 (np_mean_axis0 sums) in
    let self := set_mean self (Some new_mean) in
    let new_std :=
      stats_map (fun x => div255 (float_sqrt x))
        (stats_sub (np_mean_axis0 squared) (stats_map square new_mean)) in
    ret (set_std self (Some new_std))
  else ret self.

(** *** MaskBaseDataset.__init__ (inherited by the multi-label class) *)

Definition default_mean : stats := Vec3 0.5366 0.5323 0.5183.
Definition default_std : stats := Vec3 0.2456 0.2517 0.2605.

(** The [mean] and [std] arguments are accepted and not read. *)
Definition __init__ (c : klass) (w : World)
    (img_root meta_path phase : string) (mean std : option stats)
    : M Instance :=
  let self := mkInstance c img_root meta_path phase
                         (Some default_mean) (Some default_std) in
  setup w self ;;
  calc_statistics w self.

(** *** Accessors *)

Definition __len__ (self : Instance) : M Z :=
  paths <- get_list self "image_paths" ;;
  ret (Z.of_nat (List.length paths)).

(** [xs[index]] with Python's negative indices. *)
Definition list_getitem {A} (xs : list A) (index : Z) : exn + A :=
  let n := Z.of_nat (List.length xs) in
  let i := if (index <? 0)%Z then (index + n)%Z else index in
  if ((0 <=? i) && (i <? n))%Z then
    match nth_error xs (Z.to_nat i) with
    | Some x => inr x
    | None => inl IndexError
    end
  else inl IndexError.

Definition get_label (self : Instance) (index : Z) : M pyval :=
  xs <- get_list self "labels" ;;
  lift (list_getitem xs index).

Definition get_gender_label (self : Instance) (index : Z) : M pyval :=
  xs <- get_list self "gender_labels" ;;
  lift (list_getitem xs index).

(** [read_image]: the path at [index], then the decoder. *)
Definition read_image (w : World) (self : Instance) (index : Z) : M image :=
  xs <- get_list self "image_paths" ;;
  image_path <- lift (list_getitem xs index) ;;
  Image_open w image_path.

Definition set_phase (self : Instance) (new_phase : string) : exn + Instance :=
  if str_in new_phase ["train"; "test"]%string then
    inr (mkInstance (cls self) (img_root self) (meta_path self) new_phase
                    (mean self) (std self))
  else inl (AssertionError "phase should be either train or test").

End Dataset.

(** ** dataset.py: the transform pipelines *)

Module Transforms.

Import Dataset.

Inductive interpolation := BILINEAR.

(** The callables that the two pipelines are composed of, with the
    arguments they are built with. *)
Inductive op :=
| Resize (size : Z * Z) (interp : interpolation)
| RandomRotation (degrees : Z * Z)
| GaussianBlur (kernel_size : Z) (sigma : R * R)
| ColorJitter (brightness saturation hue : R)
| ToTensor
| Normalize (mean std : option stats)
| AddGaussianNoise (mean std : R).

Definition train_transform (self : Instance) : list op :=
  [ Resize (128, 96)%Z BILINEAR;
    RandomRotation (-8, 8)%Z;
    GaussianBlur 51 (0.1, 2.0)%R;
    ColorJitter 0.5 0.5 0.5;
    ToTensor;
    Normalize (mean self) (std self);
    AddGaussianNoise 0 1 ].

Definition test_transform (self : Instance) : list op :=
  [ Resize (128, 96)%Z BILINEAR;
    ToTensor;
    Normalize (mean self) (std self) ].

Section WithLibrary.

(** State of the global random generator, and decoded pictures. *)
Variables rng pil : Type.

(** What flows through a pipeline. *)
Inductive value :=
| Pil (p : pil)
| Tensor (shape : list nat) (data : list R).

(** torchvision and torch, as far as the pipelines call them. The three
    deterministic transforms are functions of their input alone. *)
Record Library := mkLibrary {
  tv_resize : Z * Z -> interpolation -> value -> exn + value;
  tv_random_rotation : Z * Z -> value -> rng -> (exn + value) * rng;
  tv_gaussian_blur : Z -> R * R -> value -> rng -> (exn + value) * rng;
  tv_color_jitter : R -> R -> R -> value -> rng -> (exn + value) * rng;
  tv_to_tensor : value -> exn + value;
  tv_normalize : option stats -> option stats -> value -> exn + value;
  torch_randn : list nat -> rng -> list R * rng
}.

Variable lib : Library.

(** [tensor + noise * std + mean], cell by cell. The cells are floats
    read as real numbers: what rounding does to the sum is not modelled. *)
Definition add_noise (mean std : R) (data noise : list R) : list R :=
  map (fun tn : R * R => (fst tn + snd tn * std + mean)%R) (combine data noise).

(** [AddGaussianNoise.__call__]: a picture has a [size] attribute that is
    not callable. *)
Definition AddGaussianNoise_call (mean std : R) (v : value) (g : rng)
    : (exn + value) * rng :=
  match v with
  | Tensor shape data =>
      let '(noise, g') := torch_randn lib shape g in
      (inr (Tensor shape (add_noise mean std data noise)), g')
  | Pil _ => (inl TypeError, g)
  end.

Definition call (o : op) (v : value) (g : rng) : (exn + value) * rng :=
  match o with
  | Resize size interp => (tv_resize lib size interp v, g)
  | RandomRotation degrees => tv_random_rotation lib degrees v g
  | GaussianBlur k sigma => tv_gaussian_blur lib k sigma v g
  | ColorJitter b s h => tv_color_jitter lib b s h v g
  | ToTensor => (tv_to_tensor lib v, g)
  | Normalize m s => (tv_normalize lib m s v, g)
  | AddGaussianNoise m s => AddGaussianNoise_call m s v g
  end.

(** [transforms.Compose(ops)(v)] *)
Fixpoint Compose (ops : list op) (v : value) (g : rng) : (exn + value) * rng :=
  match ops with
  | [] => (inr v, g)
  | o :: rest =>
      match call o v g with
      | (inr v', g') => Compose rest v' g'
      | (inl e, g') => (inl e, g')
      end
  end.

Definition transform (self : Instance) (img : value) (g : rng)
    : (exn + value) * rng :=
  if String.eqb (phase self) "train" then Compose (train_transform self) img g
  else if String.eqb (phase self) "test" then Compose (test_transform self) img g
  else (inl AttributeError, g).

End WithLibrary.

Arguments Pil {pil} p.
Arguments Tensor {pil} shape data.

(** A small library to run the pipelines on: pictures are tensors already,
    the generator is a counter, and every draw is the counter's value. *)
Definition toy_library : Library nat unit :=
  mkLibrary
    (fun _ _ v => inr v)
    (fun _ v g => (inr v, S g))
    (fun _ _ v g => (inr v, S g))
    (fun _ _ _ v g => (inr v, S g))
    (fun v => match v with
              | Pil _ => inr (Tensor [1%nat] [0%R])
              | Tensor sh d => inr (Tensor sh d)
              end)
    (fun _ _ v => inr v)
    (fun shape g => (repeat (INR g) (fold_right Nat.mul 1%nat shape), S g)).

End Transforms.

(** ** model.py *)

Module Model.

(** What a parameter's [data] was last filled with; the numbers themselves
    play no part in what follows. *)
Inductive tensor_data :=
| DefaultInit
| XavierUniform
| Zeros
| Ones
| NormalInit (mean std : R)
| Loaded.

Record Param := mkParam {
  shape : list Z;
  data : tensor_data;
  requires_grad : bool
}.

(** [nn.Parameter(torch.empty(shape))]: gradient tracking is on. *)
Definition new_parameter (shape : list Z) : Param :=
  mkParam shape DefaultInit true.

(** Keys under which a module registers its children: an attribute name,
    or a position inside [nn.Sequential]. *)
Inductive key :=
| Attr (name : string)
| Index (i : nat).

Definition key_eqb (a b : key) : bool :=
  match a, b with
  | Attr x, Attr y => String.eqb x y
  | Index i, Index j => Nat.eqb i j
  | _, _ => false
  end.

(** [nn.Module] objects. The first three kinds are those that
    [_initialize_weights] names; the next four register no parameter.
    [Container] is a module of any other class, with the parameters it
    registers itself and its children: [nn.Sequential], torchvision's
    [VGG] and the model itself (no parameter of their own), or a layer of
    a kind that the sources do not name. *)
#[local] Unset Elimination Schemes.
Inductive Module_ :=
| Conv2d (in_channels out_channels kernel_size stride padding : Z)
         (weight : Param) (bias : option Param)
| BatchNorm2d (num_features : Z) (weight bias : option Param)
| Linear (in_features out_features : Z)
         (weight : Param) (bias : option Param)
| ReLU (inplace : bool)
| MaxPool2d (kernel_size stride : Z)
| AdaptiveAvgPool2d (output_size : Z * Z)
| Dropout
| Container (own : list Param) (children : list (key * Module_)).
#[local] Set Elimination Schemes.

(** [nn.Conv2d(i, o, kernel_size=k, ...)]. The sources call it with
    positive constants only. *)
Definition nn_Conv2d (i o k stride padding : Z) : Module_ :=
  Conv2d i o k stride padding
         (new_parameter [o; i; k; k]) (Some (new_parameter [o])).

(** The layer that [nn.Linear(i, o)] returns when it returns. *)
Definition new_Linear (i o : Z) : Module_ :=
  Linear i o (new_parameter [o; i]) (Some (new_parameter [o])).

(** [nn.Linear(i, o)]: the weight is [torch.empty((o, i))], which raises
    for a negative dimension. *)
Definition nn_Linear (i o : Z) : exn + Module_ :=
  if ((i <? 0) || (o <? 0))%Z then inl RuntimeError else inr (new_Linear i o).

Fixpoint enumerate_from (n : nat) (ms : list Module_) : list (key * Module_) :=
  match ms with
  | [] => []
  | m :: rest => (Index n, m) :: enumerate_from (S n) rest
  end.

Definition nn_Sequential (ms : list Module_) : Module_ :=
  Container [] (enumerate_from 0 ms).

(** The arguments of a call are evaluated from left to right: the first
    constructor that raises ends the evaluation. *)
Fixpoint collect (calls : list (exn + Module_)) : exn + list Module_ :=
  match calls with
  | [] => inr []
  | inl e :: _ => inl e
  | inr m :: rest =>
      match collect rest with
      | inl e => inl e
      | inr ms => inr (m :: ms)
      end
  end.

(** [nn.Sequential(call_1, ..., call_n)] *)
Definition nn_Sequential_of (calls : list (exn + Module_)) : exn + Module_ :=
  match collect calls with
  | inl e => inl e
  | inr ms => inr (nn_Sequential ms)
  end.

Definition opt_list {A} (o : option A) : list A :=
  match o with Some a => [a] | None => [] end.

(** [module.parameters()] *)
Fixpoint parameters (m : Module_) : list Param :=
  match m with
  | Conv2d _ _ _ _ _ w b => w :: opt_list b
  | BatchNorm2d _ w b => opt_list w ++ opt_list b
  | Linear _ _ w b => w :: opt_list b
  | ReLU _ | MaxPool2d _ _ | AdaptiveAvgPool2d _ | Dropout => []
  | Container own children =>
      own ++ flat_map (fun kc => parameters (snd kc)) children
  end.

(** [param.requires_grad] is [False], respectively [True]. *)
Definition frozen (p : Param) : Prop := requires_grad p = false.
Definition trainable (p : Param) : Prop := requires_grad p = true.

Definition set_requires_grad (v : bool) (p : Param) : Param :=
  mkParam (shape p) (data p) v.

Definition set_data (d : tensor_data) (p : Param) : Param :=
  mkParam (shape p) d (requires_grad p).

(** A change made to every child, in registration order. *)
Definition map_children (f : Module_ -> Module_)
    : list (key * Module_) -> list (key * Module_) :=
  map (fun kc => (fst kc, f (snd kc))).

(** The same for a change that may raise: the first exception ends it. *)
Definition traverse_children (f : Module_ -> exn + Module_)
    : list (key * Module_) -> exn + list (key * Module_) :=
  fix go (cs : list (key * Module_)) :=
    match cs with
    | [] => inr []
    | kc :: rest =>
        match f (snd kc) with
        | inl e => inl e
        | inr c' =>
            match go rest with
            | inl e => inl e
            | inr rest' => inr ((fst kc, c') :: rest')
            end
        end
    end.

(** [for param in m.parameters(): param.requires_grad = False], as the
    module looks afterwards. *)
Fixpoint freeze (m : Module_) : Module_ :=
  match m with
  | Conv2d i o k s p w b =>
      Conv2d i o k s p (set_requires_grad false w)
             (option_map (set_requires_grad false) b)
  | BatchNorm2d n w b =>
      BatchNorm2d n (option_map (set_requires_grad false) w)
                  (option_map (set_requires_grad false) b)
  | Linear i o w b =>
      Linear i o (set_requires_grad false w)
             (option_map (set_requires_grad false) b)
  | ReLU _ | MaxPool2d _ _ | AdaptiveAvgPool2d _ | Dropout => m
  | Container own children =>
      Container (map (set_requires_grad false) own)
                (map_children freeze children)
  end.

(** [m.weight.data...] or [m.bias.data...] on a module built without that
    parameter: [None] has no [data]. *)
Definition fill (d : tensor_data) (p : option Param) : exn + Param :=
  match p with
  | Some q => inr (set_data d q)
  | None => inl AttributeError
  end.

(** [_initialize_weights]: the loop over [self.modules()] visits a module
    and then its children, in registration order. A module of a kind that
    the loop does not name keeps its own parameters as they are. *)
Fixpoint _initialize_weights (m : Module_) : exn + Module_ :=
  match m with
  | Conv2d i o k s p w b =>
      inr (Conv2d i o k s p (set_data XavierUniform w)
                  (option_map (set_data Zeros) b))
  | BatchNorm2d n w b =>
      match fill Ones w with
      | inl e => inl e
      | inr w' =>
          match fill Zeros b with
          | inl e => inl e
          | inr b' => inr (BatchNorm2d n (Some w') (Some b'))
          end
      end
  | Linear i o w b =>
      match fill Zeros b with
      | inl e => inl e
      | inr b' => inr (Linear i o (set_data (NormalInit 0 0.01) w) (Some b'))
      end
  | ReLU _ | MaxPool2d _ _ | AdaptiveAvgPool2d _ | Dropout => inr m
  | Container own children =>
      match traverse_children _initialize_weights children with
      | inl e => inl e
      | inr children' => inr (Container own children')
      end
  end.

(** The modules on which the loop of [_initialize_weights] goes through:
    every [Linear] has a bias and every [BatchNorm2d] has both its
    parameters. A [Conv2d] may lack its bias (line 39). *)
Fixpoint initializable (m : Module_) : bool :=
  match m with
  | Conv2d _ _ _ _ _ _ _ => true
  | BatchNorm2d _ w b =>
      match w, b with Some _, Some _ => true | _, _ => false end
  | Linear _ _ _ b => match b with Some _ => true | None => false end
  | ReLU _ | MaxPool2d _ _ | AdaptiveAvgPool2d _ | Dropout => true
  | Container _ children =>
      forallb (fun kc => initializable (snd kc)) children
  end.

(** The parameters of the layers that the loop names, and those that the
    modules of other kinds register themselves. *)
Fixpoint named_parameters (m : Module_) : list Param :=
  match m with
  | Conv2d _ _ _ _ _ w b => w :: opt_list b
  | BatchNorm2d _ w b => opt_list w ++ opt_list b
  | Linear _ _ w b => w :: opt_list b
  | ReLU _ | MaxPool2d _ _ | AdaptiveAvgPool2d _ | Dropout => []
  | Container _ children =>
      flat_map (fun kc => named_parameters (snd kc)) children
  end.

Fixpoint other_parameters (m : Module_) : list Param :=
  match m with
  | Container own children =>
      own ++ flat_map (fun kc => other_parameters (snd kc)) children
  | _ => []
  end.

(** A parameter filled by one of the branches of [_initialize_weights]. *)
Definition initialized (p : Param) : Prop :=
  data p = XavierUniform \/ data p = Zeros \/ data p = Ones
  \/ data p = NormalInit 0 0.01.

(** *** Children by name *)

Fixpoint get_child (k : key) (cs : list (key * Module_)) : option Module_ :=
  match cs with
  | [] => None
  | (k', c) :: rest => if key_eqb k k' then Some c else get_child k rest
  end.

(** [setattr(module, name, child)]: replaces the child registered under
    that name, or registers a new one last. *)
Fixpoint set_child (k : key) (c : Module_) (cs : list (key * Module_))
    : list (key * Module_) :=
  match cs with
  | [] => [(k, c)]
  | (k', c') :: rest =>
      if key_eqb k k' then (k, c) :: rest else (k', c') :: set_child k c rest
  end.

(** [module.<a>.<b>...]: a missing attribute raises. *)
Fixpoint get_at (path : list key) (m : Module_) : exn + Module_ :=
  match path with
  | [] => inr m
  | k :: rest =>
      match m with
      | Container _ children =>
          match get_child k children with
          | Some c => get_at rest c
          | None => inl AttributeError
          end
      | _ => inl AttributeError
      end
  end.

(** The module after an in-place change [f] of the submodule at [path]. *)
Fixpoint update_at (path : list key) (f : Module_ -> Module_) (m : Module_)
    : Module_ :=
  match path with
  | [] => f m
  | k :: rest =>
      match m with
      | Container own children =>
          match get_child k children with
          | Some c => Container own (set_child k (update_at rest f c) children)
          | None => m
          end
      | _ => m
      end
  end.

(** *** The classes *)

Inductive arch := MaskBaseModel | AlexNet | VGG19.

Section WithTorchvision.

(** [torchvision.models.vgg19(pretrained=...)]: the children that the
    returned [VGG] object registers. *)
Variable tv_vgg19 : bool -> list (key * Module_).

Definition build_layers (a : arch) (num_classes : Z) (pretrained : bool)
    : exn + Module_ :=
  match a with
  | MaskBaseModel => inl NotImplementedError
  | AlexNet =>
      let features := nn_Sequential
        [ nn_Conv2d 3 64 11 4 2; ReLU true; MaxPool2d 3 2;
          nn_Conv2d 64 192 5 1 2; ReLU true; MaxPool2d 3 2;
          nn_Conv2d 192 384 3 1 1; ReLU true;
          nn_Conv2d 384 256 3 1 1; ReLU true;
          nn_Conv2d 256 256 3 1 1; ReLU true; MaxPool2d 3 2 ] in
      let avgpool := AdaptiveAvgPool2d (6, 6)%Z in
      match nn_Sequential_of
              [ inr Dropout; nn_Linear (256 * 6 * 6) 4096; inr (ReLU true);
                inr Dropout; nn_Linear 4096 4096; inr (ReLU true);
                nn_Linear 4096 num_classes ] with
      | inl e => inl e
      | inr classifier =>
          inr (Container [] [ (Attr "features", features);
                              (Attr "avgpool", avgpool);
                              (Attr "classifier", classifier) ])
      end
  | VGG19 =>
      let net := tv_vgg19 pretrained in
      match nn_Sequential_of
              [ nn_Linear (512 * 7 * 7) 4096; inr (ReLU true); inr Dropout;
                nn_Linear 4096 4096; inr (ReLU true); inr Dropout;
                nn_Linear 4096 num_classes ] with
      | inl e => inl e
      | inr classifier =>
          inr (Container []
                 [ (Attr "net",
                    Container [] (set_child (Attr "classifier") classifier net)) ])
      end
  end.

(** Where [backbone_layers()] and [classifier_layers()] point. *)
Definition backbone_path (a : arch) : exn + list key :=
  match a with
  | MaskBaseModel => inl NotImplementedError
  | AlexNet => inr [Attr "features"]
  | VGG19 => inr [Attr "net"; Attr "features"]
  end.

Definition classifier_path (a : arch) : exn + list key :=
  match a with
  | MaskBaseModel => inl NotImplementedError
  | AlexNet => inr [Attr "classifier"]
  | VGG19 => inr [Attr "net"; Attr "classifier"]
  end.

Definition backbone_layers (a : arch) (self : Module_) : exn + Module_ :=
  match backbone_path a with
  | inl e => inl e
  | inr path => get_at path self
  end.

Definition classifier_layers (a : arch) (self : Module_) : exn + Module_ :=
  match classifier_path a with
  | inl e => inl e
  | inr path => get_at path self
  end.

Definition _freeze_net (a : arch) (self : Module_) : exn + Module_ :=
  match backbone_path a with
  | inl e => inl e
  | inr path =>
      match get_at path self with
      | inl e => inl e
      | inr _ => inr (update_at path freeze self)
      end
  end.

Definition __init__ (a : arch) (num_classes : Z) (pretrained freeze_flag : bool)
    : exn + Module_ :=
  match build_layers a num_classes pretrained with
  | inl e => inl e
  | inr self =>
      match (if negb pretrained then _initialize_weights self else inr self) with
      | inl e => inl e
      | inr self => if freeze_flag then _freeze_net a self else inr self
      end
  end.

End WithTorchvision.

(** A stand-in for torchvision's network, two convolutions deep. *)
Definition small_vgg (pretrained : bool) : list (key * Module_) :=
  [ (Attr "features",
     nn_Sequential [ nn_Conv2d 3 64 3 1 1; ReLU true;
                     nn_Conv2d 64 64 3 1 1; ReLU true; MaxPool2d 2 2 ]);
    (Attr "avgpool", AdaptiveAvgPool2d (7, 7)%Z);
    (Attr "classifier", nn_Sequential [ new_Linear (512 * 7 * 7) 1000 ]) ].

End Model.

(** ** What a scan of the metadata table appends

    Closed forms of the two [setup] loops, used to state their effect. *)

Module Scan.

Import Dataset.

Section WithWorld.

Variable w : World.
Variable self : Instance.

(** The canonical files of a profile that pass the test of line 75. *)
Definition kept (profile : string) : list (string * Z) :=
  filter (keeps w self profile) _file_names.

Definition has_sample (profile : string) : bool :=
  existsb (keeps w self profile) _file_names.

Definition paths_of (profile : string) (entries : list (string * Z)) : list pyval :=
  map (fun e => PStr (img_path_of self profile (fst e))) entries.

Definition labels_of (entries : list (string * Z)) : list pyval :=
  map (fun e => PInt (snd e)) entries.

Definition scan_paths (profiles : list string) : list pyval :=
  flat_map (fun profile => paths_of profile (kept profile)) profiles.

Definition scan_labels (profiles : list string) : list pyval :=
  flat_map (fun profile => labels_of (kept profile)) profiles.

Definition genders_of (profile : string) : list pyval :=
  match gender_label_of profile with
  | inr g => repeat g (List.length (kept profile))
  | inl _ => []
  end.

Definition scan_genders (profiles : list string) : list pyval :=
  flat_map genders_of profiles.

(** A profile the multi-label loop gets past: nothing of it is on disk, or
    its name parses and its gender is found. *)
Definition profile_ok (profile : string) : bool :=
  negb (has_sample profile)
  || match gender_label_of profile with inr _ => true | inl _ => false end.

End WithWorld.

(** The genders a run of [setup] appends: none for the base class. *)
Definition appended_genders (w : World) (self : Instance)
    (profiles : list string) : list pyval :=
  match cls self with
  | MaskBaseDataset => []
  | MaskMultiLabelDataset => scan_genders w self profiles
  end.

(** The process after the three lists have grown by the given entries. *)
Definition extend (st : Process) (ps ls gs : list pyval) : Process :=
  mkProcess (image_paths_obj st ++ ps) (labels_obj st ++ ls)
            (gender_labels_obj st ++ gs) (opened st) (stdout st).

(** The invariant of the process state that every run of either [setup]
    maintains, whether it returns or raises. *)
Definition reachable_shape (st : Process) : Prop :=
  List.length (labels_obj st) = List.length (image_paths_obj st)
  /\ (List.length (gender_labels_obj st) <= List.length (image_paths_obj st))%nat.

End Scan.

(** ** Small worlds to run the code on *)

Module Worlds.

Import Dataset.

(** Two metadata tables, one profile each, and one picture per profile. *)
Definition two_tables : World :=
  mkWorld
    (fun meta =>
       if String.eqb meta "a.csv"
       then inr [("path", [PStr "000001_female_Asian_20"])]
       else if String.eqb meta "b.csv"
       then inr [("path", [PStr "000002_male_Asian_30"])]
       else inl ParserError)%string
    (fun p => String.eqb p "r/000001_female_Asian_20/mask1.jpg"
              || String.eqb p "r/000002_male_Asian_30/normal.jpg")%string
    (fun _ => inr [[(255, 255, 255)%Z]]).

(** A table whose [path] column holds [cells], in a file system that
    holds exactly the paths [on_disk]; no picture can be decoded. *)
Definition cell_table (cells : list pyval) (on_disk : list string) : World :=
  mkWorld
    (fun _ => inr [("path"%string, cells)])
    (fun p => str_in p on_disk)
    (fun _ => inl OSError).

(** The same for a column of profile names. *)
Definition odd_table (profiles on_disk : list string) : World :=
  cell_table (map PStr profiles) on_disk.

(** A table with a well-formed profile and then a malformed one, each with
    one picture on disk. *)
Definition good_then_bad : World :=
  odd_table ["000001_male_Asian_20"; "bad"]%string
            ["r/000001_male_Asian_20/mask1.jpg"; "r/bad/normal.jpg"]%string.

(** The lists after the multi-label [setup] has raised on [good_then_bad],
    started in a fresh process. *)
Definition after_bad : Process :=
  mkProcess [PStr "r/000001_male_Asian_20/mask1.jpg"; PStr "r/bad/normal.jpg"]
            [PInt 0; PInt 2] [PInt 0] [] [].

(** A table with a well-formed profile and then one of a gender the lookup
    does not know, each with one picture on disk. *)
Definition good_then_other : World :=
  odd_table ["000001_female_Asian_20"; "000002_other_Asian_30"]%string
            ["r/000001_female_Asian_20/mask1.jpg";
             "r/000002_other_Asian_30/mask2.jpg"]%string.

(** A table with a profile whose gender field is [mro], one picture of it
    on disk. *)
Definition gender_mro : World :=
  odd_table ["000003_mro_Asian_40"]%string
            ["r/000003_mro_Asian_40/mask1.jpg"]%string.

(** The lists after the multi-label [setup] has returned on [gender_mro],
    started in a fresh process. *)
Definition after_mro : Process :=
  mkProcess [PStr "r/000003_mro_Asian_40/mask1.jpg"] [PInt 0]
            [PBuiltinMethod "mro"] [] [].

(** A table with a well-formed profile, one picture of it on disk, and
    then a missing value, which pandas reads as [nan]. *)
Definition good_then_missing : World :=
  cell_table [PStr "000001_male_Asian_20"; PFloat Nan;
              PStr "000002_female_Asian_30"]
             ["r/000001_male_Asian_20/mask1.jpg";
              "r/000002_female_Asian_30/mask1.jpg"]%string.

(** A frame without a [path] column. *)
Definition no_path_column : World :=
  mkWorld (fun _ => inr [("id"%string, [PInt 1]);
                         ("gender"%string, [PStr "male"])])
          (fun _ => true)
          (fun _ => inl OSError).

(** The lists after the base [setup] over table [a.csv] of [two_tables],
    started in a fresh process. *)
Definition after_a : Process :=
  mkProcess [PStr "r/000001_female_Asian_20/mask1.jpg"] [PInt 0] [] [] [].

Definition base_ds (meta : string) : Instance :=
  mkInstance MaskBaseDataset "r" meta "train" None None.

Definition multi_ds (meta : string) : Instance :=
  mkInstance MaskMultiLabelDataset "r" meta "train" None None.

End Worlds.

(** ** The variance relation, as the specification words it *)

Module StatSpec.

Definition mean_R (xs : list R) : R :=
  (fold_right Rplus 0 xs / INR (List.length xs))%R.

(** [sqrt(E[X^2] - E[X]^2)] with [X] ranging over the given 8-bit
    intensities of one channel, each scaled to [0,1]. *)
Definition std_by_variance_relation (intensities : list Z) : R :=
  let xs := map (fun v => IZR v / 255)%R intensities in
  sqrt (mean_R (map (fun x => x ^ 2)%R xs) - mean_R xs ^ 2).

End StatSpec.

(** A world with one picture, a single white pixel, already indexed. *)
Module White.

Import Dataset.

Definition world : World :=
  mkWorld (fun _ => inr [("path"%string, [])])
          (fun _ => false)
          (fun _ => inr [[(255, 255, 255)%Z]]).

Definition indexed : Process :=
  mkProcess [PStr "r/p/mask1.jpg"] [PInt 0] [] [] [].

(** A dataset whose statistics are absent. *)
Definition no_stats : Instance :=
  mkInstance MaskBaseDataset "r" "meta.csv" "train" None None.

(** The process once the one picture has been sampled. *)
Definition sampled : Process :=
  mkProcess [PStr "r/p/mask1.jpg"] [PInt 0] [] ["r/p/mask1.jpg"%string]
            [statistics_warning].

(** The dataset as [calc_statistics] leaves it. *)
Definition with_stats : Instance :=
  let sums := [mean_axis01 (fun x => x) [[(255, 255, 255)%Z]]] in
  let squared := [mean_axis01 square32 [[(255, 255, 255)%Z]]] in
  let new_mean := stats_map div255 (np_mean_axis0 sums) in
  mkInstance MaskBaseDataset "r" "meta.csv" "train"
    (Some new_mean)
    (Some (stats_map (fun x => div255 (float_sqrt x))
             (stats_sub (np_mean_axis0 squared) (stats_map square new_mean)))).

(** A world whose one picture is a single pixel with a red value that
    fits in 16 bits and whose square does not fit in an int32. *)
Definition wide_world : World :=
  mkWorld (fun _ => inr [("path"%string, [])])
          (fun _ => false)
          (fun _ => inr [[(46341, 0, 0)%Z]]).

End White.

(** ** dataset.py: fetching a sample *)

Module Fetch.

Import Dataset Transforms.

(** What [__getitem__] returns beside the tensor: the label, or the array
    [np.array([base_label, gender_label])]. *)
Inductive target :=
| Label (label : pyval)
| LabelArray (base_label gender_label : pyval).

Section WithLibrary.

Variable rng : Type.

(** Pictures are what the decoder of the world returns. *)
Variable lib : Library rng image.

Variable w : World.

(** A method that touches both the process and the random generator. *)
Definition F (A : Type) : Type := Process -> rng -> (exn + A) * Process * rng.

(** [MaskBaseDataset.__getitem__] *)
Definition getitem_base (self : Instance) (index : Z)
    : F (value image * target) :=
  fun st g =>
    match read_image w self index st with
    | (inl e, st1) => (inl e, st1, g)
    | (inr img, st1) =>
        match get_label self index st1 with
        | (inl e, st2) => (inl e, st2, g)
        | (inr label, st2) =>
            match transform lib self (Pil img) g with
            | (inl e, g') => (inl e, st2, g')
            | (inr image_transform, g') =>
                (inr (image_transform, Label label), st2, g')
            end
        end
    end.

(** [MaskMultiLabelDataset.__getitem__] *)
Definition getitem_multi (self : Instance) (index : Z)
    : F (value image * target) :=
  fun st g =>
    match read_image w self index st with
    | (inl e, st1) => (inl e, st1, g)
    | (inr img, st1) =>
        match get_label self index st1 with
        | (inl e, st2) => (inl e, st2, g)
        | (inr base_label, st2) =>
            match get_gender_label self index st2 with
            | (inl e, st3) => (inl e, st3, g)
            | (inr gender_label, st3) =>
                match transform lib self (Pil img) g with
                | (inl e, g') => (inl e, st3, g')
                | (inr image_transform, g') =>
                    (inr (image_transform, LabelArray base_label gender_label),
                     st3, g')
                end
            end
        end
    end.

(** [dataset[index]]: the method found first along the MRO. *)
Definition __getitem__ (self : Instance) (index : Z)
    : F (value image * target) :=
  match cls self with
  | MaskBaseDataset => getitem_base self index
  | MaskMultiLabelDataset => getitem_multi self index
  end.

End WithLibrary.

(** The small library of [Transforms], over decoded pictures. *)
Definition toy_image_library : Library nat image :=
  mkLibrary
    (fun _ _ v => inr v)
    (fun _ v g => (inr v, S g))
    (fun _ _ v g => (inr v, S g))
    (fun _ _ _ v g => (inr v, S g))
    (fun v => match v with
              | Pil _ => inr (Tensor [1%nat] [0%R])
              | Tensor sh d => inr (Tensor sh d)
              end)
    (fun _ _ v => inr v)
    (fun shape g => (repeat (INR g) (fold_right Nat.mul 1%nat shape), S g)).

(** The process after one more picture has been handed to the decoder. *)
Definition after_open (st : Process) (path : string) : Process :=
  mkProcess (image_paths_obj st) (labels_obj st) (gender_labels_obj st)
            (opened st ++ [path]) (stdout st).

(** A process whose [gender_labels] is one entry short, as left by a base
    construction followed by a multi-label one. *)
Definition one_short : Process :=
  mkProcess [PStr "r/000001_female_Asian_20/mask1.jpg";
             PStr "r/000002_male_Asian_30/normal.jpg"]
            [PInt 0; PInt 2] [PInt 0] [] [].

End Fetch.

(** ** Sequences of constructions in one process *)

Module Runs.

Import Dataset.

(** The arguments of one constructor call, with the class called. *)
Record call_args := mkCall {
  call_cls : klass;
  call_img_root : string;
  call_meta_path : string;
  call_phase : string;
  call_mean : option stats;
  call_std : option stats
}.

(** The process after the given constructor calls, one after the other,
    whether each returns or raises. *)
Fixpoint construct_all (w : World) (calls : list call_args) (st : Process)
    : Process :=
  match calls with
  | [] => st
  | c :: rest =>
      construct_all w rest
        (snd (__init__ (call_cls c) w (call_img_root c) (call_meta_path c)
                       (call_phase c) (call_mean c) (call_std c) st))
  end.

End Runs.

(** ** Profile names, put together *)

Module ProfileNames.

(** [sep.join(fields)] for a one-character separator. *)
Fixpoint join_with (sep : ascii) (fields : list string) : string :=
  match fields with
  | [] => EmptyString
  | [field] => field
  | field :: rest => (field ++ String sep (join_with sep rest))%string
  end.

(** The name of the profile directory of a subject. *)
Definition profile_name (id gender race age : string) : string :=
  join_with "_" [id; gender; race; age].

End ProfileNames.

(** ** Pictures as the decoder delivers them *)

Module Pictures.

Import Dataset.

Definition channel_ok (v : Z) : Prop := (0 <= v <= 255)%Z.

Definition pixel_ok (px : pixel) : Prop :=
  let '(r, g, b) := px in channel_ok r /\ channel_ok g /\ channel_ok b.

(** An 8-bit RGB picture with at least one pixel. *)
Definition picture_ok (img : image) : Prop :=
  concat img <> [] /\ Forall pixel_ok (concat img).

(** Three real numbers as an array of floats. *)
Definition real3 (v : R * R * R) : vec3 :=
  let '(a, b, c) := v in (Real a, Real b, Real c).

Definition rsum (vs : list (R * R * R)) : R * R * R :=
  fold_right (fun a b : R * R * R =>
                let '(a1, a2, a3) := a in
                let '(b1, b2, b3) := b in
                (a1 + b1, a2 + b2, a3 + b3)%R)
             (0, 0, 0)%R vs.

(** The mean over the pixels of a picture that has some. *)
Definition pixel_mean (f : Z -> Z) (img : image) : R * R * R :=
  let pixels := concat img in
  let n := INR (List.length pixels) in
  let '(s1, s2, s3) :=
    rsum (map (fun px : pixel =>
                 let '(r, g, b) := px in
                 (IZR (f (wrap32 r)), IZR (f (wrap32 g)), IZR (f (wrap32 b))))
              pixels) in
  (s1 / n, s2 / n, s3 / n)%R.

(** Componentwise, for a sum [a] of 8-bit values and a sum [q] of their
    squares taken [k]-fold: [0 <= a <= 255 k] and [a <= q <= 65025 k]. *)
Definition bounded2 (k : R) (a q : R * R * R) : Prop :=
  let '(a1, a2, a3) := a in
  let '(q1, q2, q3) := q in
  ((0 <= a1 <= 255 * k /\ a1 <= q1 <= 65025 * k)
   /\ (0 <= a2 <= 255 * k /\ a2 <= q2 <= 65025 * k)
   /\ (0 <= a3 <= 255 * k /\ a3 <= q3 <= 65025 * k))%R.

(** [path] is a string that the decoder of [w] turns into [img]. *)
Definition decodes (w : World) (path : pyval) (img : image) : Prop :=
  exists p, path = PStr p /\ image_open w p = inr img.

(** A number between 0 and [hi]. *)
Definition float_within (hi : R) (x : float) : Prop :=
  match x with
  | Real r => (0 <= r <= hi)%R
  | Nan => False
  end.

(** Each component is a number between 0 and [hi]. *)
Definition stats_within (hi : R) (s : stats) : Prop :=
  match s with
  | Vec3 r g b => float_within hi r /\ float_within hi g /\ float_within hi b
  | NaN => False
  end.

End Pictures.

(** ** The samples of a scan, one record each *)

Module Entries.

Import Dataset Scan.

(** A sample: the profile it belongs to and its canonical file with the
    label of that file. *)
Definition entry := (string * (string * Z))%type.

Definition entry_path (self : Instance) (pe : entry) : pyval :=
  PStr (img_path_of self (fst pe) (fst (snd pe))).

Definition entry_label (pe : entry) : pyval := PInt (snd (snd pe)).

(** The samples that a scan of the table keeps, in the order of the loops. *)
Definition entries_of (w : World) (self : Instance) (profiles : list string)
    : list entry :=
  flat_map (fun profile => map (pair profile) (kept w self profile)) profiles.

(** A sample that passed the test of line 75, for a canonical file. *)
Definition entry_kept (w : World) (self : Instance) (pe : entry) : Prop :=
  In (snd pe) _file_names
  /\ path_exists w (img_path_of self (fst pe) (fst (snd pe))) = true
  /\ is_image_file (img_path_of self (fst pe) (fst (snd pe))) = true.

(** What the lookup of line 160 can return. *)
Definition gender_value (v : pyval) : Prop :=
  v = PInt 0 \/ v = PInt 1 \/ v = PBuiltinMethod "mro".

End Entries.

(** ** Facts about the two [setup] loops *)

Module SetupFacts.

Import Dataset Scan.

(** No field of a split contains the separator: the name handed to
    [getattr] in line 160 never has an underscore. *)
Lemma split_fields_sep_free (sep : ascii) (s : string) :
  Forall (fun field => has_char sep field = false) (split sep s).
Proof.
  induction s as [|c rest IH]; simpl.
  - repeat constructor.
  - destruct (Ascii.eqb c sep) eqn:Hc.
    + constructor; [reflexivity|exact IH].
    + destruct (split sep rest) as [|field fields].
      * repeat constructor. simpl. now rewrite Hc.
      * inversion IH as [|? ? Hf Hfs]; subst.
        constructor; [simpl; now rewrite Hc, Hf|exact Hfs].
Qed.

Lemma resolve_image_paths (c : klass) :
  lookup_mro (mro c) "image_paths" = Some ImagePathsObj.
Proof. destruct c; reflexivity. Qed.

Lemma resolve_labels (c : klass) :
  lookup_mro (mro c) "labels" = Some LabelsObj.
Proof. destruct c; reflexivity. Qed.

Lemma resolve_gender_labels :
  lookup_mro (mro MaskMultiLabelDataset) "gender_labels" = Some GenderLabelsObj.
Proof. reflexivity. Qed.

Lemma for_each_cons {A} (x : A) (xs : list A) (body : A -> M unit)
    (st : Process) :
  for_each (x :: xs) body st =
  match body x st with
  | (inr _, st') => for_each xs body st'
  | (inl e, st') => (inl e, st')
  end.
Proof. reflexivity. Qed.

Lemma extend_nil (st : Process) : extend st [] [] [] = st.
Proof. destruct st; unfold extend; simpl; now rewrite !app_nil_r. Qed.

Lemma extend_extend (st : Process) (a b c a' b' c' : list pyval) :
  extend (extend st a b c) a' b' c' = extend st (a ++ a') (b ++ b') (c ++ c').
Proof. unfold extend; simpl; now rewrite !app_assoc. Qed.

Lemma append_image_paths (self : Instance) (v : pyval) (st : Process) :
  append self "image_paths" v st = (inr tt, extend st [v] [] []).
Proof.
  unfold append, list_attr, bind. rewrite resolve_image_paths.
  unfold ret, extend; simpl. now rewrite !app_nil_r.
Qed.

Lemma append_labels (self : Instance) (v : pyval) (st : Process) :
  append self "labels" v st = (inr tt, extend st [] [v] []).
Proof.
  unfold append, list_attr, bind. rewrite resolve_labels.
  unfold ret, extend; simpl. now rewrite !app_nil_r.
Qed.

Lemma append_gender_labels (self : Instance) (v : pyval) (st : Process) :
  cls self = MaskMultiLabelDataset ->
  append self "gender_labels" v st = (inr tt, extend st [] [] [v]).
Proof.
  intros Hc. unfold append, list_attr, bind. rewrite Hc, resolve_gender_labels.
  unfold ret, extend; simpl. now rewrite !app_nil_r.
Qed.

Section Loops.

Variable w : World.
Variable self : Instance.

(** One step of the base loop, on a cell that is a string. *)
Lemma base_body_eq (profile : string) (e : string * Z) (st : Process) :
  base_body w self (PStr profile) e st =
  if keeps w self profile e
  then (inr tt, extend st (paths_of self profile [e]) (labels_of [e]) [])
  else (inr tt, st).
Proof.
  destruct e as [file_name label]. unfold base_body, keeps, bind. simpl.
  destruct (path_exists w _ && is_image_file _); [|reflexivity].
  rewrite append_image_paths, append_labels, extend_extend.
  reflexivity.
Qed.

(** On a cell that is not a string, joining the path raises before
    anything is appended; the first canonical file ends both loops. *)
Lemma base_cell_refused (c : pyval) (st : Process) :
  is_str c = false ->
  for_each _file_names (base_body w self c) st = (inl TypeError, st).
Proof. destruct c; try discriminate; reflexivity. Qed.

Lemma multi_cell_refused (c : pyval) (st : Process) :
  is_str c = false ->
  for_each _file_names (multi_body w self c) st = (inl TypeError, st).
Proof. destruct c; try discriminate; reflexivity. Qed.

(** The inner loop of the base class appends the kept files, in order. *)
Lemma base_inner (profile : string) (fs : list (string * Z)) (st : Process) :
  for_each fs (base_body w self (PStr profile)) st =
  (inr tt, extend st (paths_of self profile (filter (keeps w self profile) fs))
                     (labels_of (filter (keeps w self profile) fs)) []).
Proof.
  revert st. induction fs as [|e fs IH]; intros st.
  - simpl. now rewrite extend_nil.
  - rewrite for_each_cons. rewrite base_body_eq. simpl filter.
    destruct (keeps w self profile e).
    + rewrite IH, extend_extend. reflexivity.
    + apply IH.
Qed.

Lemma base_outer (profiles : list string) (st : Process) :
  for_each (map PStr profiles)
    (fun profile => for_each _file_names (base_body w self profile)) st =
  (inr tt, extend st (scan_paths w self profiles) (scan_labels w self profiles) []).
Proof.
  revert st. induction profiles as [|p ps IH]; intros st.
  - simpl. now rewrite extend_nil.
  - cbn [map]. rewrite for_each_cons. cbv beta.
    rewrite base_inner, IH, extend_extend. reflexivity.
Qed.

Lemma for_each_app {A} (xs ys : list A) (body : A -> M unit) (st : Process) :
  for_each (xs ++ ys) body st =
  match for_each xs body st with
  | (inr _, st') => for_each ys body st'
  | (inl e, st') => (inl e, st')
  end.
Proof.
  revert st. induction xs as [|x xs IH]; intros st; [reflexivity|].
  rewrite <- app_comm_cons, !for_each_cons.
  destruct (body x st) as [[e|[]] st1]; [reflexivity|apply IH].
Qed.

(** The base loop stops at the first cell that is not a string. *)
Lemma base_outer_refused (pre : list string) (c : pyval) (post : list pyval)
    (st : Process) :
  is_str c = false ->
  for_each (map PStr pre ++ c :: post)
    (fun profile => for_each _file_names (base_body w self profile)) st =
  (inl TypeError,
   extend st (scan_paths w self pre) (scan_labels w self pre) []).
Proof.
  intros Hc. rewrite for_each_app, base_outer, for_each_cons. cbv beta.
  now rewrite base_cell_refused.
Qed.

Hypothesis multi : cls self = MaskMultiLabelDataset.

(** One step of the multi-label loop: path and label are appended before
    the profile name is parsed. *)
Lemma multi_body_eq (profile : string) (e : string * Z) (st : Process) :
  multi_body w self (PStr profile) e st =
  if keeps w self profile e
  then match gender_label_of profile with
       | inr g => (inr tt, extend st (paths_of self profile [e]) (labels_of [e]) [g])
       | inl x => (inl x, extend st (paths_of self profile [e]) (labels_of [e]) [])
       end
  else (inr tt, st).
Proof.
  destruct e as [file_name label]. unfold multi_body, keeps, bind. simpl.
  destruct (path_exists w _ && is_image_file _); [|reflexivity].
  rewrite append_image_paths, append_labels, extend_extend.
  destruct (gender_label_of profile) as [x|g]; simpl.
  - reflexivity.
  - unfold ret. rewrite append_gender_labels by exact multi. rewrite extend_extend.
    reflexivity.
Qed.

Lemma multi_inner_ok (profile : string) (g : pyval) (fs : list (string * Z))
    (st : Process) :
  gender_label_of profile = inr g ->
  for_each fs (multi_body w self (PStr profile)) st =
  (inr tt, extend st (paths_of self profile (filter (keeps w self profile) fs))
                     (labels_of (filter (keeps w self profile) fs))
                     (repeat g (List.length (filter (keeps w self profile) fs)))).
Proof.
  intros Hg. revert st. induction fs as [|e fs IH]; intros st.
  - simpl. now rewrite extend_nil.
  - rewrite for_each_cons. rewrite multi_body_eq, Hg. simpl filter.
    destruct (keeps w self profile e).
    + rewrite IH, extend_extend. reflexivity.
    + apply IH.
Qed.

Lemma multi_inner_skip (profile : string) (fs : list (string * Z)) (st : Process) :
  filter (keeps w self profile) fs = [] ->
  for_each fs (multi_body w self (PStr profile)) st = (inr tt, st).
Proof.
  revert st. induction fs as [|e fs IH]; intros st Hf; [reflexivity|].
  simpl in Hf. rewrite for_each_cons. rewrite multi_body_eq.
  destruct (keeps w self profile e); [discriminate|]. now apply IH.
Qed.

(** The inner loop stops at the first kept file of a profile whose name
    does not parse: that file's path and label are in, its gender is not. *)
Lemma multi_inner_fail (profile : string) (x : exn) (fs : list (string * Z))
    (e : string * Z) (rest : list (string * Z)) (st : Process) :
  gender_label_of profile = inl x ->
  filter (keeps w self profile) fs = e :: rest ->
  for_each fs (multi_body w self (PStr profile)) st =
  (inl x, extend st (paths_of self profile [e]) (labels_of [e]) []).
Proof.
  intros Hg. revert st. induction fs as [|e' fs IH]; intros st Hf; [discriminate|].
  simpl in Hf. rewrite for_each_cons. rewrite multi_body_eq, Hg.
  destruct (keeps w self profile e').
  - injection Hf as -> _. reflexivity.
  - now apply IH.
Qed.

Lemma no_sample_kept (profile : string) :
  has_sample w self profile = false -> kept w self profile = [].
Proof.
  unfold has_sample, kept. induction _file_names as [|e fs IH]; [reflexivity|].
  simpl. destruct (keeps w self profile e); [discriminate|exact IH].
Qed.

Lemma sample_kept (profile : string) :
  has_sample w self profile = true ->
  exists e rest, kept w self profile = e :: rest.
Proof.
  unfold has_sample, kept. induction _file_names as [|e fs IH]; [discriminate|].
  simpl. destruct (keeps w self profile e); eauto.
Qed.

(** A profile the loop gets past contributes its kept files to all three
    lists. *)
Lemma multi_profile_ok (profile : string) (st : Process) :
  profile_ok w self profile = true ->
  for_each _file_names (multi_body w self (PStr profile)) st =
  (inr tt, extend st (paths_of self profile (kept w self profile))
                     (labels_of (kept w self profile))
                     (genders_of w self profile)).
Proof.
  unfold profile_ok, genders_of. intros Hok.
  destruct (gender_label_of profile) as [x|g] eqn:Hg.
  - rewrite orb_false_r, negb_true_iff in Hok.
    rewrite multi_inner_skip by (apply no_sample_kept; exact Hok).
    rewrite (no_sample_kept _ Hok). simpl. now rewrite extend_nil.
  - now rewrite (multi_inner_ok _ _ _ Hg).
Qed.

Lemma multi_profile_bad (profile : string) (st : Process) :
  profile_ok w self profile = false ->
  exists e rest x,
    kept w self profile = e :: rest
    /\ gender_label_of profile = inl x
    /\ for_each _file_names (multi_body w self (PStr profile)) st =
       (inl x, extend st (paths_of self profile [e]) (labels_of [e]) []).
Proof.
  unfold profile_ok. intros Hbad. apply orb_false_iff in Hbad as [Hs Hg].
  apply negb_false_iff in Hs. destruct (sample_kept _ Hs) as (e & rest & Hk).
  destruct (gender_label_of profile) as [x|g] eqn:Hx; [|discriminate].
  exists e, rest, x. repeat split; trivial.
  now apply multi_inner_fail with (rest := rest).
Qed.

Lemma multi_outer_ok (profiles : list string) (st : Process) :
  Forall (fun p => profile_ok w self p = true) profiles ->
  for_each (map PStr profiles)
    (fun profile => for_each _file_names (multi_body w self profile)) st =
  (inr tt, extend st (scan_paths w self profiles) (scan_labels w self profiles)
                     (scan_genders w self profiles)).
Proof.
  intros Hall. revert st. induction Hall as [|p ps Hp _ IH]; intros st.
  - simpl. now rewrite extend_nil.
  - cbn [map]. rewrite for_each_cons. cbv beta.
    rewrite (multi_profile_ok _ _ Hp), IH, extend_extend. reflexivity.
Qed.

(** The loop over the table stops at the first profile it cannot get past. *)
Lemma multi_outer_fail (pre : list string) (post : list pyval) (p : string)
    (st : Process) :
  Forall (fun q => profile_ok w self q = true) pre ->
  profile_ok w self p = false ->
  exists e rest x,
    kept w self p = e :: rest
    /\ gender_label_of p = inl x
    /\ for_each (map PStr pre ++ PStr p :: post)
         (fun profile => for_each _file_names (multi_body w self profile)) st =
       (inl x, extend st (scan_paths w self pre ++ paths_of self p [e])
                         (scan_labels w self pre ++ labels_of [e])
                         (scan_genders w self pre)).
Proof.
  intros Hpre Hbad.
  destruct (multi_profile_bad p
              (extend st (scan_paths w self pre) (scan_labels w self pre)
                         (scan_genders w self pre)) Hbad)
    as (e & rest & x & Hk & Hg & Hrun).
  exists e, rest, x. repeat split; trivial.
  rewrite for_each_app, (multi_outer_ok _ Hpre), for_each_cons. cbv beta.
  rewrite Hrun, extend_extend, app_nil_r. reflexivity.
Qed.

(** It also stops at the first cell that is not a string, with the three
    lists as the earlier profiles left them. *)
Lemma multi_outer_refused (pre : list string) (c : pyval) (post : list pyval)
    (st : Process) :
  Forall (fun q => profile_ok w self q = true) pre ->
  is_str c = false ->
  for_each (map PStr pre ++ c :: post)
    (fun profile => for_each _file_names (multi_body w self profile)) st =
  (inl TypeError,
   extend st (scan_paths w self pre) (scan_labels w self pre)
             (scan_genders w self pre)).
Proof.
  intros Hpre Hc.
  rewrite for_each_app, (multi_outer_ok _ Hpre), for_each_cons. cbv beta.
  now rewrite multi_cell_refused.
Qed.

End Loops.

(** A column is made of strings, or of strings up to a first cell that is
    not one. *)
Lemma cells_shape (cells : list pyval) :
  (exists profiles, cells = map PStr profiles)
  \/ exists pre c post, cells = map PStr pre ++ c :: post /\ is_str c = false.
Proof.
  induction cells as [|c cells IH].
  - left. now exists [].
  - destruct (is_str c) eqn:Hc.
    + destruct c as [p| | | |]; try discriminate.
      destruct IH as [[ps ->] | (pre & c' & post & -> & Hc')].
      * left. now exists (p :: ps).
      * right. exists (p :: pre), c', post. now split.
    + right. exists [], c, cells. now split.
Qed.

Lemma map_PStr_inj (a b : list string) : map PStr a = map PStr b -> a = b.
Proof.
  revert b. induction a as [|x a IH]; intros [|y b]; simpl; try discriminate;
    trivial.
  intros [= -> H]. f_equal. now apply IH.
Qed.

(** Either every profile of a table is passable, or there is a first one
    that is not. *)
Lemma first_bad_profile (w : World) (self : Instance) (profiles : list string) :
  Forall (fun p => profile_ok w self p = true) profiles
  \/ exists pre p post,
       profiles = pre ++ p :: post
       /\ Forall (fun q => profile_ok w self q = true) pre
       /\ profile_ok w self p = false.
Proof.
  induction profiles as [|p ps IH].
  - left. constructor.
  - destruct (profile_ok w self p) eqn:Hp.
    + destruct IH as [Hall | (pre & q & post & -> & Hpre & Hq)].
      * left. now constructor.
      * right. exists (p :: pre), q, post. repeat split; trivial.
        now constructor.
    + right. exists [], p, ps. repeat split; trivial.
Qed.

(** What [gender_label_of] can raise. *)
Lemma gender_label_of_raises (profile : string) (x : exn) :
  gender_label_of profile = inl x -> x = ValueError \/ x = AttributeError.
Proof.
  unfold gender_label_of, getattr_GenderLabels.
  destruct (split "_" profile) as [|a [|b [|c [|d [|]]]]];
    try (intros [= <-]; now left).
  repeat match goal with |- context [if ?c then _ else _] => destruct c end;
    intros [= <-]; now right.
Qed.

(** Reading the table comes first: what it raises, [setup] raises, with
    nothing touched. *)
Lemma setup_read_error (w : World) (self : Instance) (e : exn) (st : Process) :
  read_csv w (meta_path self) = inl e ->
  setup w self st = (inl e, st).
Proof.
  intros Hr. unfold setup, setup_base, setup_multi, bind.
  destruct (cls self); rewrite Hr; reflexivity.
Qed.

Lemma setup_loops (w : World) (self : Instance) (df : DataFrame)
    (cells : list pyval) (st : Process) :
  read_csv w (meta_path self) = inr df ->
  df_column df "path" = inr cells ->
  setup w self st =
  match cls self with
  | MaskBaseDataset =>
      for_each cells
        (fun profile => for_each _file_names (base_body w self profile)) st
  | MaskMultiLabelDataset =>
      for_each cells
        (fun profile => for_each _file_names (multi_body w self profile)) st
  end.
Proof.
  intros Hr Hc. unfold setup, setup_base, setup_multi, bind.
  destruct (cls self); rewrite Hr; simpl; rewrite Hc; reflexivity.
Qed.

(** A table without a [path] column: nothing is touched. *)
Lemma setup_no_column (w : World) (self : Instance) (df : DataFrame) (e : exn)
    (st : Process) :
  read_csv w (meta_path self) = inr df ->
  df_column df "path" = inl e ->
  setup w self st = (inl e, st).
Proof.
  intros Hr Hc. unfold setup, setup_base, setup_multi, bind.
  destruct (cls self); rewrite Hr; simpl; rewrite Hc; reflexivity.
Qed.

(** What a run over a passable table does. *)
Lemma setup_passable (w : World) (self : Instance) (st : Process)
    (df : DataFrame) (profiles : list string) :
  read_csv w (meta_path self) = inr df ->
  df_column df "path" = inr (map PStr profiles) ->
  (cls self = MaskMultiLabelDataset ->
   Forall (fun p => profile_ok w self p = true) profiles) ->
  setup w self st =
  (inr tt, extend st (scan_paths w self profiles) (scan_labels w self profiles)
                     (appended_genders w self profiles)).
Proof.
  intros Hr Hc Hok. rewrite (setup_loops _ _ st Hr Hc). unfold appended_genders.
  destruct (cls self) eqn:Hcls.
  - apply base_outer.
  - apply (multi_outer_ok w self Hcls st (Hok eq_refl)).
Qed.

(** A run that meets a cell that is not a string, every earlier cell being
    a profile it gets past. *)
Lemma setup_refused (w : World) (self : Instance) (st : Process)
    (df : DataFrame) (pre : list string) (c : pyval) (post : list pyval) :
  read_csv w (meta_path self) = inr df ->
  df_column df "path" = inr (map PStr pre ++ c :: post) ->
  is_str c = false ->
  (cls self = MaskMultiLabelDataset ->
   Forall (fun p => profile_ok w self p = true) pre) ->
  setup w self st =
  (inl TypeError,
   extend st (scan_paths w self pre) (scan_labels w self pre)
             (appended_genders w self pre)).
Proof.
  intros Hr Hc Hcell Hok. rewrite (setup_loops _ _ st Hr Hc).
  unfold appended_genders. destruct (cls self) eqn:Hcls.
  - now apply base_outer_refused.
  - apply (multi_outer_refused w self Hcls); auto.
Qed.

(** The three ways a run that has read its table can go: through a table
    of passable profiles; up to the first kept file of a profile whose
    name does not parse; up to a cell that is not a string. *)
Lemma setup_outcome (w : World) (self : Instance) (st : Process)
    (df : DataFrame) (cells : list pyval) :
  read_csv w (meta_path self) = inr df ->
  df_column df "path" = inr cells ->
  (exists profiles,
      cells = map PStr profiles
      /\ (cls self = MaskMultiLabelDataset ->
          Forall (fun p => profile_ok w self p = true) profiles)
      /\ setup w self st =
         (inr tt, extend st (scan_paths w self profiles)
                            (scan_labels w self profiles)
                            (appended_genders w self profiles)))
  \/ (exists pre p post e rest x,
        cls self = MaskMultiLabelDataset
        /\ cells = map PStr pre ++ PStr p :: post
        /\ Forall (fun q => profile_ok w self q = true) pre
        /\ kept w self p = e :: rest
        /\ gender_label_of p = inl x
        /\ setup w self st =
           (inl x, extend st (scan_paths w self pre ++ paths_of self p [e])
                             (scan_labels w self pre ++ labels_of [e])
                             (scan_genders w self pre)))
  \/ (exists pre c post,
        cells = map PStr pre ++ c :: post
        /\ is_str c = false
        /\ (cls self = MaskMultiLabelDataset ->
            Forall (fun q => profile_ok w self q = true) pre)
        /\ setup w self st =
           (inl TypeError,
            extend st (scan_paths w self pre) (scan_labels w self pre)
                      (appended_genders w self pre))).
Proof.
  intros Hr Hc.
  assert (Hname : forall pre p post,
             cls self = MaskMultiLabelDataset ->
             cells = map PStr pre ++ PStr p :: post ->
             Forall (fun q => profile_ok w self q = true) pre ->
             profile_ok w self p = false ->
             exists e rest x,
               kept w self p = e :: rest
               /\ gender_label_of p = inl x
               /\ setup w self st =
                  (inl x, extend st (scan_paths w self pre ++ paths_of self p [e])
                                    (scan_labels w self pre ++ labels_of [e])
                                    (scan_genders w self pre))).
  { intros pre p post Hcls -> Hpre Hbad.
    destruct (multi_outer_fail w self Hcls post p st Hpre Hbad)
      as (e & rest & x & Hk & Hg & Hrun).
    exists e, rest, x. rewrite (setup_loops _ _ st Hr Hc), Hcls. auto. }
  destruct (cls self) eqn:Hcls.
  - destruct (cells_shape cells) as [[ps ->] | (pre & c & post & -> & Hcell)].
    + left. exists ps. split; [reflexivity|]. split; [discriminate|].
      apply (setup_passable w self st Hr Hc). rewrite Hcls. discriminate.
    + right. right. exists pre, c, post. split; [reflexivity|].
      split; [exact Hcell|]. split; [discriminate|].
      apply (setup_refused w self st _ _ Hr Hc Hcell). rewrite Hcls. discriminate.
  - destruct (cells_shape cells) as [[ps ->] | (pre0 & c & post & -> & Hcell)].
    + destruct (first_bad_profile w self ps)
        as [Hall | (pre & p & post & -> & Hpre & Hbad)].
      * left. exists ps. split; [reflexivity|]. split; [auto|].
        apply (setup_passable w self st Hr Hc). auto.
      * right. left.
        destruct (Hname pre p (map PStr post) eq_refl) as (e & rest & x & H);
          trivial.
        { now rewrite map_app. }
        exists pre, p, (map PStr post), e, rest, x.
        rewrite map_app. tauto.
    + destruct (first_bad_profile w self pre0)
        as [Hall | (pre & p & post0 & -> & Hpre & Hbad)].
      * right. right. exists pre0, c, post. split; [reflexivity|].
        split; [exact Hcell|]. split; [auto|].
        apply (setup_refused w self st _ _ Hr Hc Hcell). auto.
      * right. left.
        destruct (Hname pre p (map PStr post0 ++ c :: post) eq_refl)
          as (e & rest & x & H); trivial.
        { now rewrite map_app, <- app_assoc. }
        exists pre, p, (map PStr post0 ++ c :: post), e, rest, x.
        rewrite map_app, <- app_assoc. tauto.
Qed.

(** Lengths of what a scan appends. *)
Lemma scan_labels_length (w : World) (self : Instance) (profiles : list string) :
  List.length (scan_labels w self profiles) =
  List.length (scan_paths w self profiles).
Proof.
  unfold scan_labels, scan_paths, labels_of, paths_of.
  induction profiles as [|p ps IH]; [reflexivity|].
  simpl. now rewrite !length_app, !length_map, IH.
Qed.

Lemma scan_genders_length (w : World) (self : Instance) (profiles : list string) :
  Forall (fun p => profile_ok w self p = true) profiles ->
  List.length (scan_genders w self profiles) =
  List.length (scan_paths w self profiles).
Proof.
  unfold scan_genders, scan_paths, paths_of.
  induction 1 as [|p ps Hp _ IH]; [reflexivity|].
  simpl. rewrite !length_app, length_map, IH. f_equal.
  unfold genders_of. unfold profile_ok in Hp.
  destruct (gender_label_of p).
  - rewrite orb_false_r, negb_true_iff in Hp.
    now rewrite (no_sample_kept _ _ _ Hp).
  - apply repeat_length.
Qed.

End SetupFacts.

(** ** The dataset indexer: lengths, sharing and failures *)

Module DatasetClaims.

Import Dataset Scan SetupFacts Worlds.

(** A run of [setup] that returns has read the table, found nothing but
    strings in its [path] column, and appended, to the lists found through
    the class, exactly what the scan keeps. *)
Lemma setup_returns (w : World) (self : Instance) (st st' : Process) :
  setup w self st = (inr tt, st') ->
  exists df profiles,
    read_csv w (meta_path self) = inr df
    /\ df_column df "path" = inr (map PStr profiles)
    /\ st' = extend st (scan_paths w self profiles)
                       (scan_labels w self profiles)
                       (appended_genders w self profiles)
    /\ (cls self = MaskMultiLabelDataset ->
        Forall (fun p => profile_ok w self p = true) profiles).
Proof.
  intros Hrun.
  destruct (read_csv w (meta_path self)) as [e|df] eqn:Hr.
  { rewrite (setup_read_error _ _ st Hr) in Hrun. discriminate. }
  destruct (df_column df "path") as [e|cells] eqn:Hc.
  { rewrite (setup_no_column _ _ st Hr Hc) in Hrun. discriminate. }
  destruct (setup_outcome w self st Hr Hc)
    as [(ps & -> & Hok & Hs)
       | [(pre & p & post & e & rest & x & _ & _ & _ & _ & _ & Hs)
         | (pre & c & post & _ & _ & _ & Hs)]];
    rewrite Hs in Hrun; try discriminate.
  injection Hrun as <-. exists df, ps. now repeat split.
Qed.

(** From a state in which the lists have equal lengths, a run of [setup]
    that returns leaves them with equal lengths. *)
Lemma setup_keeps_lengths (w : World) (self : Instance) (st st' : Process) :
  setup w self st = (inr tt, st') ->
  List.length (labels_obj st) = List.length (image_paths_obj st) ->
  List.length (labels_obj st') = List.length (image_paths_obj st')
  /\ (cls self = MaskMultiLabelDataset ->
      List.length (gender_labels_obj st) = List.length (image_paths_obj st) ->
      List.length (gender_labels_obj st') = List.length (image_paths_obj st')).
Proof.
  intros Hrun Hl.
  destruct (setup_returns _ _ _ Hrun) as (df & profiles & _ & _ & -> & Hok).
  unfold extend; simpl. rewrite !length_app, scan_labels_length. split.
  - lia.
  - intros Hc Hg. unfold appended_genders. rewrite Hc.
    rewrite scan_genders_length by auto. lia.
Qed.

(** Whether it returns or raises, [setup] keeps [labels] as long as
    [image_paths] and [gender_labels] no longer than them. *)
Lemma setup_reachable_shape (w : World) (self : Instance) (st : Process) :
  reachable_shape st -> reachable_shape (snd (setup w self st)).
Proof.
  intros [Hl Hg].
  destruct (read_csv w (meta_path self)) as [e|df] eqn:Hr.
  { rewrite (setup_read_error _ _ st Hr). now split. }
  destruct (df_column df "path") as [e|cells] eqn:Hc.
  { rewrite (setup_no_column _ _ st Hr Hc). now split. }
  assert (Hgen : forall ps,
             (cls self = MaskMultiLabelDataset ->
              Forall (fun p => profile_ok w self p = true) ps) ->
             (List.length (appended_genders w self ps)
              <= List.length (scan_paths w self ps))%nat).
  { intros ps Hok. unfold appended_genders. destruct (cls self); simpl.
    - apply Nat.le_0_l.
    - rewrite scan_genders_length by auto. apply le_n. }
  destruct (setup_outcome w self st Hr Hc)
    as [(ps & _ & Hok & ->)
       | [(pre & p & post & e & rest & x & _ & _ & Hpre & _ & _ & ->)
         | (pre & c & post & _ & _ & Hok & ->)]];
    unfold reachable_shape, extend; simpl;
    rewrite !length_app, scan_labels_length.
  - pose proof (Hgen ps Hok). lia.
  - rewrite scan_genders_length by auto. simpl. lia.
  - pose proof (Hgen pre Hok). lia.
Qed.

(** C2, evaluated: a base dataset over table [a.csv] and then a multi-label
    dataset over table [b.csv], in one process. Both runs of [setup] return.
    The multi-label dataset then has length 2 and two labels but a single
    gender label, and that gender label (0, male, from the second table)
    sits at the index of the first table's picture; index 1 has a label
    and no gender label. *)
Theorem C2_multi_after_base_misaligned :
  exists st1 st2,
    setup two_tables (base_ds "a.csv") fresh = (inr tt, st1)
    /\ setup two_tables (multi_ds "b.csv") st1 = (inr tt, st2)
    /\ image_paths_obj st2 =
       [PStr "r/000001_female_Asian_20/mask1.jpg";
        PStr "r/000002_male_Asian_30/normal.jpg"]
    /\ labels_obj st2 = [PInt 0; PInt 2]
    /\ gender_labels_obj st2 = [PInt 0]
    /\ __len__ (multi_ds "b.csv") st2 = (inr 2%Z, st2)
    /\ get_label (multi_ds "b.csv") 1 st2 = (inr (PInt 2), st2)
    /\ get_gender_label (multi_ds "b.csv") 0 st2 = (inr (PInt 0), st2)
    /\ get_gender_label (multi_ds "b.csv") 1 st2 = (inl IndexError, st2).
Proof.
  eexists. eexists.
  split; [vm_compute; reflexivity|].
  split; [vm_compute; reflexivity|].
  repeat split; vm_compute; reflexivity.
Qed.

(** With the constants of lines 62-63 in place, [calc_statistics] finds
    statistics present, so the constructor is [setup] and nothing more. *)
Lemma init_eq (c : klass) (w : World) (root meta ph : string)
    (m s : option stats) (st : Process) :
  __init__ c w root meta ph m s st =
  match setup w (mkInstance c root meta ph (Some default_mean) (Some default_std)) st with
  | (inr _, st') =>
      (inr (mkInstance c root meta ph (Some default_mean) (Some default_std)), st')
  | (inl e, st') => (inl e, st')
  end.
Proof.
  unfold __init__, bind.
  destruct (setup w _ st) as [[e|[]] st']; reflexivity.
Qed.

Lemma get_list_image_paths (self : Instance) (st : Process) :
  get_list self "image_paths" st = (inr (image_paths_obj st), st).
Proof.
  unfold get_list, list_attr, bind. now rewrite resolve_image_paths.
Qed.

Lemma get_list_labels (self : Instance) (st : Process) :
  get_list self "labels" st = (inr (labels_obj st), st).
Proof.
  unfold get_list, list_attr, bind. now rewrite resolve_labels.
Qed.

(** C4: two datasets of one class constructed one after the other in a
    process. Both find [image_paths] and [labels] (and [gender_labels],
    where the class has it) on the class, as the same objects, and read
    the same lists from them; and those lists are what was there before
    the first construction, followed by the first dataset's entries,
    followed by the second's, each taken from the profile names of its
    table. *)
Theorem C4_accumulators_shared (w : World) (c : klass)
    (root1 meta1 phase1 root2 meta2 phase2 : string)
    (mean1 std1 mean2 std2 : option stats)
    (a b : Instance) (st0 st1 st2 : Process) :
  __init__ c w root1 meta1 phase1 mean1 std1 st0 = (inr a, st1) ->
  __init__ c w root2 meta2 phase2 mean2 std2 st1 = (inr b, st2) ->
  (lookup_mro (mro (cls a)) "image_paths" = Some ImagePathsObj
   /\ lookup_mro (mro (cls b)) "image_paths" = Some ImagePathsObj)
  /\ (lookup_mro (mro (cls a)) "labels" = Some LabelsObj
      /\ lookup_mro (mro (cls b)) "labels" = Some LabelsObj)
  /\ lookup_mro (mro (cls a)) "gender_labels" =
     lookup_mro (mro (cls b)) "gender_labels"
  /\ get_list a "image_paths" st2 = get_list b "image_paths" st2
  /\ get_list a "labels" st2 = get_list b "labels" st2
  /\ exists df1 profiles1 df2 profiles2,
       read_csv w meta1 = inr df1
       /\ df_column df1 "path" = inr (map PStr profiles1)
       /\ read_csv w meta2 = inr df2
       /\ df_column df2 "path" = inr (map PStr profiles2)
       /\ image_paths_obj st2 =
          (image_paths_obj st0 ++ scan_paths w a profiles1)
            ++ scan_paths w b profiles2
       /\ labels_obj st2 =
          (labels_obj st0 ++ scan_labels w a profiles1)
            ++ scan_labels w b profiles2
       /\ gender_labels_obj st2 =
          (gender_labels_obj st0 ++ appended_genders w a profiles1)
            ++ appended_genders w b profiles2.
Proof.
  rewrite !init_eq. intros Ha Hb.
  destruct (setup w _ st0) as [[e|[]] sa] eqn:Hsa; [discriminate|].
  injection Ha as Ea Es. subst a st1.
  destruct (setup w _ sa) as [[e|[]] sb] eqn:Hsb; [discriminate|].
  injection Hb as Eb Es. subst b st2.
  destruct (setup_returns _ _ _ Hsa) as (df1 & ps1 & Hr1 & Hc1 & Hst1 & _).
  destruct (setup_returns _ _ _ Hsb) as (df2 & ps2 & Hr2 & Hc2 & Hst2 & _).
  split; [split; apply resolve_image_paths|].
  split; [split; apply resolve_labels|].
  split; [reflexivity|].
  split; [now rewrite !get_list_image_paths|].
  split; [now rewrite !get_list_labels|].
  exists df1, ps1, df2, ps2. simpl in Hr1, Hr2.
  rewrite Hst2, Hst1. unfold extend; simpl. repeat split; trivial.
Qed.

Lemma C4_accumulators_shared_witness :
  get_list (mkInstance MaskMultiLabelDataset "r" "a.csv" "train"
                       (Some default_mean) (Some default_std))
           "image_paths"
    (mkProcess [PStr "r/000001_female_Asian_20/mask1.jpg";
                PStr "r/000002_male_Asian_30/normal.jpg"]
               [PInt 0; PInt 2] [PInt 1; PInt 0] [] [])
  = get_list (mkInstance MaskMultiLabelDataset "r" "b.csv" "test"
                         (Some default_mean) (Some default_std))
             "image_paths"
    (mkProcess [PStr "r/000001_female_Asian_20/mask1.jpg";
                PStr "r/000002_male_Asian_30/normal.jpg"]
               [PInt 0; PInt 2] [PInt 1; PInt 0] [] []).
Proof.
  refine (proj1 (proj2 (proj2 (proj2
    (@C4_accumulators_shared two_tables MaskMultiLabelDataset
       "r" "a.csv" "train" "r" "b.csv" "test" None None None None
       (mkInstance MaskMultiLabelDataset "r" "a.csv" "train"
                   (Some default_mean) (Some default_std))
       (mkInstance MaskMultiLabelDataset "r" "b.csv" "test"
                   (Some default_mean) (Some default_std))
       fresh
       (mkProcess [PStr "r/000001_female_Asian_20/mask1.jpg"] [PInt 0]
                  [PInt 1] [] [])
       (mkProcess [PStr "r/000001_female_Asian_20/mask1.jpg";
                   PStr "r/000002_male_Asian_30/normal.jpg"]
                  [PInt 0; PInt 2] [PInt 1; PInt 0] [] [])
       _ _))))); reflexivity.
Defined.

Lemma bad_split_raises (profile : string) :
  List.length (split "_" profile) <> 4%nat ->
  gender_label_of profile = inl ValueError.
Proof.
  unfold gender_label_of.
  destruct (split "_" profile) as [|a [|b [|c [|d [|]]]]]; simpl; intros H;
    try reflexivity. now contradict H.
Qed.

Lemma bad_profile (w : World) (self : Instance) (p : string) (x : exn) :
  has_sample w self p = true ->
  gender_label_of p = inl x ->
  profile_ok w self p = false.
Proof. unfold profile_ok. now intros -> ->. Qed.

(** The run of the multi-label [setup] on a table whose first profile that
    cannot be passed is [p]. *)
Lemma setup_first_bad (w : World) (self : Instance) (st : Process)
    (df : DataFrame) (pre : list string) (post : list pyval) (p : string)
    (x : exn) :
  cls self = MaskMultiLabelDataset ->
  read_csv w (meta_path self) = inr df ->
  df_column df "path" = inr (map PStr pre ++ PStr p :: post) ->
  Forall (fun q => profile_ok w self q = true) pre ->
  has_sample w self p = true ->
  gender_label_of p = inl x ->
  exists e rest,
    kept w self p = e :: rest
    /\ setup w self st =
       (inl x, extend st (scan_paths w self pre ++ paths_of self p [e])
                         (scan_labels w self pre ++ labels_of [e])
                         (scan_genders w self pre)).
Proof.
  intros Hcls Hr Hc Hpre Hs Hg.
  destruct (multi_outer_fail w self Hcls post p st Hpre (bad_profile _ _ _ Hs Hg))
    as (e & rest & y & Hk & Hy & Hrun).
  exists e, rest. split; [exact Hk|].
  rewrite (setup_loops _ _ st Hr Hc), Hcls, Hrun. congruence.
Qed.

(** C7 as stated fails: a table whose only profile is malformed, with none
    of its canonical files on disk. The multi-label [setup] never parses
    the name and returns. *)
Lemma C7_unkept_malformed_profile_passes :
  ~ (forall (w : World) (self : Instance) (st : Process) (df : DataFrame)
            (cells : list pyval) (p : string),
        cls self = MaskMultiLabelDataset ->
        read_csv w (meta_path self) = inr df ->
        df_column df "path" = inr cells ->
        In (PStr p) cells ->
        List.length (split "_" p) <> 4%nat ->
        exists st', setup w self st = (inl ValueError, st')).
Proof.
  intros claim.
  destruct (claim (odd_table ["bad"%string] []) (multi_ds "meta.csv") fresh
                  [("path"%string, [PStr "bad"])] [PStr "bad"] "bad"%string
                  eq_refl eq_refl eq_refl (or_introl eq_refl))
    as [st' Hrun].
  - simpl. discriminate.
  - vm_compute in Hrun. discriminate.
Qed.

(** C7, amended: in the multi-label [setup], a profile name of the table
    that does not split into exactly 4 fields and has a canonical file on
    disk, every earlier cell of the column being a profile name that the
    loop gets past, makes [setup] raise [ValueError]; and a table that
    cannot be parsed makes [setup], of either class, raise the parse
    error, with nothing touched. *)
Theorem C7_setup_errors (w : World) (self : Instance) (st : Process) :
  (cls self = MaskMultiLabelDataset ->
   forall (df : DataFrame) (pre : list string) (post : list pyval) (p : string),
     read_csv w (meta_path self) = inr df ->
     df_column df "path" = inr (map PStr pre ++ PStr p :: post) ->
     Forall (fun q => profile_ok w self q = true) pre ->
     has_sample w self p = true ->
     List.length (split "_" p) <> 4%nat ->
     exists st', setup w self st = (inl ValueError, st'))
  /\ (read_csv w (meta_path self) = inl ParserError ->
      setup w self st = (inl ParserError, st)).
Proof.
  split.
  - intros Hcls df pre post p Hr Hc Hpre Hs Hsplit.
    destruct (@setup_first_bad w self st df pre post p _ Hcls Hr Hc Hpre Hs
                (bad_split_raises _ Hsplit))
      as (e & rest & _ & Hrun).
    eauto.
  - intros Hr. now apply setup_read_error.
Qed.

Lemma C7_setup_errors_witness :
  (exists st', setup good_then_bad (multi_ds "meta.csv") fresh
               = (inl ValueError, st'))
  /\ setup two_tables (base_ds "c.csv") fresh = (inl ParserError, fresh).
Proof.
  split.
  - refine (proj1 (@C7_setup_errors good_then_bad (multi_ds "meta.csv") fresh)
                  eq_refl
                  [("path"%string, [PStr "000001_male_Asian_20"; PStr "bad"])]
                  ["000001_male_Asian_20"%string] [] "bad"%string
                  eq_refl eq_refl _ eq_refl _).
    + constructor; [reflexivity|constructor].
    + simpl. discriminate.
  - exact (proj2 (@C7_setup_errors two_tables (base_ds "c.csv") fresh) eq_refl).
Defined.

(** C9: a run of the multi-label [setup] that has read its table and then
    raises, otherwise than on a cell of the [path] column that is not a
    string. It raised [ValueError] or [AttributeError] on the name of some
    profile [p] of the table, at the first kept file [e] of that profile;
    the path and label of [e] are the last entries of [image_paths] and
    [labels], and [gender_labels] has received the genders of the earlier
    profiles only. So [labels] is as long as [image_paths] and
    [gender_labels] is shorter. *)
Theorem C9_setup_not_atomic (w : World) (self : Instance) (st st' : Process)
    (df : DataFrame) (cells : list pyval) (x : exn) :
  cls self = MaskMultiLabelDataset ->
  read_csv w (meta_path self) = inr df ->
  df_column df "path" = inr cells ->
  reachable_shape st ->
  setup w self st = (inl x, st') ->
  Forall (fun c => is_str c = true) cells \/ x <> TypeError ->
  exists (pre : list string) (post : list pyval) (p : string) (e : string * Z)
         (rest : list (string * Z)),
    cells = map PStr pre ++ PStr p :: post
    /\ kept w self p = e :: rest
    /\ gender_label_of p = inl x
    /\ (x = ValueError \/ x = AttributeError)
    /\ image_paths_obj st' =
       image_paths_obj st ++ scan_paths w self pre
         ++ [PStr (img_path_of self p (fst e))]
    /\ labels_obj st' =
       labels_obj st ++ scan_labels w self pre ++ [PInt (snd e)]
    /\ gender_labels_obj st' = gender_labels_obj st ++ scan_genders w self pre
    /\ List.length (labels_obj st') = List.length (image_paths_obj st')
    /\ (List.length (gender_labels_obj st') < List.length (image_paths_obj st'))%nat.
Proof.
  intros Hcls Hr Hc [Hl Hg] Hrun Hname.
  destruct (setup_outcome w self st Hr Hc)
    as [(ps & _ & _ & Hs)
       | [(pre & p & post & e & rest & y & _ & -> & Hpre & Hk & Hy & Hs)
         | (pre & c & post & -> & Hcell & _ & Hs)]];
    rewrite Hs in Hrun.
  - discriminate.
  - injection Hrun as -> <-.
    exists pre, post, p, e, rest. unfold extend; simpl.
    rewrite !length_app, scan_labels_length, scan_genders_length by auto.
    simpl. repeat split; trivial; try lia.
    now apply gender_label_of_raises with (profile := p).
  - injection Hrun as <- _. destruct Hname as [Hstr | Hx]; [|now contradict Hx].
    apply Forall_app in Hstr as [_ Hstr]. inversion Hstr as [|? ? Hc' _]; subst.
    rewrite Hcell in Hc'. discriminate.
Qed.

Lemma C9_setup_not_atomic_witness :
  exists (pre : list string) (post : list pyval) (p : string) (e : string * Z)
         (rest : list (string * Z)),
    [PStr "000001_male_Asian_20"; PStr "bad"] = map PStr pre ++ PStr p :: post
    /\ kept good_then_bad (multi_ds "meta.csv") p = e :: rest
    /\ gender_label_of p = inl ValueError
    /\ (ValueError = ValueError \/ ValueError = AttributeError)
    /\ image_paths_obj after_bad =
       image_paths_obj fresh
         ++ scan_paths good_then_bad (multi_ds "meta.csv") pre
         ++ [PStr (img_path_of (multi_ds "meta.csv") p (fst e))]
    /\ labels_obj after_bad =
       labels_obj fresh ++ scan_labels good_then_bad (multi_ds "meta.csv") pre
         ++ [PInt (snd e)]
    /\ gender_labels_obj after_bad =
       gender_labels_obj fresh
         ++ scan_genders good_then_bad (multi_ds "meta.csv") pre
    /\ List.length (labels_obj after_bad) = List.length (image_paths_obj after_bad)
    /\ (List.length (gender_labels_obj after_bad)
        < List.length (image_paths_obj after_bad))%nat.
Proof.
  refine (@C9_setup_not_atomic good_then_bad (multi_ds "meta.csv") fresh after_bad
            [("path"%string, [PStr "000001_male_Asian_20"; PStr "bad"])]
            [PStr "000001_male_Asian_20"; PStr "bad"] ValueError
            eq_refl eq_refl eq_refl _ eq_refl _).
  - split; simpl; [reflexivity|apply le_n].
  - right. discriminate.
Defined.

(** C10 as stated fails, in two ways. A profile of four fields whose
    gender field is [mro], with a canonical file on disk: the name is
    split, the lookup on the class finds the method that every class
    inherits from [type], and [setup] returns with that method among the
    gender labels. And a profile of four fields whose gender is neither
    [male] nor [female], with none of its canonical files on disk: the
    lookup is never reached and [setup] returns. *)
Lemma C10_unknown_gender_passes :
  ~ (forall (w : World) (self : Instance) (st : Process) (df : DataFrame)
            (pre : list string) (post : list pyval)
            (p id gender race age : string),
        cls self = MaskMultiLabelDataset ->
        read_csv w (meta_path self) = inr df ->
        df_column df "path" = inr (map PStr pre ++ PStr p :: post) ->
        Forall (fun q => profile_ok w self q = true) pre ->
        has_sample w self p = true ->
        split "_" p = [id; gender; race; age] ->
        gender <> "male"%string -> gender <> "female"%string ->
        exists st', setup w self st = (inl AttributeError, st'))
  /\ setup gender_mro (multi_ds "meta.csv") fresh = (inr tt, after_mro)
  /\ ~ (forall (w : World) (self : Instance) (st : Process) (df : DataFrame)
               (cells : list pyval) (p id gender race age : string),
           cls self = MaskMultiLabelDataset ->
           read_csv w (meta_path self) = inr df ->
           df_column df "path" = inr cells ->
           In (PStr p) cells ->
           split "_" p = [id; gender; race; age] ->
           gender <> "male"%string -> gender <> "female"%string ->
           exists st', setup w self st = (inl AttributeError, st')).
Proof.
  split; [|split; [reflexivity|]].
  - intros claim.
    destruct (claim gender_mro (multi_ds "meta.csv") fresh
                    [("path"%string, [PStr "000003_mro_Asian_40"])]
                    [] [] "000003_mro_Asian_40"%string
                    "000003"%string "mro"%string "Asian"%string "40"%string
                    eq_refl eq_refl eq_refl (Forall_nil _) eq_refl eq_refl)
      as [st' Hrun]; discriminate.
  - intros claim.
    destruct (claim (odd_table ["000002_other_Asian_30"%string] [])
                    (multi_ds "meta.csv") fresh
                    [("path"%string, [PStr "000002_other_Asian_30"])]
                    [PStr "000002_other_Asian_30"] "000002_other_Asian_30"%string
                    "000002"%string "other"%string "Asian"%string "30"%string
                    eq_refl eq_refl eq_refl (or_introl eq_refl) eq_refl)
      as [st' Hrun]; discriminate.
Qed.

(** C10, amended: in the multi-label [setup], a profile name of the table
    that splits into 4 fields, has a canonical file on disk, and whose
    gender field is none of [male], [female] and [mro], every earlier cell
    of the column being a profile name that the loop gets past, makes
    [setup] raise [AttributeError]; the lookup gives 0 for [male] and 1
    for [female]. *)
Theorem C10_unknown_gender (w : World) (self : Instance) (st : Process)
    (df : DataFrame) (pre : list string) (post : list pyval)
    (p id gender race age : string) :
  cls self = MaskMultiLabelDataset ->
  read_csv w (meta_path self) = inr df ->
  df_column df "path" = inr (map PStr pre ++ PStr p :: post) ->
  Forall (fun q => profile_ok w self q = true) pre ->
  has_sample w self p = true ->
  split "_" p = [id; gender; race; age] ->
  gender <> "male"%string -> gender <> "female"%string ->
  gender <> "mro"%string ->
  (exists st', setup w self st = (inl AttributeError, st'))
  /\ getattr_GenderLabels "male" = inr (PInt 0)
  /\ getattr_GenderLabels "female" = inr (PInt 1).
Proof.
  intros Hcls Hr Hc Hpre Hs Hsplit Hm Hf Ho.
  assert (Hg : gender_label_of p = inl AttributeError).
  { unfold gender_label_of, getattr_GenderLabels. rewrite Hsplit.
    apply String.eqb_neq in Hm, Hf, Ho. now rewrite Hm, Hf, Ho. }
  destruct (@setup_first_bad w self st df pre post p _ Hcls Hr Hc Hpre Hs Hg)
    as (e & rest & _ & Hrun).
  repeat split; eauto.
Qed.

Lemma C10_unknown_gender_witness :
  (exists st', setup good_then_other (multi_ds "meta.csv") fresh
               = (inl AttributeError, st'))
  /\ getattr_GenderLabels "male" = inr (PInt 0)
  /\ getattr_GenderLabels "female" = inr (PInt 1).
Proof.
  refine (@C10_unknown_gender good_then_other (multi_ds "meta.csv") fresh
            [("path"%string,
              [PStr "000001_female_Asian_20"; PStr "000002_other_Asian_30"])]
            ["000001_female_Asian_20"%string] []
            "000002_other_Asian_30"%string
            "000002"%string "other"%string "Asian"%string "30"%string
            eq_refl eq_refl eq_refl _ eq_refl eq_refl _ _ _);
    try discriminate.
  constructor; [reflexivity|constructor].
Defined.

(** The lookup on the class also finds what every class inherits from
    [type]: a profile whose gender field is [mro] is taken. *)
Example gender_mro_is_found :
  gender_label_of "000003_mro_Asian_40" = inr (PBuiltinMethod "mro").
Proof. reflexivity. Qed.

End DatasetClaims.

(** ** Channel statistics *)

Module StatisticsClaims.

Import Dataset Scan SetupFacts DatasetClaims StatSpec.

(** [setup] only ever grows the three lists. *)
Lemma setup_extends (w : World) (self : Instance) (st : Process) :
  exists ps ls gs, snd (setup w self st) = extend st ps ls gs.
Proof.
  destruct (read_csv w (meta_path self)) as [e|df] eqn:Hr.
  { exists [], [], []. now rewrite (setup_read_error _ _ st Hr), extend_nil. }
  destruct (df_column df "path") as [e|cells] eqn:Hc.
  { exists [], [], []. now rewrite (setup_no_column _ _ st Hr Hc), extend_nil. }
  destruct (setup_outcome w self st Hr Hc)
    as [(ps & _ & _ & ->)
       | [(pre & p & post & e & rest & x & _ & _ & _ & _ & _ & ->)
         | (pre & c & post & _ & _ & _ & ->)]];
    do 3 eexists; reflexivity.
Qed.

(** With both statistics present, [calc_statistics] does nothing. *)
Lemma calc_statistics_present (w : World) (self : Instance) (m s : stats)
    (st : Process) :
  mean self = Some m -> std self = Some s ->
  calc_statistics w self st = (inr self, st).
Proof. unfold calc_statistics. now intros -> ->. Qed.

(** C1, evaluated at every input: the constructor never reads its [mean]
    and [std] arguments. Whatever they are, absent or supplied, a
    constructed dataset carries the constants of lines 62-63, and the
    construction opens no picture and prints no warning: nothing is
    computed. *)
Theorem C1_constructor_drops_statistics (c : klass) (w : World)
    (root meta ph : string) (m s : option stats) (st : Process) :
  match __init__ c w root meta ph m s st with
  | (inr self, st') =>
      mean self = Some default_mean /\ std self = Some default_std
      /\ opened st' = opened st /\ stdout st' = stdout st
  | (inl _, st') => opened st' = opened st /\ stdout st' = stdout st
  end.
Proof.
  rewrite init_eq.
  destruct (setup_extends w
              (mkInstance c root meta ph (Some default_mean) (Some default_std))
              st) as (ps & ls & gs & Hst).
  destruct (setup w _ st) as [[e|[]] st']; simpl in Hst; subst st';
    repeat split; reflexivity.
Qed.

(** Supplied statistics are replaced, and absent ones are not computed
    although pictures were indexed. *)
Example supplied_statistics_are_replaced :
  exists (self : Instance) (st' : Process),
    __init__ MaskBaseDataset Worlds.two_tables "r" "a.csv" "train"
             (Some (Vec3 0 0 0)) (Some (Vec3 1 1 1)) fresh = (inr self, st')
    /\ mean self <> Some (Vec3 0 0 0)
    /\ std self <> Some (Vec3 1 1 1)
    /\ image_paths_obj st' = [PStr "r/000001_female_Asian_20/mask1.jpg"]
    /\ opened st' = [].
Proof.
  eexists. eexists. split; [reflexivity|].
  repeat split; try reflexivity; simpl; unfold default_mean, default_std;
    intros [= H _ _]; lra.
Qed.

(** The pictures that the loop of lines 85-88 opens are a prefix of the
    paths it is given, in order. *)
Lemma accumulate_opened (w : World) (paths : list pyval) (sums squared : list vec3)
    (st : Process) :
  exists k : nat,
    map PStr (opened (snd (accumulate w paths sums squared st))) =
    map PStr (opened st) ++ firstn k paths.
Proof.
  revert sums squared st.
  induction paths as [|p rest IH]; intros sums squared st.
  - exists 0%nat. simpl. now rewrite app_nil_r.
  - destruct p as [path|z|x|b|name];
      try (exists 0%nat; simpl; now rewrite app_nil_r).
    simpl accumulate. unfold bind, Image_open.
    destruct (image_open w path) as [e|img].
    + exists 1%nat. simpl. now rewrite map_app.
    + match goal with
      | |- context [accumulate w rest ?a ?b ?s] =>
          destruct (IH a b s) as [k Hk]
      end.
      exists (S k). rewrite Hk. simpl. rewrite map_app, <- app_assoc. reflexivity.
Qed.

(** A call of [calc_statistics] opens pictures among the first 3000 indexed
    paths only, in order, each at most once. *)
Lemma calc_statistics_samples (w : World) (self : Instance) (st : Process) :
  exists k : nat,
    (k <= 3000)%nat
    /\ map PStr (opened (snd (calc_statistics w self st))) =
       map PStr (opened st) ++ firstn k (image_paths_obj st).
Proof.
  unfold calc_statistics.
  destruct (negb (is_not_None (mean self) && is_not_None (std self))).
  - unfold bind at 1. unfold print. unfold bind at 1.
    rewrite get_list_image_paths. cbn [image_paths_obj]. unfold bind.
    match goal with
    | |- context [accumulate w ?ps ?a ?b ?s] =>
        destruct (accumulate_opened w ps a b s) as [k Hk];
        destruct (accumulate w ps a b s) as [[e|[sums squared]] st1]
    end; cbn [snd opened ret] in Hk |- *; rewrite Hk, firstn_firstn;
      exists (Nat.min k 3000); split; trivial; apply Nat.le_min_r.
  - exists 0%nat. cbn [snd ret firstn]. rewrite app_nil_r.
    split; [apply Nat.le_0_l|reflexivity].
Qed.

(** What the computing branch binds, from the per-picture means. *)
Lemma calc_statistics_computes (w : World) (self : Instance) (st st1 : Process)
    (sums squared : list vec3) :
  is_not_None (mean self) && is_not_None (std self) = false ->
  accumulate w (firstn 3000 (image_paths_obj st)) [] []
             (snd (print statistics_warning st)) = (inr (sums, squared), st1) ->
  calc_statistics w self st =
  (inr (mkInstance (cls self) (img_root self) (meta_path self) (phase self)
          (Some (stats_map div255 (np_mean_axis0 sums)))
          (Some (stats_map (fun x => div255 (float_sqrt x))
                   (stats_sub (np_mean_axis0 squared)
                      (stats_map square
                         (stats_map div255 (np_mean_axis0 sums))))))),
   st1).
Proof.
  intros Hnone Hacc. unfold calc_statistics. rewrite Hnone. cbn [negb].
  unfold bind at 1. unfold print in *. unfold bind at 1.
  rewrite get_list_image_paths. cbn [image_paths_obj snd] in *. unfold bind.
  rewrite Hacc. reflexivity.
Qed.

Lemma one_pixel_mean (f : Z -> Z) (r g b : Z) :
  mean_axis01 f [[(r, g, b)]] =
  (Real (IZR (f (wrap32 r))), Real (IZR (f (wrap32 g))),
   Real (IZR (f (wrap32 b)))).
Proof.
  unfold mean_axis01.
  cbn [concat app map vsum fold_right vadd List.length float_mean float_map
       float_map2 INR].
  repeat f_equal; field.
Qed.

Lemma one_picture_mean (a b c : R) :
  np_mean_axis0 [(Real a, Real b, Real c)] = Vec3 a b c.
Proof.
  unfold np_mean_axis0.
  cbn [vsum fold_right vadd List.length float_mean float_map float_map2 INR].
  repeat f_equal; field.
Qed.

(** The root of a number that is not negative. *)
Lemma float_sqrt_real (r : R) : (0 <= r)%R -> float_sqrt (Real r) = Real (sqrt r).
Proof.
  intros Hr. unfold float_sqrt. destruct (Rlt_dec r 0); [lra|reflexivity].
Qed.

Lemma float_sqrt_negative (r : R) : (r < 0)%R -> float_sqrt (Real r) = Nan.
Proof.
  intros Hr. unfold float_sqrt. destruct (Rlt_dec r 0); [reflexivity|lra].
Qed.

(** C3, evaluated: one indexed picture, a single white pixel, and no
    statistics yet. Every scaled intensity is 1, so the variance relation
    gives a deviation of 0. [calc_statistics] binds the mean 1 and then the
    deviation [sqrt(65025 - 1^2) / 255]: the mean of squares is taken on
    the 0..255 scale and the squared mean on the 0..1 scale. *)
Theorem C3_std_mixes_the_scales :
  exists (self' : Instance) (st' : Process) (m s : R),
    calc_statistics White.world White.no_stats White.indexed = (inr self', st')
    /\ mean self' = Some (Vec3 m m m) /\ m = 1%R
    /\ std self' = Some (Vec3 s s s) /\ s = (sqrt (65025 - 1 ^ 2) / 255)%R
    /\ std_by_variance_relation [255%Z] = 0%R
    /\ s <> std_by_variance_relation [255%Z].
Proof.
  assert (Hspec : std_by_variance_relation [255%Z] = 0%R).
  { unfold std_by_variance_relation, mean_R.
    cbn [map fold_right List.length INR].
    replace (_ - _)%R with 0%R by field. apply sqrt_0. }
  eexists. eexists. exists (255 / 255)%R, (sqrt (65025 - (255 / 255) ^ 2) / 255)%R.
  split.
  { rewrite (@calc_statistics_computes White.world White.no_stats White.indexed
               (mkProcess [PStr "r/p/mask1.jpg"] [PInt 0] [] ["r/p/mask1.jpg"%string]
                          [statistics_warning])
               [mean_axis01 (fun x => x) [[(255, 255, 255)%Z]]]
               [mean_axis01 square32 [[(255, 255, 255)%Z]]]
               eq_refl eq_refl).
    rewrite !one_pixel_mean, !one_picture_mean.
    change (wrap32 255) with 255%Z. change (square32 255) with 65025%Z.
    cbn [stats_map stats_sub div255 square float_map float_map2].
    rewrite float_sqrt_real by lra. reflexivity. }
  split; [reflexivity|]. split; [field|]. split; [reflexivity|].
  split; [do 3 f_equal; field|]. split; [exact Hspec|].
  rewrite Hspec. replace (65025 - (255 / 255) ^ 2)%R with 65024%R by field.
  assert (0 < sqrt 65024)%R by (apply sqrt_lt_R0; lra).
  intros H0. apply Rmult_eq_compat_r with (r := 255%R) in H0.
  unfold Rdiv in H0. rewrite Rmult_assoc, Rinv_l in H0 by lra. lra.
Qed.

End StatisticsClaims.

(** ** Phases and pipelines *)

Module TransformClaims.

Import Dataset Transforms.

Section WithLibrary.

Variables rng pil : Type.
Variable lib : Library rng pil.

(** C5: [set_phase] raises on every phase but [train] and [test], and on
    those two it returns the dataset with that phase, for which
    [transform] is the train pipeline, respectively the test pipeline;
    on a dataset in any other phase [transform] raises [AttributeError]. *)
Theorem C5_phase_selects_pipeline (self : Instance) (img : value pil) (g : rng) :
  (forall ph : string,
      ph <> "train"%string -> ph <> "test"%string ->
      set_phase self ph =
      inl (AssertionError "phase should be either train or test"))
  /\ (exists self',
        set_phase self "train" = inr self'
        /\ phase self' = "train"%string
        /\ transform lib self' img g = Compose lib (train_transform self') img g)
  /\ (exists self',
        set_phase self "test" = inr self'
        /\ phase self' = "test"%string
        /\ transform lib self' img g = Compose lib (test_transform self') img g)
  /\ (phase self <> "train"%string -> phase self <> "test"%string ->
      transform lib self img g = (inl AttributeError, g)).
Proof.
  split; [|split; [|split]].
  - intros ph Htrain Htest. unfold set_phase, str_in. simpl.
    apply String.eqb_neq in Htrain, Htest. now rewrite Htrain, Htest.
  - eexists. split; [reflexivity|]. split; reflexivity.
  - eexists. split; [reflexivity|]. split; reflexivity.
  - intros Htrain Htest. unfold transform.
    apply String.eqb_neq in Htrain, Htest. now rewrite Htrain, Htest.
Qed.

End WithLibrary.

Lemma C5_phase_selects_pipeline_witness :
  set_phase White.no_stats "val" =
    inl (AssertionError "phase should be either train or test")
  /\ transform toy_library
       (mkInstance MaskBaseDataset "r" "meta.csv" "val" None None) (Pil tt) 0%nat
     = (inl AttributeError, 0%nat).
Proof.
  split.
  - refine (proj1 (C5_phase_selects_pipeline toy_library White.no_stats
                     (Pil tt) 0%nat) "val"%string _ _); discriminate.
  - refine (proj2 (proj2 (proj2
             (C5_phase_selects_pipeline toy_library
                (mkInstance MaskBaseDataset "r" "meta.csv" "val" None None)
                (Pil tt) 0%nat))) _ _); discriminate.
Defined.

End TransformClaims.

(** ** Freezing the backbone *)

Module ModelClaims.

Import Model.

Section Module_induction.

Variable P : Module_ -> Prop.
Hypothesis leaf : forall m, (forall own cs, m <> Container own cs) -> P m.
Hypothesis node :
  forall own cs, Forall (fun kc => P (snd kc)) cs -> P (Container own cs).

(** Induction on modules, through the lists of children. *)
Lemma Module_induction : forall m, P m.
Proof.
  fix IH 1. intros [ | | | | | | | own cs]; try (apply leaf; discriminate).
  apply node. induction cs as [|kc cs IHcs]; constructor.
  - apply IH.
  - exact IHcs.
Qed.

End Module_induction.

Lemma opt_list_map_frozen (o : option Param) :
  Forall frozen (opt_list (option_map (set_requires_grad false) o)).
Proof. destruct o; simpl; repeat constructor. Qed.

(** After [freeze], no parameter of the module tracks gradients. *)
Lemma freeze_frozen (m : Module_) : Forall frozen (parameters (freeze m)).
Proof.
  induction m as [m Hleaf | own cs IH] using Module_induction.
  - destruct m; try (exfalso; exact (Hleaf _ _ eq_refl));
      simpl; repeat constructor;
      try apply opt_list_map_frozen;
      try (apply Forall_app; split; apply opt_list_map_frozen).
  - simpl. apply Forall_app. split.
    + apply Forall_map. now apply Forall_forall.
    + unfold map_children. induction IH as [|kc cs Hkc _ IHcs]; simpl.
      * constructor.
      * apply Forall_app. split; assumption.
Qed.

Lemma fill_flag (d : tensor_data) (o : option Param) (p : Param) :
  fill d o = inr p ->
  map requires_grad (opt_list o) = [requires_grad p].
Proof. destruct o; simpl; intros [= <-]; reflexivity. Qed.

Lemma opt_list_set_data (d : tensor_data) (o : option Param) :
  map requires_grad (opt_list (option_map (set_data d) o)) =
  map requires_grad (opt_list o).
Proof. destruct o; reflexivity. Qed.

(** [_initialize_weights] writes [data] only: the gradient flags of the
    parameters, in order, are what they were. *)
Lemma initialize_keeps_flags (m m' : Module_) :
  _initialize_weights m = inr m' ->
  map requires_grad (parameters m') = map requires_grad (parameters m).
Proof.
  revert m'. induction m as [m Hleaf | own cs IH] using Module_induction; intros m'.
  - destruct m; try (exfalso; exact (Hleaf _ _ eq_refl)); simpl.
    + intros [= <-]. simpl. now rewrite opt_list_set_data.
    + destruct (fill Ones weight) as [e|w'] eqn:Hw; [discriminate|].
      destruct (fill Zeros bias) as [e|b'] eqn:Hb; [discriminate|].
      intros [= <-]. simpl. rewrite map_app.
      now rewrite (fill_flag _ _ Hw), (fill_flag _ _ Hb).
    + destruct (fill Zeros bias) as [e|b'] eqn:Hb; [discriminate|].
      intros [= <-]. simpl. now rewrite (fill_flag _ _ Hb).
    + now intros [= <-].
    + now intros [= <-].
    + now intros [= <-].
    + now intros [= <-].
  - simpl.
    destruct (traverse_children _initialize_weights cs) as [e|cs'] eqn:Ht;
      [discriminate|].
    intros [= <-]. simpl. rewrite !map_app. f_equal. revert cs' Ht.
    induction IH as [|kc cs Hkc _ IHcs]; intros cs'; simpl.
    + now intros [= <-].
    + destruct (_initialize_weights (snd kc)) as [e|c'] eqn:Hc; [discriminate|].
      destruct (traverse_children _initialize_weights cs) as [e|rest'];
        [discriminate|].
      intros [= <-]. simpl. rewrite !map_app. f_equal; auto.
Qed.

Lemma flags_trainable (ps qs : list Param) :
  map requires_grad qs = map requires_grad ps ->
  Forall trainable ps -> Forall trainable qs.
Proof.
  unfold trainable. intros Hmap Hps.
  apply Forall_map with (f := requires_grad) (P := fun b => b = true).
  rewrite Hmap. now apply Forall_map.
Qed.

Lemma key_eqb_eq (a b : key) : key_eqb a b = true -> a = b.
Proof.
  destruct a, b; simpl; try discriminate.
  - intros H. apply String.eqb_eq in H. now subst.
  - intros H. apply Nat.eqb_eq in H. now subst.
Qed.

Lemma key_eqb_refl (a : key) : key_eqb a a = true.
Proof. destruct a; simpl; [apply String.eqb_refl|apply Nat.eqb_refl]. Qed.

Lemma get_child_set_same (k : key) (c : Module_) (cs : list (key * Module_)) :
  get_child k (set_child k c cs) = Some c.
Proof.
  induction cs as [|[k' c'] cs IH]; simpl.
  - now rewrite key_eqb_refl.
  - destruct (key_eqb k k') eqn:Hk; simpl.
    + now rewrite key_eqb_refl.
    + now rewrite Hk.
Qed.

Lemma get_child_set_other (k k' : key) (c : Module_) (cs : list (key * Module_)) :
  key_eqb k' k = false ->
  get_child k' (set_child k c cs) = get_child k' cs.
Proof.
  intros Hne. induction cs as [|[k1 c1] cs IH]; simpl.
  - now rewrite Hne.
  - destruct (key_eqb k k1) eqn:Hk; simpl.
    + apply key_eqb_eq in Hk. subst k1. now rewrite Hne.
    + now rewrite IH.
Qed.

(** Reading back the submodule that was changed. *)
Lemma get_at_update_same (f : Module_ -> Module_) (path : list key) :
  forall m sub,
    get_at path m = inr sub ->
    get_at path (update_at path f m) = inr (f sub).
Proof.
  induction path as [|k path IH]; intros m sub; simpl.
  - now intros [= <-].
  - destruct m; try discriminate.
    destruct (get_child k children) as [c|] eqn:Hc; [|discriminate].
    intros Hsub. simpl. rewrite get_child_set_same. now apply IH.
Qed.

(** A change below one child is not seen through a sibling. *)
Lemma get_at_update_diverge (f : Module_ -> Module_) (common : list key)
    (k1 k2 : key) (rest1 rest2 : list key) :
  key_eqb k2 k1 = false ->
  forall m,
    get_at (common ++ k2 :: rest2) (update_at (common ++ k1 :: rest1) f m) =
    get_at (common ++ k2 :: rest2) m.
Proof.
  intros Hne. induction common as [|k common IH]; intros m; simpl.
  - destruct m; try reflexivity.
    destruct (get_child k1 children) as [c|]; [|reflexivity].
    simpl. now rewrite get_child_set_other.
  - destruct m; try reflexivity.
    destruct (get_child k children) as [c|] eqn:Hc;
      [|simpl; rewrite Hc; reflexivity].
    simpl. rewrite get_child_set_same. apply IH.
Qed.

Lemma traverse_get_child (f : Module_ -> exn + Module_) (k : key)
    (cs cs' : list (key * Module_)) (c : Module_) :
  traverse_children f cs = inr cs' ->
  get_child k cs = Some c ->
  exists c', get_child k cs' = Some c' /\ f c = inr c'.
Proof.
  revert cs'. induction cs as [|[k1 c1] cs IH]; intros cs'; simpl; [discriminate|].
  destruct (f c1) as [e|c1'] eqn:Hf; [discriminate|].
  destruct (traverse_children f cs) as [e|rest'] eqn:Ht; [discriminate|].
  intros [= <-]. simpl. destruct (key_eqb k k1).
  - intros [= <-]. eauto.
  - now apply IH.
Qed.

(** Initialization keeps every submodule where it was. *)
Lemma get_at_initialize (path : list key) :
  forall m m' sub,
    _initialize_weights m = inr m' ->
    get_at path m = inr sub ->
    exists sub', get_at path m' = inr sub' /\ _initialize_weights sub = inr sub'.
Proof.
  induction path as [|k path IH]; intros m m' sub Hinit; simpl.
  - intros [= <-]. eauto.
  - destruct m; try discriminate. simpl in Hinit.
    destruct (traverse_children _initialize_weights children) as [e|cs'] eqn:Ht;
      [discriminate|].
    injection Hinit as <-.
    destruct (get_child k children) as [c|] eqn:Hc; [|discriminate].
    destruct (traverse_get_child _ _ _ Ht Hc) as (c' & Hc' & Hinit').
    intros Hsub. simpl. rewrite Hc'. now apply IH with (m := c).
Qed.

Lemma nn_Linear_ok (i o : Z) :
  (0 <= i)%Z -> (0 <= o)%Z -> nn_Linear i o = inr (new_Linear i o).
Proof.
  intros Hi Ho. unfold nn_Linear.
  destruct (Z.ltb_spec i 0); [lia|]. destruct (Z.ltb_spec o 0); [lia|].
  reflexivity.
Qed.

Lemma nn_Linear_negative (i o : Z) :
  (o < 0)%Z -> nn_Linear i o = inl RuntimeError.
Proof.
  intros Ho. unfold nn_Linear.
  destruct (Z.ltb_spec o 0); [|lia]. now rewrite orb_true_r.
Qed.

Lemma nn_Linear_returns (i o : Z) (m : Module_) :
  nn_Linear i o = inr m -> m = new_Linear i o.
Proof.
  unfold nn_Linear. destruct ((i <? 0) || (o <? 0))%Z; [discriminate|].
  now intros [= <-].
Qed.

Section WithTorchvision.

Variable tv_vgg19 : bool -> list (key * Module_).

(** The AlexNet that [build_layers] creates for a number of classes that
    [nn.Linear] accepts. *)
Lemma build_alexnet (num_classes : Z) (pretrained : bool) :
  (0 <= num_classes)%Z ->
  exists features classifier,
    build_layers tv_vgg19 AlexNet num_classes pretrained =
    inr (Container [] [ (Attr "features", features);
                        (Attr "avgpool", AdaptiveAvgPool2d (6, 6)%Z);
                        (Attr "classifier", classifier) ])
    /\ features = nn_Sequential
         [ nn_Conv2d 3 64 11 4 2; ReLU true; MaxPool2d 3 2;
           nn_Conv2d 64 192 5 1 2; ReLU true; MaxPool2d 3 2;
           nn_Conv2d 192 384 3 1 1; ReLU true;
           nn_Conv2d 384 256 3 1 1; ReLU true;
           nn_Conv2d 256 256 3 1 1; ReLU true; MaxPool2d 3 2 ]
    /\ classifier = nn_Sequential
         [ Dropout; new_Linear (256 * 6 * 6) 4096; ReLU true;
           Dropout; new_Linear 4096 4096; ReLU true;
           new_Linear 4096 num_classes ].
Proof.
  intros Hnc. do 2 eexists. split; [|split; reflexivity].
  unfold build_layers, nn_Sequential_of.
  rewrite (@nn_Linear_ok 4096 num_classes) by (trivial; lia).
  reflexivity.
Qed.

(** With a negative number of classes the last [nn.Linear] raises. *)
Lemma build_alexnet_negative (num_classes : Z) (pretrained : bool) :
  (num_classes < 0)%Z ->
  build_layers tv_vgg19 AlexNet num_classes pretrained = inl RuntimeError.
Proof.
  intros Hnc. unfold build_layers, nn_Sequential_of.
  rewrite (@nn_Linear_negative 4096 num_classes) by exact Hnc.
  reflexivity.
Qed.

(** The classifier of a model that [build_layers] returns. *)
Lemma build_returns (a : arch) (num_classes : Z) (pretrained : bool)
    (self : Module_) :
  build_layers tv_vgg19 a num_classes pretrained = inr self ->
  exists i, 
    classifier_layers a self =
    inr (nn_Sequential
           (match a with
            | VGG19 => [ new_Linear i 4096; ReLU true; Dropout;
                         new_Linear 4096 4096; ReLU true; Dropout;
                         new_Linear 4096 num_classes ]
            | _ => [ Dropout; new_Linear i 4096; ReLU true;
                     Dropout; new_Linear 4096 4096; ReLU true;
                     new_Linear 4096 num_classes ]
            end)).
Proof.
  destruct a; [discriminate| |];
    unfold build_layers, nn_Sequential_of;
    destruct (nn_Linear 4096 num_classes) as [e|last] eqn:Hlast;
    try (simpl; discriminate);
    apply nn_Linear_returns in Hlast; subst last;
    simpl; intros [= <-]; eexists.
  - reflexivity.
  - unfold classifier_layers. simpl. rewrite get_child_set_same. reflexivity.
Qed.

(** The classifier that [build_layers] creates is made of new parameters. *)
Lemma classifier_built (a : arch) (num_classes : Z) (pretrained : bool)
    (self : Module_) :
  build_layers tv_vgg19 a num_classes pretrained = inr self ->
  exists cl, classifier_layers a self = inr cl /\ Forall trainable (parameters cl).
Proof.
  intros Hb. destruct (build_returns _ _ _ Hb) as [i Hcl].
  eexists. split; [exact Hcl|]. destruct a; repeat constructor.
Qed.

(** The two paths part at a pair of sibling children. *)
Lemma paths_diverge (a : arch) (bp cp : list key) :
  backbone_path a = inr bp -> classifier_path a = inr cp ->
  exists common k1 k2 rest1 rest2,
    bp = common ++ k1 :: rest1 /\ cp = common ++ k2 :: rest2
    /\ key_eqb k2 k1 = false.
Proof.
  destruct a; simpl; [discriminate| |]; intros [= <-] [= <-].
  - exists [], (Attr "features"), (Attr "classifier"), [], []. now repeat split.
  - exists [Attr "net"], (Attr "features"), (Attr "classifier"), [], [].
    now repeat split.
Qed.

(** Every model that the constructor returns with [freeze=True]. *)
Lemma frozen_model (a : arch) (num_classes : Z) (pretrained : bool)
    (self : Module_) :
  __init__ tv_vgg19 a num_classes pretrained true = inr self ->
  exists bb cl,
    backbone_layers a self = inr bb /\ classifier_layers a self = inr cl
    /\ Forall frozen (parameters bb) /\ Forall trainable (parameters cl).
Proof.
  unfold __init__.
  destruct (build_layers tv_vgg19 a num_classes pretrained) as [e|m0] eqn:Hb;
    [discriminate|].
  destruct (classifier_built _ _ _ Hb) as (cl0 & Hcl0 & Htr0).
  assert (Hm1 : forall m1,
             (if negb pretrained then _initialize_weights m0 else inr m0) = inr m1 ->
             exists cl1, classifier_layers a m1 = inr cl1
                         /\ Forall trainable (parameters cl1)).
  { intros m1. destruct pretrained; simpl.
    - intros [= <-]. eauto.
    - intros Hinit. unfold classifier_layers in *.
      destruct (classifier_path a) as [e|cp]; [discriminate|].
      destruct (get_at_initialize cp _ Hinit Hcl0) as (cl1 & Hcl1 & Hi).
      exists cl1. split; [exact Hcl1|].
      apply flags_trainable with (ps := parameters cl0); trivial.
      now apply initialize_keeps_flags. }
  destruct (if negb pretrained then _initialize_weights m0 else inr m0)
    as [e|m1]; [discriminate|].
  destruct (Hm1 m1 eq_refl) as (cl1 & Hcl1 & Htr1).
  unfold _freeze_net, backbone_layers, classifier_layers in *.
  destruct (backbone_path a) as [e|bp] eqn:Hbp; [discriminate|].
  destruct (classifier_path a) as [e|cp] eqn:Hcp; [discriminate|].
  destruct (get_at bp m1) as [e|bb1] eqn:Hbb; [discriminate|].
  intros [= <-].
  destruct (paths_diverge a Hbp Hcp)
    as (common & k1 & k2 & rest1 & rest2 & -> & -> & Hne).
  exists (freeze bb1), cl1.
  split; [now apply get_at_update_same|].
  split; [now rewrite get_at_update_diverge|].
  split; [apply freeze_frozen|exact Htr1].
Qed.

(** C6: a model constructed with [freeze=True]. Whatever the class and
    whatever network torchvision hands over, a construction that returns
    leaves no backbone parameter tracking gradients and every classifier
    parameter tracking them. The construction of the AlexNet class returns
    whenever the number of classes is not negative: the backbone then has
    10 parameters and the classifier 6. With a negative number of classes
    it raises [RuntimeError], and the base class cannot be constructed. *)
Theorem C6_frozen_backbone (num_classes : Z) (pretrained : bool) :
  (forall a self,
      __init__ tv_vgg19 a num_classes pretrained true = inr self ->
      exists bb cl,
        backbone_layers a self = inr bb
        /\ classifier_layers a self = inr cl
        /\ Forall frozen (parameters bb) /\ Forall trainable (parameters cl))
  /\ ((0 <= num_classes)%Z ->
      exists self bb cl,
        __init__ tv_vgg19 AlexNet num_classes pretrained true = inr self
        /\ backbone_layers AlexNet self = inr bb
        /\ classifier_layers AlexNet self = inr cl
        /\ Forall frozen (parameters bb) /\ Forall trainable (parameters cl)
        /\ List.length (parameters bb) = 10%nat
        /\ List.length (parameters cl) = 6%nat)
  /\ ((num_classes < 0)%Z ->
      __init__ tv_vgg19 AlexNet num_classes pretrained true = inl RuntimeError)
  /\ __init__ tv_vgg19 MaskBaseModel num_classes pretrained true =
     inl NotImplementedError.
Proof.
  split; [|split; [|split; [|reflexivity]]].
  - intros a self Hself. exact (frozen_model _ _ _ Hself).
  - intros Hnc.
    destruct (build_alexnet pretrained Hnc) as (features & classifier & Hb & -> & ->).
    unfold __init__. rewrite Hb.
    destruct pretrained;
      (do 3 eexists; split; [reflexivity|];
       split; [reflexivity|]; split; [reflexivity|];
       split; [repeat constructor|]; split; [repeat constructor|];
       split; reflexivity).
  - intros Hnc. unfold __init__. now rewrite build_alexnet_negative.
Qed.

End WithTorchvision.

Lemma C6_frozen_backbone_witness :
  (exists self bb cl,
      __init__ small_vgg VGG19 3 false true = inr self
      /\ backbone_layers VGG19 self = inr bb
      /\ classifier_layers VGG19 self = inr cl
      /\ Forall frozen (parameters bb) /\ Forall trainable (parameters cl))
  /\ (exists self bb cl,
        __init__ small_vgg AlexNet 3 false true = inr self
        /\ backbone_layers AlexNet self = inr bb
        /\ classifier_layers AlexNet self = inr cl
        /\ Forall frozen (parameters bb) /\ Forall trainable (parameters cl)
        /\ List.length (parameters bb) = 10%nat
        /\ List.length (parameters cl) = 6%nat).
Proof.
  split.
  - destruct (proj1 (C6_frozen_backbone small_vgg 3 false) VGG19 _ eq_refl)
      as (bb & cl & Hbb & Hcl & Hf & Ht).
    eexists. exists bb, cl. split; [reflexivity|]. now repeat split.
  - apply (proj1 (proj2 (C6_frozen_backbone small_vgg 3 false))). discriminate.
Defined.

End ModelClaims.

(** ** The indexer, beyond the claims *)

Module IndexerExtras.

Import Dataset Scan Entries SetupFacts DatasetClaims StatisticsClaims Runs.

Lemma length_append_str (a b : string) :
  String.length (a ++ b) = (String.length a + String.length b)%nat.
Proof. induction a as [|c a IH]; simpl; [reflexivity|now rewrite IH]. Qed.

Lemma append_assoc_str (a b c : string) :
  ((a ++ b) ++ c = a ++ (b ++ c))%string.
Proof. induction a as [|x a IH]; simpl; [reflexivity|now rewrite IH]. Qed.

Lemma substring_all (s : string) : substring 0 (String.length s) s = s.
Proof. induction s as [|c s IH]; simpl; [reflexivity|now rewrite IH]. Qed.

Lemma substring_skip (a b : string) (k : nat) :
  substring (String.length a) k (a ++ b) = substring 0 k b.
Proof. induction a as [|c a IH]; simpl; [reflexivity|exact IH]. Qed.

(** A string ends with what was appended to it last. *)
Lemma endswith_append (a b : string) : endswith (a ++ b) b = true.
Proof.
  unfold endswith. rewrite length_append_str.
  replace (String.length b <=? String.length a + String.length b)%nat
    with true by (symmetry; apply Nat.leb_le; lia).
  replace (String.length a + String.length b - String.length b)%nat
    with (String.length a) by lia.
  rewrite substring_skip, substring_all. apply String.eqb_refl.
Qed.

(** [os.path.join] ends with its last component. *)
Lemma join_step_suffix (path b : string) :
  exists pre, join_step path b = (pre ++ b)%string.
Proof.
  unfold join_step. destruct (startswith b "/").
  - now exists EmptyString.
  - destruct (String.eqb path "" || endswith path "/").
    + now exists path.
    + exists (path ++ "/")%string. now rewrite append_assoc_str.
Qed.

Lemma jpg_is_image_file (stem : string) :
  is_image_file (stem ++ ".jpg") = true.
Proof. unfold is_image_file. simpl. now rewrite endswith_append. Qed.

Lemma canonical_is_image_file (root profile : string) (e : string * Z) :
  In e _file_names ->
  is_image_file (os_path_join root [profile; fst e]) = true.
Proof.
  intros He. unfold os_path_join. simpl fold_left.
  destruct (join_step_suffix (join_step root profile) (fst e)) as [pre ->].
  assert (Hstem : exists stem, fst e = (stem ++ ".jpg")%string).
  { simpl in He.
    repeat (destruct He as [<-|He];
            [eexists; simpl;
             match goal with
             | |- ?name = _ =>
                 instantiate (1 := substring 0 (String.length name - 4) name)
             end; reflexivity|]).
    contradiction. }
  destruct Hstem as [stem ->].
  rewrite <- append_assoc_str. apply jpg_is_image_file.
Qed.

(** X1: for each of the seven canonical names the extension test of
    line 75 never rejects: a canonical file of a profile is indexed exactly
    when its path exists. *)
Theorem X1_canonical_file_kept_iff_exists (w : World) (self : Instance)
    (profile : string) :
  Forall (fun e => keeps w self profile e
                   = path_exists w (img_path_of self profile (fst e)))
         _file_names.
Proof.
  apply Forall_forall. intros e He. unfold keeps, img_path_of.
  rewrite canonical_is_image_file by exact He. apply andb_true_r.
Qed.

Section Samples.

Variable w : World.
Variable self : Instance.

Lemma kept_entry (profile : string) (e : string * Z) :
  In e (kept w self profile) -> entry_kept w self (profile, e).
Proof.
  unfold kept, entry_kept. intros He. apply filter_In in He as [Hin Hk].
  unfold keeps in Hk. apply andb_true_iff in Hk. now split.
Qed.

Lemma scan_paths_entries (profiles : list string) :
  scan_paths w self profiles = map (entry_path self) (entries_of w self profiles).
Proof.
  unfold scan_paths, entries_of, paths_of.
  induction profiles as [|p ps IH]; [reflexivity|].
  simpl. now rewrite map_app, map_map, IH.
Qed.

Lemma scan_labels_entries (profiles : list string) :
  scan_labels w self profiles = map entry_label (entries_of w self profiles).
Proof.
  unfold scan_labels, entries_of, labels_of.
  induction profiles as [|p ps IH]; [reflexivity|].
  simpl. now rewrite map_app, map_map, IH.
Qed.

Lemma entries_kept (profiles : list string) :
  Forall (entry_kept w self) (entries_of w self profiles).
Proof.
  unfold entries_of. induction profiles as [|p ps IH]; [constructor|].
  simpl. apply Forall_app. split; [|exact IH].
  apply Forall_forall. intros pe Hpe. apply in_map_iff in Hpe as (e & <- & He).
  now apply kept_entry.
Qed.

Lemma entries_profiles (profiles : list string) :
  Forall (fun pe : entry => In (fst pe) profiles) (entries_of w self profiles).
Proof.
  unfold entries_of. apply Forall_forall. intros pe Hpe.
  apply in_flat_map in Hpe as (p & Hp & Hpe).
  apply in_map_iff in Hpe as (e & <- & _). exact Hp.
Qed.

(** On a passable table every sample carries the gender of its profile. *)
Lemma scan_genders_entries (profiles : list string) :
  Forall (fun p => profile_ok w self p = true) profiles ->
  Forall2 (fun (pe : entry) g => gender_label_of (fst pe) = inr g)
          (entries_of w self profiles) (scan_genders w self profiles).
Proof.
  unfold entries_of, scan_genders.
  induction 1 as [|p ps Hp _ IH]; [constructor|].
  simpl. apply Forall2_app; [|exact IH].
  unfold genders_of. unfold profile_ok in Hp.
  destruct (gender_label_of p) as [x|g] eqn:Hg.
  - rewrite orb_false_r, negb_true_iff in Hp.
    rewrite (no_sample_kept _ _ _ Hp). constructor.
  - induction (kept w self p) as [|e es IHes]; simpl; constructor; trivial.
Qed.

End Samples.

Lemma gender_label_of_value (profile : string) (g : pyval) :
  gender_label_of profile = inr g -> gender_value g.
Proof.
  unfold gender_label_of, getattr_GenderLabels, gender_value.
  destruct (split "_" profile) as [|a [|b [|c [|d [|]]]]]; try discriminate.
  repeat match goal with |- context [if ?c then _ else _] => destruct c end;
    intros [= <-]; auto.
Qed.

Lemma scan_genders_values (w : World) (self : Instance) (profiles : list string) :
  Forall gender_value (scan_genders w self profiles).
Proof.
  unfold scan_genders. induction profiles as [|p ps IH]; [constructor|].
  simpl. apply Forall_app. split; [|exact IH].
  unfold genders_of. destruct (gender_label_of p) as [x|g] eqn:Hg; [constructor|].
  apply Forall_forall. intros v Hv. apply repeat_spec in Hv. subst v.
  now apply gender_label_of_value with (profile := p).
Qed.

(** Every run of [setup], returning or raising, has appended samples that
    passed the test of line 75, and lookup results. *)
Lemma setup_run_shape (w : World) (self : Instance) (st : Process) :
  exists (entries : list entry) (gs : list pyval),
    snd (setup w self st) =
      extend st (map (entry_path self) entries) (map entry_label entries) gs
    /\ Forall (entry_kept w self) entries
    /\ Forall gender_value gs.
Proof.
  destruct (read_csv w (meta_path self)) as [e|df] eqn:Hr.
  { exists [], []. rewrite (setup_read_error _ _ st Hr). simpl.
    rewrite extend_nil. now repeat split. }
  destruct (df_column df "path") as [e|cells] eqn:Hc.
  { exists [], []. rewrite (setup_no_column _ _ st Hr Hc). simpl.
    rewrite extend_nil. now repeat split. }
  assert (Hgs : forall ps, Forall gender_value (appended_genders w self ps)).
  { intros ps. unfold appended_genders.
    destruct (cls self); [constructor|apply scan_genders_values]. }
  destruct (setup_outcome w self st Hr Hc)
    as [(ps & _ & _ & ->)
       | [(pre & p & post & e & rest & x & _ & _ & _ & Hk & _ & ->)
         | (pre & c & post & _ & _ & _ & ->)]].
  - exists (entries_of w self ps), (appended_genders w self ps).
    rewrite scan_paths_entries, scan_labels_entries.
    split; [reflexivity|]. split; [apply entries_kept|apply Hgs].
  - exists (entries_of w self pre ++ [(p, e)]), (scan_genders w self pre).
    rewrite scan_paths_entries, scan_labels_entries, !map_app.
    split; [reflexivity|]. split; [|apply scan_genders_values].
    apply Forall_app. split; [apply entries_kept|].
    constructor; [|constructor]. apply kept_entry. rewrite Hk. now left.
  - exists (entries_of w self pre), (appended_genders w self pre).
    rewrite scan_paths_entries, scan_labels_entries.
    split; [reflexivity|]. split; [apply entries_kept|apply Hgs].
Qed.

Lemma canonical_label (e : string * Z) :
  In e _file_names -> snd e = 0%Z \/ snd e = 1%Z \/ snd e = 2%Z.
Proof.
  simpl. intros He.
  repeat (destruct He as [<-|He]; [simpl; auto|]). contradiction.
Qed.

(** X2: whatever [setup] appends, in either class and whether it returns
    or raises, was tested first: every new entry of [image_paths] is a
    path that exists and has a recognised extension, every new label is
    0, 1 or 2, and every new gender label is a result of the lookup on
    [GenderLabels]. The lists only grow; nothing else changes. *)
Theorem X2_appended_paths_exist (w : World) (self : Instance) (st : Process) :
  exists ps ls gs : list pyval,
    snd (setup w self st) = extend st ps ls gs
    /\ Forall (fun v => exists path,
                 v = PStr path /\ path_exists w path = true
                 /\ is_image_file path = true) ps
    /\ Forall (fun v => v = PInt 0 \/ v = PInt 1 \/ v = PInt 2) ls
    /\ Forall gender_value gs.
Proof.
  destruct (setup_run_shape w self st) as (entries & gs & Hst & Hk & Hg).
  exists (map (entry_path self) entries), (map entry_label entries), gs.
  split; [exact Hst|]. split; [|split; [|exact Hg]].
  - apply Forall_map. eapply Forall_impl; [|exact Hk].
    intros pe (_ & He & Hi). unfold entry_path. eauto.
  - apply Forall_map. eapply Forall_impl; [|exact Hk].
    intros pe (Hin & _). unfold entry_label.
    destruct (canonical_label Hin) as [-> | [-> | ->]]; auto.
Qed.

(** X3: once the table is read and has a [path] column, [setup] returns
    exactly when every cell of the column is a string and, in the
    multi-label class, every profile with a canonical file on disk has a
    name of 4 fields whose gender the lookup finds. A cell that is not a
    string (pandas reads a column of numbers as numbers, and a missing
    value as [nan]) makes [setup] of either class raise [TypeError], once
    the earlier cells have been gone through. *)
Theorem X3_setup_returns_iff (w : World) (self : Instance) (st : Process)
    (df : DataFrame) (cells : list pyval) :
  read_csv w (meta_path self) = inr df ->
  df_column df "path" = inr cells ->
  ((exists st', setup w self st = (inr tt, st'))
   <-> exists profiles,
         cells = map PStr profiles
         /\ (cls self = MaskMultiLabelDataset ->
             Forall (fun p => profile_ok w self p = true) profiles))
  /\ (forall (pre : list string) (c : pyval) (post : list pyval),
        cells = map PStr pre ++ c :: post ->
        is_str c = false ->
        (cls self = MaskMultiLabelDataset ->
         Forall (fun p => profile_ok w self p = true) pre) ->
        exists st', setup w self st = (inl TypeError, st')).
Proof.
  intros Hr Hc. split; [split|].
  - intros [st' Hrun].
    destruct (setup_returns _ _ _ Hrun) as (df' & ps' & Hr' & Hc' & _ & Hok).
    rewrite Hr in Hr'. injection Hr' as <-. rewrite Hc in Hc'.
    injection Hc' as ->. now exists ps'.
  - intros (profiles & -> & Hok). eexists.
    exact (@setup_passable w self st df profiles Hr Hc Hok).
  - intros pre c post -> Hcell Hok. eexists.
    exact (@setup_refused w self st df pre c post Hr Hc Hcell Hok).
Qed.

Lemma X3_setup_returns_iff_witness :
  ((exists st', setup Worlds.good_then_missing (Worlds.multi_ds "meta.csv") fresh
                = (inr tt, st'))
   <-> exists profiles,
         [PStr "000001_male_Asian_20"; PFloat Nan; PStr "000002_female_Asian_30"]
         = map PStr profiles
         /\ (cls (Worlds.multi_ds "meta.csv") = MaskMultiLabelDataset ->
             Forall (fun p => profile_ok Worlds.good_then_missing
                                         (Worlds.multi_ds "meta.csv") p = true)
                    profiles))
  /\ exists st', setup Worlds.good_then_missing (Worlds.multi_ds "meta.csv") fresh
                 = (inl TypeError, st').
Proof.
  destruct (@X3_setup_returns_iff Worlds.good_then_missing
              (Worlds.multi_ds "meta.csv") fresh
              [("path"%string,
                [PStr "000001_male_Asian_20"; PFloat Nan;
                 PStr "000002_female_Asian_30"])]
              [PStr "000001_male_Asian_20"; PFloat Nan;
               PStr "000002_female_Asian_30"] eq_refl eq_refl)
    as [Hiff Hrefused].
  split; [exact Hiff|].
  apply (Hrefused ["000001_male_Asian_20"%string] (PFloat Nan)
                  [PStr "000002_female_Asian_30"] eq_refl eq_refl).
  intros _. constructor; [reflexivity|constructor].
Defined.

Lemma kept_length (w : World) (self : Instance) (profile : string) :
  (List.length (kept w self profile) <= 7)%nat.
Proof.
  unfold kept. change 7%nat with (List.length _file_names).
  apply filter_length_le.
Qed.

Lemma entries_length (w : World) (self : Instance) (profiles : list string) :
  (List.length (entries_of w self profiles) <= 7 * List.length profiles)%nat.
Proof.
  unfold entries_of. induction profiles as [|p ps IH]; [simpl; lia|].
  cbn [flat_map]. rewrite length_app, length_map. cbn [List.length].
  pose proof (kept_length w self p). unfold entry in *. lia.
Qed.

(** X4: a run of [setup], returning or raising, adds at most 7 paths per
    cell of the [path] column of the table. *)
Theorem X4_at_most_seven_per_profile (w : World) (self : Instance)
    (st : Process) (df : DataFrame) (cells : list pyval) :
  read_csv w (meta_path self) = inr df ->
  df_column df "path" = inr cells ->
  (List.length (image_paths_obj (snd (setup w self st)))
   <= List.length (image_paths_obj st) + 7 * List.length cells)%nat.
Proof.
  intros Hr Hc.
  destruct (setup_outcome w self st Hr Hc)
    as [(ps & -> & _ & ->)
       | [(pre & p & post & e & rest & x & _ & -> & _ & _ & _ & ->)
         | (pre & c & post & -> & _ & _ & ->)]];
    simpl; rewrite !length_app, ?length_map, scan_paths_entries, length_map;
    simpl.
  - pose proof (entries_length w self ps). lia.
  - pose proof (entries_length w self pre). lia.
  - pose proof (entries_length w self pre). lia.
Qed.

Lemma X4_at_most_seven_per_profile_witness :
  (List.length (image_paths_obj
      (snd (setup Worlds.good_then_bad (Worlds.multi_ds "meta.csv") fresh)))
   <= List.length (image_paths_obj fresh)
      + 7 * List.length [PStr "000001_male_Asian_20"; PStr "bad"])%nat.
Proof.
  exact (@X4_at_most_seven_per_profile Worlds.good_then_bad
           (Worlds.multi_ds "meta.csv") fresh
           [("path"%string, [PStr "000001_male_Asian_20"; PStr "bad"])]
           [PStr "000001_male_Asian_20"; PStr "bad"] eq_refl eq_refl).
Defined.

Lemma df_column_missing (df : DataFrame) (name : string) :
  Forall (fun col : string * list pyval => fst col <> name) df ->
  df_column df name = inl AttributeError.
Proof.
  induction 1 as [|[col vals] rest Hcol _ IH]; simpl; [reflexivity|].
  simpl in Hcol. apply String.eqb_neq in Hcol. now rewrite Hcol.
Qed.

(** X5: a metadata table without a [path] column makes [setup] raise
    [AttributeError], in either class, before any list is touched. *)
Theorem X5_missing_path_column (w : World) (self : Instance) (st : Process)
    (df : DataFrame) :
  read_csv w (meta_path self) = inr df ->
  Forall (fun col : string * list pyval => fst col <> "path"%string) df ->
  setup w self st = (inl AttributeError, st).
Proof.
  intros Hr Hcols. apply df_column_missing in Hcols.
  exact (setup_no_column _ _ st Hr Hcols).
Qed.

Lemma X5_missing_path_column_witness :
  setup Worlds.no_path_column (Worlds.multi_ds "meta.csv") Worlds.after_a
  = (inl AttributeError, Worlds.after_a).
Proof.
  refine (@X5_missing_path_column Worlds.no_path_column
            (Worlds.multi_ds "meta.csv") Worlds.after_a
            [("id"%string, [PInt 1]); ("gender"%string, [PStr "male"])]
            eq_refl _).
  repeat constructor; discriminate.
Defined.

(** X6: the samples appended by a run of [setup] that returns are aligned:
    there is one list of kept samples of which the new paths, the new
    labels and (in the multi-label class) the new gender labels are the
    images, entry by entry; the base class leaves [gender_labels] alone;
    no picture is opened and nothing is printed. *)
Theorem X6_appended_samples_aligned (w : World) (self : Instance)
    (st st' : Process) :
  setup w self st = (inr tt, st') ->
  exists entries : list entry,
    Forall (entry_kept w self) entries
    /\ image_paths_obj st' = image_paths_obj st ++ map (entry_path self) entries
    /\ labels_obj st' = labels_obj st ++ map entry_label entries
    /\ match cls self with
       | MaskBaseDataset => gender_labels_obj st' = gender_labels_obj st
       | MaskMultiLabelDataset =>
           exists gs,
             gender_labels_obj st' = gender_labels_obj st ++ gs
             /\ Forall2 (fun (pe : entry) g => gender_label_of (fst pe) = inr g)
                        entries gs
       end
    /\ opened st' = opened st /\ stdout st' = stdout st.
Proof.
  intros Hrun.
  destruct (setup_returns _ _ _ Hrun) as (df & profiles & _ & _ & -> & Hok).
  exists (entries_of w self profiles).
  rewrite <- scan_paths_entries, <- scan_labels_entries.
  split; [apply entries_kept|]. repeat split; trivial.
  unfold appended_genders. destruct (cls self); simpl.
  - apply app_nil_r.
  - eexists. split; [reflexivity|]. apply scan_genders_entries. now apply Hok.
Qed.

Lemma X6_appended_samples_aligned_witness :
  exists entries : list entry,
    Forall (entry_kept Worlds.two_tables (Worlds.base_ds "a.csv")) entries
    /\ image_paths_obj Worlds.after_a =
       image_paths_obj fresh ++ map (entry_path (Worlds.base_ds "a.csv")) entries
    /\ labels_obj Worlds.after_a = labels_obj fresh ++ map entry_label entries
    /\ gender_labels_obj Worlds.after_a = gender_labels_obj fresh
    /\ opened Worlds.after_a = opened fresh
    /\ stdout Worlds.after_a = stdout fresh.
Proof.
  exact (@X6_appended_samples_aligned Worlds.two_tables (Worlds.base_ds "a.csv")
           fresh Worlds.after_a eq_refl).
Defined.

Lemma init_snd (c : klass) (w : World) (root meta ph : string)
    (m sd : option stats) (st : Process) :
  snd (__init__ c w root meta ph m sd st) =
  snd (setup w (mkInstance c root meta ph (Some default_mean) (Some default_std)) st).
Proof.
  rewrite init_eq. destruct (setup w _ st) as [[e|[]] st']; reflexivity.
Qed.

Lemma construct_all_invariant (w : World) (calls : list call_args) :
  forall st : Process,
    reachable_shape st ->
    reachable_shape (construct_all w calls st)
    /\ opened (construct_all w calls st) = opened st
    /\ stdout (construct_all w calls st) = stdout st.
Proof.
  induction calls as [|c rest IH]; intros st Hst;
    [simpl; split; [exact Hst|split; reflexivity]|].
  simpl construct_all. rewrite init_snd.
  match goal with
  | |- context [setup w ?self st] =>
      pose proof (setup_reachable_shape w self Hst) as Hnext;
      destruct (setup_extends w self st) as (ps & ls & gs & Hext)
  end.
  destruct (IH _ Hnext) as (Hshape & Hopened & Hstdout).
  split; [exact Hshape|]. rewrite Hopened, Hstdout, Hext. now split.
Qed.

(** X7: whatever datasets of either class are constructed in a process,
    with whatever arguments, and whether each construction returns or
    raises, [labels] stays exactly as long as [image_paths] and
    [gender_labels] never gets longer than they are; and no construction
    opens a picture or prints anything. *)
Theorem X7_process_invariant (w : World) (calls : list call_args) :
  reachable_shape (construct_all w calls fresh)
  /\ opened (construct_all w calls fresh) = []
  /\ stdout (construct_all w calls fresh) = [].
Proof.
  apply construct_all_invariant. split; simpl; [reflexivity|apply le_n].
Qed.

(** X8: [setup] is not idempotent. After a run that returned, a second
    run on the same dataset over the same files returns as well and
    appends the very same entries once more. *)
Theorem X8_setup_appends_again (w : World) (self : Instance) (st st1 : Process) :
  setup w self st = (inr tt, st1) ->
  exists ps ls gs : list pyval,
    st1 = extend st ps ls gs
    /\ setup w self st1 = (inr tt, extend st1 ps ls gs).
Proof.
  intros Hrun.
  destruct (setup_returns _ _ _ Hrun) as (df & profiles & Hr & Hc & -> & Hok).
  do 3 eexists. split; [reflexivity|].
  exact (@setup_passable w self _ df profiles Hr Hc Hok).
Qed.

Lemma X8_setup_appends_again_witness :
  exists ps ls gs : list pyval,
    Worlds.after_a = extend fresh ps ls gs
    /\ setup Worlds.two_tables (Worlds.base_ds "a.csv") Worlds.after_a
       = (inr tt, extend Worlds.after_a ps ls gs).
Proof.
  exact (@X8_setup_appends_again Worlds.two_tables (Worlds.base_ds "a.csv")
           fresh Worlds.after_a eq_refl).
Defined.

(** X9: [len] of a dataset counts what every dataset of the process has
    indexed. For any two instances [a] and [b], of the same class or not,
    a run of [b.setup()] that returns makes [len(a)] grow by the number of
    samples it kept. *)
Theorem X9_len_counts_every_instance (w : World) (a b : Instance)
    (st st' : Process) :
  setup w b st = (inr tt, st') ->
  exists (df : DataFrame) (profiles : list string),
    read_csv w (meta_path b) = inr df
    /\ df_column df "path" = inr (map PStr profiles)
    /\ __len__ a st = (inr (Z.of_nat (List.length (image_paths_obj st))), st)
    /\ __len__ a st' =
       (inr (Z.of_nat (List.length (image_paths_obj st)
                       + List.length (entries_of w b profiles))), st').
Proof.
  intros Hrun.
  destruct (setup_returns _ _ _ Hrun) as (df & profiles & Hr & Hc & -> & _).
  exists df, profiles. split; [exact Hr|]. split; [exact Hc|].
  unfold __len__, bind. rewrite !get_list_image_paths. unfold ret.
  split; [reflexivity|]. simpl image_paths_obj.
  now rewrite length_app, scan_paths_entries, length_map.
Qed.

Lemma X9_len_counts_every_instance_witness :
  exists (df : DataFrame) (profiles : list string),
    read_csv Worlds.two_tables (meta_path (Worlds.multi_ds "b.csv")) = inr df
    /\ df_column df "path" = inr (map PStr profiles)
    /\ __len__ (Worlds.base_ds "a.csv") Worlds.after_a =
       (inr (Z.of_nat (List.length (image_paths_obj Worlds.after_a))),
        Worlds.after_a)
    /\ __len__ (Worlds.base_ds "a.csv")
         (mkProcess [PStr "r/000001_female_Asian_20/mask1.jpg";
                     PStr "r/000002_male_Asian_30/normal.jpg"]
                    [PInt 0; PInt 2] [PInt 0] [] []) =
       (inr (Z.of_nat (List.length (image_paths_obj Worlds.after_a)
                       + List.length (entries_of Worlds.two_tables
                                        (Worlds.multi_ds "b.csv") profiles))),
        mkProcess [PStr "r/000001_female_Asian_20/mask1.jpg";
                   PStr "r/000002_male_Asian_30/normal.jpg"]
                  [PInt 0; PInt 2] [PInt 0] [] []).
Proof.
  exact (@X9_len_counts_every_instance Worlds.two_tables
           (Worlds.base_ds "a.csv") (Worlds.multi_ds "b.csv") Worlds.after_a
           (mkProcess [PStr "r/000001_female_Asian_20/mask1.jpg";
                       PStr "r/000002_male_Asian_30/normal.jpg"]
                      [PInt 0; PInt 2] [PInt 0] [] [])
           eq_refl).
Defined.

Import ProfileNames.

Lemma split_nonempty (sep : ascii) (s : string) : split sep s <> [].
Proof.
  destruct s as [|c rest]; simpl; [discriminate|].
  destruct (Ascii.eqb c sep); [discriminate|].
  destruct (split sep rest); discriminate.
Qed.

Lemma split_sep_free (sep : ascii) (a : string) :
  has_char sep a = false -> split sep a = [a].
Proof.
  induction a as [|c a IH]; simpl; [reflexivity|].
  intros H. apply orb_false_iff in H as [Hc Ha].
  now rewrite Hc, (IH Ha).
Qed.

Lemma split_append (sep : ascii) (a b : string) :
  has_char sep a = false ->
  split sep (a ++ String sep b) = a :: split sep b.
Proof.
  induction a as [|c a IH]; simpl.
  - intros _. now rewrite Ascii.eqb_refl.
  - intros H. apply orb_false_iff in H as [Hc Ha].
    now rewrite Hc, (IH Ha).
Qed.

(** Joining the fields of a split gives the string back. *)
Lemma join_split (sep : ascii) (s : string) :
  join_with sep (split sep s) = s.
Proof.
  induction s as [|c rest IH]; [reflexivity|].
  simpl split. pose proof (split_nonempty sep rest) as Hne.
  destruct (Ascii.eqb c sep) eqn:Hc.
  - apply Ascii.eqb_eq in Hc. subst c.
    destruct (split sep rest) as [|f fs]; [contradiction|].
    change (join_with sep (EmptyString :: f :: fs))
      with (String sep (join_with sep (f :: fs))).
    now rewrite IH.
  - destruct (split sep rest) as [|f fs]; [contradiction|].
    destruct fs as [|f' fs]; simpl in IH |- *; now rewrite <- IH.
Qed.

(** X10: the profile names that the multi-label [setup] can parse are
    exactly those made of four underscore-free fields joined by
    underscores, the second of which the lookup on [GenderLabels] finds;
    the gender label is then the result of that lookup. *)
Theorem X10_profile_name_parses (profile : string) (v : pyval) :
  gender_label_of profile = inr v
  <-> exists id gender race age : string,
        profile = profile_name id gender race age
        /\ has_char "_" id = false /\ has_char "_" gender = false
        /\ has_char "_" race = false /\ has_char "_" age = false
        /\ getattr_GenderLabels gender = inr v.
Proof.
  split.
  - unfold gender_label_of. intros Hg.
    pose proof (split_fields_sep_free "_" profile) as Hfree.
    pose proof (join_split "_" profile) as Hjoin.
    destruct (split "_" profile) as [|a [|b [|c [|d [|]]]]]; try discriminate.
    exists a, b, c, d.
    inversion Hfree as [|? ? Ha H1]; subst.
    inversion H1 as [|? ? Hb H2]; subst.
    inversion H2 as [|? ? Hc H3]; subst.
    inversion H3 as [|? ? Hd _]; subst.
    repeat split; trivial; symmetry; exact Hjoin.
  - intros (id & gender & race & age & -> & Hi & Hg & Hr & Ha & Hv).
    unfold gender_label_of, profile_name. simpl join_with.
    rewrite !split_append, split_sep_free by assumption. exact Hv.
Qed.

End IndexerExtras.

(** ** Channel statistics, beyond the claims *)

Module StatisticsExtras.

Import Dataset Scan SetupFacts DatasetClaims StatisticsClaims Pictures.

(** The loop of lines 85-88 when no picture fails to open: every path was
    decoded, in order, and each picture contributed its two means. *)
Lemma accumulate_returns (w : World) (paths : list pyval) :
  forall (sums squared sums' squared' : list vec3) (st st' : Process),
    accumulate w paths sums squared st = (inr (sums', squared'), st') ->
    exists imgs : list image,
      Forall2 (decodes w) paths imgs
      /\ sums' = sums ++ map (mean_axis01 (fun x => x)) imgs
      /\ squared' = squared ++ map (mean_axis01 square32) imgs
      /\ map PStr (opened st') = map PStr (opened st) ++ paths
      /\ image_paths_obj st' = image_paths_obj st
      /\ labels_obj st' = labels_obj st
      /\ gender_labels_obj st' = gender_labels_obj st
      /\ stdout st' = stdout st.
Proof.
  induction paths as [|p rest IH]; intros sums squared sums' squared' st st'.
  - simpl. intros [= <- <- <-]. exists []. rewrite !app_nil_r.
    repeat split; constructor.
  - destruct p as [path|z|x|b|name]; try discriminate.
    simpl accumulate. unfold bind, Image_open.
    destruct (image_open w path) as [e|img] eqn:Hopen; [discriminate|].
    intros Hacc. apply IH in Hacc
      as (imgs & Hdec & -> & -> & Hop & Hip & Hl & Hg & Hout).
    exists (img :: imgs). simpl in Hop, Hip, Hl, Hg, Hout.
    rewrite <- !app_assoc. repeat split; trivial.
    + constructor; [|exact Hdec]. now exists path.
    + rewrite Hop, map_app, <- app_assoc. reflexivity.
Qed.

(** Unfolding of the two branches of [calc_statistics]. *)
Lemma calc_statistics_eq (w : World) (self : Instance) (st : Process) :
  calc_statistics w self st =
  if is_not_None (mean self) && is_not_None (std self) then (inr self, st)
  else
    match accumulate w (firstn 3000 (image_paths_obj st)) [] []
                     (snd (print statistics_warning st)) with
    | (inl e, st1) => (inl e, st1)
    | (inr (sums, squared), st1) =>
        (inr (mkInstance (cls self) (img_root self) (meta_path self) (phase self)
                (Some (stats_map div255 (np_mean_axis0 sums)))
                (Some (stats_map (fun x => div255 (float_sqrt x))
                         (stats_sub (np_mean_axis0 squared)
                            (stats_map square
                               (stats_map div255 (np_mean_axis0 sums))))))),
         st1)
    end.
Proof.
  unfold calc_statistics.
  destruct (is_not_None (mean self) && is_not_None (std self)); [reflexivity|].
  cbn [negb]. unfold bind at 1. unfold print. unfold bind at 1.
  rewrite get_list_image_paths. cbn [image_paths_obj snd]. unfold bind.
  match goal with
  | |- context [accumulate w ?ps ?a ?b ?s] =>
      destruct (accumulate w ps a b s) as [[e|[sums squared]] st1]
  end; reflexivity.
Qed.

(** X11: statistics are computed at most once per dataset: after a call
    of [calc_statistics] that returned, a further call returns the same
    dataset and touches nothing. *)
Theorem X11_calc_statistics_once (w : World) (self self' : Instance)
    (st st' : Process) :
  calc_statistics w self st = (inr self', st') ->
  calc_statistics w self' st' = (inr self', st').
Proof.
  rewrite !calc_statistics_eq.
  destruct (is_not_None (mean self) && is_not_None (std self)) eqn:Hhas.
  - intros [= <- <-]. now rewrite Hhas.
  - destruct (accumulate w _ [] [] _) as [[e|[sums squared]] st1];
      [discriminate|].
    intros [= <- <-]. reflexivity.
Qed.

Lemma X11_calc_statistics_once_witness :
  calc_statistics White.world White.with_stats White.sampled
  = (inr White.with_stats, White.sampled).
Proof.
  exact (@X11_calc_statistics_once White.world White.no_stats White.with_stats
           White.indexed White.sampled eq_refl).
Defined.

Lemma accumulate_frame (w : World) (paths : list pyval) :
  forall (sums squared : list vec3) (st : Process),
    image_paths_obj (snd (accumulate w paths sums squared st)) = image_paths_obj st
    /\ labels_obj (snd (accumulate w paths sums squared st)) = labels_obj st
    /\ gender_labels_obj (snd (accumulate w paths sums squared st))
       = gender_labels_obj st.
Proof.
  induction paths as [|p rest IH]; intros sums squared st; [now repeat split|].
  destruct p as [path|z|x|b|name]; try (now repeat split).
  simpl accumulate. unfold bind, Image_open.
  destruct (image_open w path) as [e|img]; [now repeat split|].
  match goal with
  | |- context [accumulate w rest ?a ?b ?s] => destruct (IH a b s) as (H1 & H2 & H3)
  end.
  rewrite H1, H2, H3. now repeat split.
Qed.

(** X12: a call of [calc_statistics], returning or raising, hands to the
    decoder a prefix of the first 3000 indexed paths, in their order and
    each once, and nothing else; the lists of the class are left as they
    were. *)
Theorem X12_samples_first_3000 (w : World) (self : Instance) (st : Process) :
  (exists k : nat,
      (k <= 3000)%nat
      /\ map PStr (opened (snd (calc_statistics w self st))) =
         map PStr (opened st) ++ firstn k (image_paths_obj st))
  /\ image_paths_obj (snd (calc_statistics w self st)) = image_paths_obj st
  /\ labels_obj (snd (calc_statistics w self st)) = labels_obj st
  /\ gender_labels_obj (snd (calc_statistics w self st)) = gender_labels_obj st.
Proof.
  split; [apply calc_statistics_samples|].
  rewrite calc_statistics_eq.
  destruct (is_not_None (mean self) && is_not_None (std self));
    [now repeat split|].
  match goal with
  | |- context [accumulate w ?ps ?a ?b ?s] =>
      destruct (accumulate_frame w ps a b s) as (H1 & H2 & H3);
      destruct (accumulate w ps a b s) as [[e|[sums squared]] st1]
  end; simpl in *; now repeat split.
Qed.

Lemma missing_statistic (self : Instance) :
  mean self = None \/ std self = None ->
  is_not_None (mean self) && is_not_None (std self) = false.
Proof.
  intros [-> | ->]; [reflexivity|]. apply andb_false_r.
Qed.

(** The computing branch of [calc_statistics], as a closed form. *)
Lemma computing_branch (w : World)
    (self self' : Instance) (st st' : Process) :
  mean self = None \/ std self = None ->
  calc_statistics w self st = (inr self', st') ->
  exists imgs : list image,
    Forall2 (decodes w) (firstn 3000 (image_paths_obj st)) imgs
    /\ mean self' =
       Some (stats_map div255
               (np_mean_axis0 (map (mean_axis01 (fun x => x)) imgs)))
    /\ std self' =
       Some (stats_map (fun x => div255 (float_sqrt x))
               (stats_sub
                  (np_mean_axis0 (map (mean_axis01 square32) imgs))
                  (stats_map square
                     (stats_map div255
                        (np_mean_axis0 (map (mean_axis01 (fun x => x)) imgs))))))
    /\ cls self' = cls self /\ img_root self' = img_root self
    /\ meta_path self' = meta_path self /\ phase self' = phase self
    /\ stdout st' = stdout st ++ [statistics_warning].
Proof.
  intros Hmiss. rewrite calc_statistics_eq, (missing_statistic _ Hmiss).
  destruct (accumulate w _ [] [] _) as [[e|[sums squared]] st1] eqn:Hacc;
    [discriminate|].
  intros [= <- <-].
  apply accumulate_returns in Hacc
    as (imgs & Hdec & -> & -> & _ & _ & _ & _ & Hout).
  exists imgs. simpl. repeat split; trivial.
Qed.

(** X13: when either statistic is missing, a call of [calc_statistics]
    that returns has decoded each of the first 3000 indexed pictures and
    rebinds both statistics, overwriting the one that was there: the mean
    is the average of the per-picture channel means divided by 255, and
    the deviation is the root of the average per-picture mean square minus
    the square of that already rescaled mean, divided by 255, and [nan] in
    a channel where that difference is negative or one of the means is
    [nan]. The other attributes are kept and the warning is printed
    once. *)
Theorem X13_missing_statistic_recomputes_both (w : World)
    (self self' : Instance) (st st' : Process) :
  mean self = None \/ std self = None ->
  calc_statistics w self st = (inr self', st') ->
  exists imgs : list image,
    Forall2 (decodes w) (firstn 3000 (image_paths_obj st)) imgs
    /\ mean self' =
       Some (stats_map div255
               (np_mean_axis0 (map (mean_axis01 (fun x => x)) imgs)))
    /\ std self' =
       Some (stats_map (fun x => div255 (float_sqrt x))
               (stats_sub
                  (np_mean_axis0 (map (mean_axis01 square32) imgs))
                  (stats_map square
                     (stats_map div255
                        (np_mean_axis0 (map (mean_axis01 (fun x => x)) imgs))))))
    /\ cls self' = cls self /\ img_root self' = img_root self
    /\ meta_path self' = meta_path self /\ phase self' = phase self
    /\ stdout st' = stdout st ++ [statistics_warning].
Proof. apply computing_branch. Qed.

Lemma X13_missing_statistic_recomputes_both_witness :
  exists imgs : list image,
    Forall2 (decodes White.world) (firstn 3000 (image_paths_obj White.indexed)) imgs
    /\ mean White.with_stats =
       Some (stats_map div255
               (np_mean_axis0 (map (mean_axis01 (fun x => x)) imgs)))
    /\ std White.with_stats =
       Some (stats_map (fun x => div255 (float_sqrt x))
               (stats_sub
                  (np_mean_axis0 (map (mean_axis01 square32) imgs))
                  (stats_map square
                     (stats_map div255
                        (np_mean_axis0 (map (mean_axis01 (fun x => x)) imgs))))))
    /\ cls White.with_stats = cls White.no_stats
    /\ img_root White.with_stats = img_root White.no_stats
    /\ meta_path White.with_stats = meta_path White.no_stats
    /\ phase White.with_stats = phase White.no_stats
    /\ stdout White.sampled = stdout White.indexed ++ [statistics_warning].
Proof.
  exact (@X13_missing_statistic_recomputes_both White.world White.no_stats
           White.with_stats White.indexed White.sampled
           (or_introl eq_refl) eq_refl).
Defined.

(** X14: with a statistic missing and no picture indexed,
    [calc_statistics] does not fail: it prints the warning, opens nothing
    and binds [nan] to both statistics. *)
Theorem X14_empty_index_gives_nan (w : World) (self : Instance) (st : Process) :
  mean self = None \/ std self = None ->
  image_paths_obj st = [] ->
  exists (self' : Instance) (st' : Process),
    calc_statistics w self st = (inr self', st')
    /\ mean self' = Some NaN /\ std self' = Some NaN
    /\ opened st' = opened st
    /\ stdout st' = stdout st ++ [statistics_warning].
Proof.
  intros Hmiss Hempty.
  rewrite calc_statistics_eq, (missing_statistic _ Hmiss), Hempty, firstn_nil.
  simpl. do 2 eexists. split; [reflexivity|]. now repeat split.
Qed.

Lemma X14_empty_index_gives_nan_witness :
  exists (self' : Instance) (st' : Process),
    calc_statistics White.world White.no_stats fresh = (inr self', st')
    /\ mean self' = Some NaN /\ std self' = Some NaN
    /\ opened st' = opened fresh
    /\ stdout st' = stdout fresh ++ [statistics_warning].
Proof.
  exact (@X14_empty_index_gives_nan White.world White.no_stats fresh
           (or_introl eq_refl) eq_refl).
Defined.

Lemma wrap32_small (v : Z) : (0 <= v <= 65025)%Z -> wrap32 v = v.
Proof.
  intros Hv. unfold wrap32.
  change (2 ^ 31)%Z with 2147483648%Z. change (2 ^ 32)%Z with 4294967296%Z.
  rewrite Z.mod_small; lia.
Qed.

(** An 8-bit value and its square, as the two loops read them. *)
Lemma channel_bounds (v : Z) :
  channel_ok v ->
  (0 <= IZR (wrap32 v) <= 255 * 1
   /\ IZR (wrap32 v) <= IZR (square32 (wrap32 v)) <= 65025 * 1)%R.
Proof.
  unfold channel_ok, square32. intros Hv.
  rewrite (@wrap32_small v) by lia. rewrite (@wrap32_small (v * v)) by nia.
  rewrite !Rmult_1_r. repeat split; apply IZR_le; nia.
Qed.

Lemma rsum_bounded2 {X : Type} (A Q : X -> R * R * R) (xs : list X) :
  (forall x, In x xs -> bounded2 1 (A x) (Q x)) ->
  bounded2 (INR (List.length xs)) (rsum (map A xs)) (rsum (map Q xs)).
Proof.
  induction xs as [|x xs IH]; intros Hall.
  - simpl. lra.
  - assert (Hx := Hall x (or_introl eq_refl)).
    assert (Hxs := IH (fun y Hy => Hall y (or_intror Hy))).
    cbn [map rsum fold_right List.length]. rewrite S_INR.
    fold (rsum (map A xs)) (rsum (map Q xs)).
    destruct (A x) as [[a1 a2] a3], (Q x) as [[q1 q2] q3].
    destruct (rsum (map A xs)) as [[s1 s2] s3].
    destruct (rsum (map Q xs)) as [[t1 t2] t3].
    unfold bounded2 in *. lra.
Qed.

(** Dividing both sums by the number of summands. *)
Lemma bounded2_mean (k s1 s2 s3 t1 t2 t3 : R) :
  (0 < k)%R ->
  bounded2 k (s1, s2, s3) (t1, t2, t3) ->
  bounded2 1 (s1 / k, s2 / k, s3 / k)%R (t1 / k, t2 / k, t3 / k)%R.
Proof.
  unfold bounded2. intros Hk H.
  assert (Hinv : (0 < / k)%R) by now apply Rinv_0_lt_compat.
  assert (Hone : (k * / k = 1)%R) by (field; lra).
  unfold Rdiv. repeat split; nra.
Qed.

Lemma Forall2_right {X Y : Type} (R : X -> Y -> Prop) (xs : list X)
    (ys : list Y) (y : Y) :
  Forall2 R xs ys -> In y ys -> exists x, In x xs /\ R x y.
Proof.
  induction 1 as [|x0 y0 xs ys Hxy _ IH]; simpl; [contradiction|].
  intros [<- | Hin]; [eauto|].
  destruct (IH Hin) as (x & Hx & Hr). eauto.
Qed.

(** Sums of numbers are numbers. *)
Lemma vsum_real3 (vs : list (R * R * R)) :
  vsum (map real3 vs) = real3 (rsum vs).
Proof.
  induction vs as [|[[a b] c] vs IH]; [reflexivity|].
  cbn [map vsum fold_right]. fold (vsum (map real3 vs)). rewrite IH.
  cbn [rsum fold_right]. fold (rsum vs).
  destruct (rsum vs) as [[s1 s2] s3]. reflexivity.
Qed.

(** The channel means of a picture that has a pixel are numbers. *)
Lemma mean_axis01_real (f : Z -> Z) (img : image) :
  concat img <> [] ->
  mean_axis01 f img = real3 (pixel_mean f img).
Proof.
  intros Hne. unfold mean_axis01, pixel_mean.
  set (A := fun px : pixel =>
              let '(r, g, b) := px in
              (IZR (f (wrap32 r)), IZR (f (wrap32 g)), IZR (f (wrap32 b)))).
  replace (map _ (concat img)) with (map real3 (map A (concat img))).
  2:{ rewrite map_map. apply map_ext. now intros [[r g] b]. }
  rewrite vsum_real3.
  destruct (rsum (map A (concat img))) as [[s1 s2] s3].
  destruct (concat img) as [|px pixels]; [contradiction|]. reflexivity.
Qed.

(** The mean of arrays of numbers, one at least. *)
Lemma np_mean_real (vs : list (R * R * R)) :
  vs <> [] ->
  np_mean_axis0 (map real3 vs) =
  let '(s1, s2, s3) := rsum vs in
  let n := INR (List.length vs) in
  Vec3 (s1 / n)%R (s2 / n)%R (s3 / n)%R.
Proof.
  intros Hne.
  assert (Hshape : forall l : list vec3,
             l <> [] ->
             np_mean_axis0 l =
             let '(s1, s2, s3) := vsum l in
             Vec3 (float_mean s1 (List.length l)) (float_mean s2 (List.length l))
                  (float_mean s3 (List.length l))).
  { intros [|x l] Hl; [contradiction|reflexivity]. }
  rewrite Hshape by (intros Hnil; apply map_eq_nil in Hnil; contradiction).
  rewrite vsum_real3, length_map.
  destruct (rsum vs) as [[s1 s2] s3].
  destruct vs as [|v vs]; [contradiction|reflexivity].
Qed.

(** The two means of an 8-bit picture. *)
Lemma picture_means (img : image) :
  picture_ok img ->
  bounded2 1 (pixel_mean (fun x => x) img) (pixel_mean square32 img).
Proof.
  intros [Hne Hpx]. unfold pixel_mean.
  set (A := fun px : pixel =>
              let '(r, g, b) := px in
              (IZR (wrap32 r), IZR (wrap32 g), IZR (wrap32 b))).
  set (Q := fun px : pixel =>
              let '(r, g, b) := px in
              (IZR (square32 (wrap32 r)), IZR (square32 (wrap32 g)),
               IZR (square32 (wrap32 b)))).
  assert (Hsum : bounded2 (INR (List.length (concat img)))
                          (rsum (map A (concat img))) (rsum (map Q (concat img)))).
  { apply rsum_bounded2. intros [[r g] b] Hin.
    rewrite Forall_forall in Hpx. destruct (Hpx _ Hin) as (Hr & Hg & Hb).
    unfold A, Q, bounded2.
    pose proof (channel_bounds Hr). pose proof (channel_bounds Hg).
    pose proof (channel_bounds Hb). tauto. }
  destruct (rsum (map A (concat img))) as [[s1 s2] s3].
  destruct (rsum (map Q (concat img))) as [[t1 t2] t3].
  apply bounded2_mean; [|exact Hsum].
  apply lt_0_INR. destruct (concat img); [contradiction|simpl; lia].
Qed.

(** A mean [m] of 8-bit values and the mean [q] of their squares: the
    rescaled mean lies in [0,1], the difference that line 91 takes the
    root of is not negative, and the deviation lies in [0,1]. *)
Lemma unit_statistics (m q : R) :
  (0 <= m <= 255 * 1)%R -> (m <= q <= 65025 * 1)%R ->
  (0 <= m / 255 <= 1
   /\ 0 <= q - (m / 255) ^ 2 <= 65025
   /\ 0 <= sqrt (q - (m / 255) ^ 2) / 255 <= 1)%R.
Proof.
  intros Hm Hq.
  assert (H0 : (0 <= m / 255 <= 1)%R) by (split; lra).
  assert (Hle : (m / 255 <= m)%R) by lra.
  assert (Hsq : (0 <= (m / 255) ^ 2 <= m / 255)%R)
    by (rewrite <- Rsqr_pow2; unfold Rsqr; split; nra).
  assert (Hrad : (0 <= q - (m / 255) ^ 2 <= 255 * 255)%R) by (split; lra).
  split; [exact H0|]. split; [lra|].
  assert (Hs0 : (0 <= sqrt (q - (m / 255) ^ 2))%R) by apply sqrt_pos.
  assert (Hs1 : (sqrt (q - (m / 255) ^ 2) <= 255)%R).
  { apply Rle_trans with (sqrt (255 * 255)); [apply sqrt_le_1_alt; lra|].
    rewrite sqrt_square; lra. }
  split; lra.
Qed.

(** X15: when [calc_statistics] computes, from at least one indexed
    picture and with every decoded picture an 8-bit RGB picture of at
    least one pixel, no channel of the statistics it binds is [nan]: each
    channel of the mean is a number in [0,1], and each channel of the
    deviation is the root, divided by 255, of a number between 0 and
    65025, and lies in [0,1] as well. *)
Theorem X15_statistics_within_unit (w : World) (self self' : Instance)
    (st st' : Process) :
  mean self = None \/ std self = None ->
  image_paths_obj st <> [] ->
  (forall p img, image_open w p = inr img -> picture_ok img) ->
  calc_statistics w self st = (inr self', st') ->
  exists m1 m2 m3 v1 v2 v3 : R,
    mean self' = Some (Vec3 m1 m2 m3)
    /\ std self' = Some (Vec3 (sqrt v1 / 255) (sqrt v2 / 255) (sqrt v3 / 255))
    /\ stats_within 1 (Vec3 m1 m2 m3)
    /\ stats_within 65025 (Vec3 v1 v2 v3)
    /\ stats_within 1 (Vec3 (sqrt v1 / 255) (sqrt v2 / 255) (sqrt v3 / 255)).
Proof.
  intros Hmiss Hne Hok Hrun.
  destruct (computing_branch _ _ _ Hmiss Hrun)
    as (imgs & Hdec & -> & -> & _).
  assert (Himgs : imgs <> []).
  { intros ->. inversion Hdec as [Hnil|]. destruct (image_paths_obj st);
      [contradiction|discriminate]. }
  assert (Hpic : forall img, In img imgs -> picture_ok img).
  { intros img Hin.
    destruct (@Forall2_right _ _ _ _ _ img Hdec Hin)
      as (path & _ & p & _ & Hopen).
    exact (Hok _ _ Hopen). }
  assert (Hreal : forall f,
             map (mean_axis01 f) imgs = map real3 (map (pixel_mean f) imgs)).
  { intros f. rewrite map_map. apply map_ext_in. intros img Hin.
    apply mean_axis01_real. exact (proj1 (Hpic img Hin)). }
  assert (Hmap : forall f : image -> R * R * R, map f imgs <> []).
  { intros f Hnil. apply map_eq_nil in Hnil. contradiction. }
  rewrite !Hreal, !np_mean_real by apply Hmap.
  pose proof (rsum_bounded2 (pixel_mean (fun x => x)) (pixel_mean square32) imgs
                (fun img Hin => picture_means (Hpic img Hin))) as Hsum.
  assert (Hk : (0 < INR (List.length imgs))%R).
  { apply lt_0_INR. destruct imgs; [contradiction|simpl; lia]. }
  rewrite !length_map.
  destruct (rsum (map (pixel_mean (fun x => x)) imgs)) as [[s1 s2] s3].
  destruct (rsum (map (pixel_mean square32) imgs)) as [[t1 t2] t3].
  pose proof (bounded2_mean Hk Hsum) as Hmean.
  set (k := INR (List.length imgs)) in *.
  unfold bounded2 in Hmean.
  destruct Hmean as ((Hm1 & Hq1) & (Hm2 & Hq2) & (Hm3 & Hq3)).
  destruct (unit_statistics Hm1 Hq1) as (Ha1 & Hb1 & Hc1).
  destruct (unit_statistics Hm2 Hq2) as (Ha2 & Hb2 & Hc2).
  destruct (unit_statistics Hm3 Hq3) as (Ha3 & Hb3 & Hc3).
  exists (s1 / k / 255)%R, (s2 / k / 255)%R, (s3 / k / 255)%R,
         (t1 / k - (s1 / k / 255) ^ 2)%R, (t2 / k - (s2 / k / 255) ^ 2)%R,
         (t3 / k - (s3 / k / 255) ^ 2)%R.
  cbn [stats_map stats_sub div255 square float_map float_map2].
  rewrite !float_sqrt_real by tauto.
  cbn [float_map stats_within float_within].
  split; [reflexivity|]. split; [reflexivity|]. tauto.
Qed.

Lemma X15_statistics_within_unit_witness :
  exists m1 m2 m3 v1 v2 v3 : R,
    mean White.with_stats = Some (Vec3 m1 m2 m3)
    /\ std White.with_stats
       = Some (Vec3 (sqrt v1 / 255) (sqrt v2 / 255) (sqrt v3 / 255))
    /\ stats_within 1 (Vec3 m1 m2 m3)
    /\ stats_within 65025 (Vec3 v1 v2 v3)
    /\ stats_within 1 (Vec3 (sqrt v1 / 255) (sqrt v2 / 255) (sqrt v3 / 255)).
Proof.
  refine (@X15_statistics_within_unit White.world White.no_stats
            White.with_stats White.indexed White.sampled
            (or_introl eq_refl) _ _ eq_refl).
  - discriminate.
  - intros p img [= <-]. split; [discriminate|].
    repeat constructor; discriminate.
Defined.

(** Squares that leave the int32 range wrap around: on a red value of
    46341 the mean of squares is negative, and the red channel of the
    deviation is [nan]. *)
Example wrapped_squares_give_nan :
  exists (self' : Instance) (st' : Process) (m : stats) (g b : R),
    calc_statistics White.wide_world White.no_stats White.indexed
    = (inr self', st')
    /\ mean self' = Some m /\ std self' = Some (Vec3 Nan g b).
Proof.
  eexists. eexists. eexists. exists (sqrt (0 - (0 / 255) ^ 2) / 255)%R,
    (sqrt (0 - (0 / 255) ^ 2) / 255)%R.
  split.
  { rewrite (@calc_statistics_computes White.wide_world White.no_stats
               White.indexed
               (mkProcess [PStr "r/p/mask1.jpg"] [PInt 0] []
                          ["r/p/mask1.jpg"%string] [statistics_warning])
               [mean_axis01 (fun x => x) [[(46341, 0, 0)%Z]]]
               [mean_axis01 square32 [[(46341, 0, 0)%Z]]]
               eq_refl eq_refl).
    reflexivity. }
  split; [reflexivity|].
  cbn [std]. rewrite !one_pixel_mean, !one_picture_mean.
  change (wrap32 46341) with 46341%Z. change (wrap32 0) with 0%Z.
  change (square32 46341) with (-2147479015)%Z. change (square32 0) with 0%Z.
  cbn [stats_map stats_sub div255 square float_map float_map2].
  rewrite float_sqrt_negative.
  2:{ assert (0 <= (46341 / 255) ^ 2)%R by (apply pow2_ge_0). lra. }
  rewrite !float_sqrt_real.
  2:{ replace (0 - (0 / 255) ^ 2)%R with 0%R by field. lra. }
  reflexivity.
Qed.

End StatisticsExtras.

(** ** Fetching samples *)

Module FetchExtras.

Import Dataset Transforms Fetch SetupFacts DatasetClaims.

Lemma list_getitem_out {A : Type} (xs : list A) (index : Z) :
  (index < - Z.of_nat (List.length xs) \/ Z.of_nat (List.length xs) <= index)%Z ->
  list_getitem xs index = inl IndexError.
Proof.
  intros Hout. unfold list_getitem.
  destruct (index <? 0)%Z eqn:Hneg.
  - apply Z.ltb_lt in Hneg.
    replace (0 <=? index + Z.of_nat (List.length xs))%Z with false
      by (symmetry; apply Z.leb_gt; lia).
    reflexivity.
  - apply Z.ltb_ge in Hneg.
    replace (index <? Z.of_nat (List.length xs))%Z with false
      by (symmetry; apply Z.ltb_ge; lia).
    now rewrite andb_false_r.
Qed.

Lemma list_getitem_at {A : Type} (xs : list A) (i : nat) (x : A) :
  nth_error xs i = Some x ->
  list_getitem xs (Z.of_nat i) = inr x.
Proof.
  intros Hx. unfold list_getitem.
  assert (Hi : (i < List.length xs)%nat) by (apply nth_error_Some; congruence).
  replace (Z.of_nat i <? 0)%Z with false by (symmetry; apply Z.ltb_ge; lia).
  replace (0 <=? Z.of_nat i)%Z with true by (symmetry; apply Z.leb_le; lia).
  replace (Z.of_nat i <? Z.of_nat (List.length xs))%Z with true
    by (symmetry; apply Z.ltb_lt; lia).
  simpl. now rewrite Nat2Z.id, Hx.
Qed.

Lemma read_image_eq (w : World) (self : Instance) (index : Z) (st : Process) :
  read_image w self index st =
  match list_getitem (image_paths_obj st) index with
  | inl e => (inl e, st)
  | inr image_path => Image_open w image_path st
  end.
Proof.
  unfold read_image, bind. rewrite get_list_image_paths.
  destruct (list_getitem (image_paths_obj st) index); reflexivity.
Qed.

Lemma get_label_eq (self : Instance) (index : Z) (st : Process) :
  get_label self index st =
  match list_getitem (labels_obj st) index with
  | inl e => (inl e, st)
  | inr label => (inr label, st)
  end.
Proof.
  unfold get_label, bind. rewrite get_list_labels.
  destruct (list_getitem (labels_obj st) index); reflexivity.
Qed.

Lemma get_gender_label_eq (self : Instance) (index : Z) (st : Process) :
  cls self = MaskMultiLabelDataset ->
  get_gender_label self index st =
  match list_getitem (gender_labels_obj st) index with
  | inl e => (inl e, st)
  | inr label => (inr label, st)
  end.
Proof.
  intros Hcls. unfold get_gender_label, get_list, list_attr, bind.
  rewrite Hcls, resolve_gender_labels. unfold ret. cbn [read_obj].
  destruct (list_getitem (gender_labels_obj st) index); reflexivity.
Qed.

Lemma Image_open_ok (w : World) (path : string) (img : image) (st : Process) :
  image_open w path = inr img ->
  Image_open w (PStr path) st = (inr img, after_open st path).
Proof. intros Hopen. unfold Image_open. now rewrite Hopen. Qed.

Section WithLibrary.

Variable rng : Type.
Variable lib : Library rng image.
Variable w : World.

(** X16: an index outside [-len, len) makes [__getitem__] raise
    [IndexError], in either class, before any picture is opened and
    without touching the random generator. *)
Theorem X16_getitem_out_of_range (self : Instance) (index : Z)
    (st : Process) (g : rng) :
  (index < - Z.of_nat (List.length (image_paths_obj st))
   \/ Z.of_nat (List.length (image_paths_obj st)) <= index)%Z ->
  __getitem__ lib w self index st g = (inl IndexError, st, g).
Proof.
  intros Hout. unfold __getitem__.
  destruct (cls self); unfold getitem_base, getitem_multi;
    rewrite read_image_eq, (list_getitem_out _ Hout); reflexivity.
Qed.

(** X17: the phase is looked at only when the sample is transformed. In a
    base dataset whose phase is neither [train] nor [test], fetching a
    sample that is there opens its picture and then raises
    [AttributeError]. *)
Theorem X17_getitem_checks_phase_last (self : Instance) (i : nat)
    (path : string) (label : pyval) (img : image) (st : Process) (g : rng) :
  cls self = MaskBaseDataset ->
  phase self <> "train"%string -> phase self <> "test"%string ->
  nth_error (image_paths_obj st) i = Some (PStr path) ->
  nth_error (labels_obj st) i = Some label ->
  image_open w path = inr img ->
  __getitem__ lib w self (Z.of_nat i) st g =
  (inl AttributeError, after_open st path, g).
Proof.
  intros Hcls Htrain Htest Hpath Hlabel Hopen.
  unfold __getitem__. rewrite Hcls. unfold getitem_base. rewrite read_image_eq.
  rewrite (list_getitem_at _ _ Hpath), (@Image_open_ok w path img _ Hopen), get_label_eq.
  cbn [labels_obj after_open]. rewrite (list_getitem_at _ _ Hlabel).
  unfold transform. apply String.eqb_neq in Htrain, Htest.
  now rewrite Htrain, Htest.
Qed.

(** X18: in a multi-label dataset whose [gender_labels] is shorter than
    [image_paths], an index that [len] admits but [gender_labels] does not
    reach makes [__getitem__] raise [IndexError], after the picture has
    been opened. *)
Theorem X18_getitem_beyond_gender_labels (self : Instance) (i : nat)
    (path : string) (label : pyval) (img : image) (st : Process) (g : rng) :
  cls self = MaskMultiLabelDataset ->
  nth_error (image_paths_obj st) i = Some (PStr path) ->
  nth_error (labels_obj st) i = Some label ->
  image_open w path = inr img ->
  (List.length (gender_labels_obj st) <= i)%nat ->
  __getitem__ lib w self (Z.of_nat i) st g =
  (inl IndexError, after_open st path, g).
Proof.
  intros Hcls Hpath Hlabel Hopen Hshort.
  unfold __getitem__. rewrite Hcls. unfold getitem_multi. rewrite read_image_eq.
  rewrite (list_getitem_at _ _ Hpath), (@Image_open_ok w path img _ Hopen), get_label_eq.
  cbn [labels_obj after_open]. rewrite (list_getitem_at _ _ Hlabel).
  rewrite get_gender_label_eq by exact Hcls. cbn [gender_labels_obj after_open].
  rewrite list_getitem_out by lia. reflexivity.
Qed.

(** X19: [AddGaussianNoise] with a deviation of 0 does not depend on what
    is drawn: on a tensor for which the generator returns as many cells
    as it has, every cell is shifted by the mean. *)
Theorem X19_noise_without_deviation (mean : R) (shape : list nat)
    (data : list R) (g : rng) :
  List.length (fst (torch_randn lib shape g)) = List.length data ->
  fst (AddGaussianNoise_call lib mean 0 (Tensor shape data) g) =
  inr (Tensor shape (map (fun x => x + mean)%R data)).
Proof.
  unfold AddGaussianNoise_call.
  destruct (torch_randn lib shape g) as [noise g']. simpl. intros Hlen.
  do 2 f_equal. unfold add_noise. revert noise Hlen.
  induction data as [|x data IH]; intros [|n noise]; simpl;
    try discriminate; trivial.
  intros [= Hlen]. f_equal; [lra|now apply IH].
Qed.

End WithLibrary.

Lemma X16_getitem_out_of_range_witness :
  __getitem__ toy_image_library Worlds.two_tables (Worlds.multi_ds "b.csv")
              2 one_short 0%nat
  = (inl IndexError, one_short, 0%nat).
Proof.
  refine (@X16_getitem_out_of_range nat toy_image_library Worlds.two_tables
            (Worlds.multi_ds "b.csv") 2 one_short 0%nat _).
  right. simpl. apply Z.le_refl.
Defined.

Lemma X17_getitem_checks_phase_last_witness :
  __getitem__ toy_image_library Worlds.two_tables
    (mkInstance MaskBaseDataset "r" "a.csv" "val" None None)
    (Z.of_nat 1) one_short 0%nat
  = (inl AttributeError,
     after_open one_short "r/000002_male_Asian_30/normal.jpg", 0%nat).
Proof.
  refine (@X17_getitem_checks_phase_last nat toy_image_library Worlds.two_tables
            (mkInstance MaskBaseDataset "r" "a.csv" "val" None None) 1%nat
            "r/000002_male_Asian_30/normal.jpg" (PInt 2) [[(255, 255, 255)%Z]]
            one_short 0%nat eq_refl _ _ eq_refl eq_refl eq_refl); discriminate.
Defined.

Lemma X18_getitem_beyond_gender_labels_witness :
  __getitem__ toy_image_library Worlds.two_tables (Worlds.multi_ds "b.csv")
              (Z.of_nat 1) one_short 0%nat
  = (inl IndexError,
     after_open one_short "r/000002_male_Asian_30/normal.jpg", 0%nat).
Proof.
  exact (@X18_getitem_beyond_gender_labels nat toy_image_library
           Worlds.two_tables (Worlds.multi_ds "b.csv") 1%nat
           "r/000002_male_Asian_30/normal.jpg" (PInt 2) [[(255, 255, 255)%Z]]
           one_short 0%nat eq_refl eq_refl eq_refl eq_refl (le_n 1)).
Defined.

Lemma X19_noise_without_deviation_witness :
  fst (AddGaussianNoise_call toy_image_library 2 0 (Tensor [1%nat] [5%R]) 3%nat) =
  inr (Tensor [1%nat] (map (fun x => x + 2)%R [5%R])).
Proof.
  exact (@X19_noise_without_deviation nat toy_image_library 2%R [1%nat] [5%R]
           3%nat eq_refl).
Defined.

End FetchExtras.

(** ** The models, beyond the claims *)

Module ModelExtras.

Import Model ModelClaims.

Lemma traverse_initializable (cs : list (key * Module_)) :
  Forall (fun kc : key * Module_ =>
            (initializable (snd kc) = true ->
             exists m', _initialize_weights (snd kc) = inr m')
            /\ (initializable (snd kc) = false ->
                _initialize_weights (snd kc) = inl AttributeError)) cs ->
  (forallb (fun kc => initializable (snd kc)) cs = true ->
   exists cs', traverse_children _initialize_weights cs = inr cs')
  /\ (forallb (fun kc => initializable (snd kc)) cs = false ->
      traverse_children _initialize_weights cs = inl AttributeError).
Proof.
  induction 1 as [|kc cs [Hyes Hno] _ [IHyes IHno]]; simpl.
  - split; [eauto|discriminate].
  - destruct (initializable (snd kc)); simpl.
    + destruct (Hyes eq_refl) as [c' ->]. split.
      * intros Hrest. destruct (IHyes Hrest) as [cs' ->]. eauto.
      * intros Hrest. now rewrite (IHno Hrest).
    + rewrite (Hno eq_refl). split; [discriminate|reflexivity].
Qed.

Lemma initialize_iff_initializable (m : Module_) :
  (initializable m = true -> exists m', _initialize_weights m = inr m')
  /\ (initializable m = false -> _initialize_weights m = inl AttributeError).
Proof.
  induction m as [m Hleaf | own cs IH] using Module_induction.
  - destruct m; try (exfalso; exact (Hleaf _ _ eq_refl)); simpl;
      try (split; [eauto|discriminate]).
    + destruct weight, bias; simpl; split; intros H; try discriminate; eauto.
    + destruct bias; simpl; split; intros H; try discriminate; eauto.
  - simpl. destruct (traverse_initializable IH) as [Hyes Hno]. split.
    + intros Hall. destruct (Hyes Hall) as [cs' ->]. eauto.
    + intros Hall. now rewrite (Hno Hall).
Qed.

(** X20: [_initialize_weights] goes through exactly on the modules in
    which every [Linear] has a bias and every [BatchNorm2d] has its weight
    and bias; on any other it raises [AttributeError]. A [Conv2d] without
    bias is no obstacle. *)
Theorem X20_initialize_iff_initializable (m : Module_) :
  ((exists m', _initialize_weights m = inr m') <-> initializable m = true)
  /\ (_initialize_weights m = inl AttributeError <-> initializable m = false).
Proof.
  destruct (initialize_iff_initializable m) as [Hyes Hno].
  destruct (initializable m) eqn:Hi.
  - destruct (Hyes eq_refl) as [m' Hm']. split; split.
    + reflexivity.
    + intros _. now exists m'.
    + rewrite Hm'. discriminate.
    + discriminate.
  - rewrite (Hno eq_refl). split; split.
    + intros [m' Hm']. discriminate.
    + discriminate.
    + reflexivity.
    + reflexivity.
Qed.

Lemma fill_fixed (d : tensor_data) (o : option Param) (p : Param) :
  fill d o = inr p -> data p = d /\ set_data d p = p.
Proof. destruct o as [q|]; simpl; intros [= <-]; now split. Qed.

Lemma fill_data (d : tensor_data) (o : option Param) (p : Param) :
  fill d o = inr p -> data p = d.
Proof. intros H. now destruct (fill_fixed _ _ H). Qed.

Lemma initialized_by (d : tensor_data) (p : Param) :
  data p = d ->
  d = XavierUniform \/ d = Zeros \/ d = Ones \/ d = NormalInit 0 0.01 ->
  initialized p.
Proof. unfold initialized. now intros ->. Qed.

Lemma opt_list_initialized (o : option Param) :
  Forall initialized (opt_list (option_map (set_data Zeros) o)).
Proof.
  destruct o; simpl; [|constructor].
  apply Forall_cons; [|constructor].
  apply initialized_by with (d := Zeros); auto.
Qed.

(** X21: the loop of [_initialize_weights] has three branches and no
    [else]. After it has gone through a module, every parameter of a
    [Conv2d], [BatchNorm2d] or [Linear] layer in it holds what one of the
    branches wrote: Xavier-uniform values, zeros, ones, or normal values
    of deviation 0.01. The parameters that modules of any other kind
    register themselves are what they were, built or loaded. *)
Theorem X21_initialize_fills_named_layers_only (m m' : Module_) :
  _initialize_weights m = inr m' ->
  Forall initialized (named_parameters m')
  /\ other_parameters m' = other_parameters m.
Proof.
  revert m'. induction m as [m Hleaf | own cs IH] using Module_induction; intros m'.
  - destruct m; try (exfalso; exact (Hleaf _ _ eq_refl)); simpl.
    + intros [= <-]. simpl. split; [|reflexivity].
      apply Forall_cons; [|apply opt_list_initialized].
      apply initialized_by with (d := XavierUniform); auto.
    + destruct (fill Ones weight) as [e|w'] eqn:Hw; [discriminate|].
      destruct (fill Zeros bias) as [e|b'] eqn:Hb; [discriminate|].
      intros [= <-]. simpl. apply fill_data in Hw, Hb. split; [|reflexivity].
      apply Forall_cons; [|apply Forall_cons; [|constructor]].
      * apply initialized_by with (d := Ones); auto.
      * apply initialized_by with (d := Zeros); auto.
    + destruct (fill Zeros bias) as [e|b'] eqn:Hb; [discriminate|].
      intros [= <-]. simpl. apply fill_data in Hb. split; [|reflexivity].
      apply Forall_cons; [|apply Forall_cons; [|constructor]].
      * apply initialized_by with (d := NormalInit 0 0.01); auto 6.
      * apply initialized_by with (d := Zeros); auto.
    + intros [= <-]. split; [constructor|reflexivity].
    + intros [= <-]. split; [constructor|reflexivity].
    + intros [= <-]. split; [constructor|reflexivity].
    + intros [= <-]. split; [constructor|reflexivity].
  - simpl.
    destruct (traverse_children _initialize_weights cs) as [e|cs'] eqn:Ht;
      [discriminate|].
    intros [= <-]. simpl.
    enough (Hcs : Forall initialized
                    (flat_map (fun kc => named_parameters (snd kc)) cs')
                  /\ flat_map (fun kc => other_parameters (snd kc)) cs'
                     = flat_map (fun kc => other_parameters (snd kc)) cs).
    { destruct Hcs as [Hn Ho]. split; [exact Hn|now rewrite Ho]. }
    revert cs' Ht.
    induction IH as [|kc cs Hkc _ IHcs]; intros cs'; simpl.
    + intros [= <-]. split; [constructor|reflexivity].
    + destruct (_initialize_weights (snd kc)) as [e|c'] eqn:Hc; [discriminate|].
      destruct (traverse_children _initialize_weights cs) as [e|rest'];
        [discriminate|].
      intros [= <-]. simpl.
      destruct (Hkc _ eq_refl) as [Hn1 Ho1].
      destruct (IHcs _ eq_refl) as [Hn2 Ho2]. split.
      * apply Forall_app. now split.
      * now rewrite Ho1, Ho2.
Qed.

Lemma X21_initialize_fills_named_layers_only_witness :
  Forall initialized
    (named_parameters
       (Container [mkParam [3%Z] Loaded true]
          [ (Attr "fc",
             Linear 4 2 (mkParam [2; 4]%Z (NormalInit 0 0.01) true)
                    (Some (mkParam [2%Z] Zeros true))) ]))
  /\ other_parameters
       (Container [mkParam [3%Z] Loaded true]
          [ (Attr "fc",
             Linear 4 2 (mkParam [2; 4]%Z (NormalInit 0 0.01) true)
                    (Some (mkParam [2%Z] Zeros true))) ])
     = [mkParam [3%Z] Loaded true].
Proof.
  exact (@X21_initialize_fills_named_layers_only
           (Container [mkParam [3%Z] Loaded true] [(Attr "fc", new_Linear 4 2)])
           _ eq_refl).
Defined.

Section Projections.

Variable T : Type.
Variable f : Param -> T.

Lemma fill_keeps (d : tensor_data) (o : option Param) (p : Param) :
  (forall d q, f (set_data d q) = f q) ->
  fill d o = inr p -> map f (opt_list o) = [f p].
Proof. intros Hf. destruct o; simpl; intros [= <-]; now rewrite Hf. Qed.

(** What [_initialize_weights] leaves alone in every parameter. *)
Lemma initialize_keeps (m m' : Module_) :
  (forall d q, f (set_data d q) = f q) ->
  _initialize_weights m = inr m' ->
  map f (parameters m') = map f (parameters m).
Proof.
  intros Hf. revert m'.
  induction m as [m Hleaf | own cs IH] using Module_induction; intros m'.
  - destruct m; try (exfalso; exact (Hleaf _ _ eq_refl)); simpl.
    + intros [= <-]. simpl. rewrite Hf. f_equal. destruct bias; simpl;
        [now rewrite Hf|reflexivity].
    + destruct (fill Ones weight) as [e|w'] eqn:Hw; [discriminate|].
      destruct (fill Zeros bias) as [e|b'] eqn:Hb; [discriminate|].
      intros [= <-]. simpl. rewrite map_app.
      now rewrite (fill_keeps _ _ Hf Hw), (fill_keeps _ _ Hf Hb).
    + destruct (fill Zeros bias) as [e|b'] eqn:Hb; [discriminate|].
      intros [= <-]. simpl. now rewrite Hf, (fill_keeps _ _ Hf Hb).
    + now intros [= <-].
    + now intros [= <-].
    + now intros [= <-].
    + now intros [= <-].
  - simpl.
    destruct (traverse_children _initialize_weights cs) as [e|cs'] eqn:Ht;
      [discriminate|].
    intros [= <-]. simpl. rewrite !map_app. f_equal. revert cs' Ht.
    induction IH as [|kc cs Hkc _ IHcs]; intros cs'; simpl.
    + now intros [= <-].
    + destruct (_initialize_weights (snd kc)) as [e|c'] eqn:Hc; [discriminate|].
      destruct (traverse_children _initialize_weights cs) as [e|rest'];
        [discriminate|].
      intros [= <-]. simpl. rewrite !map_app. f_equal; auto.
Qed.

(** What [freeze] leaves alone in every parameter. *)
Lemma freeze_keeps (m : Module_) :
  (forall v q, f (set_requires_grad v q) = f q) ->
  map f (parameters (freeze m)) = map f (parameters m).
Proof.
  intros Hf. induction m as [m Hleaf | own cs IH] using Module_induction.
  - destruct m; try (exfalso; exact (Hleaf _ _ eq_refl)); simpl;
      repeat match goal with
             | o : option Param |- _ => destruct o; simpl
             end;
      now rewrite ?Hf.
  - simpl. rewrite !map_app. f_equal.
    + rewrite map_map. apply map_ext. intros q. apply Hf.
    + unfold map_children.
      induction IH as [|kc cs Hkc _ IHcs]; simpl; [reflexivity|].
      rewrite !map_app. now f_equal.
Qed.

End Projections.

(** X22: [_initialize_weights] writes the values of the parameters and
    nothing else: their number, their order, their shapes and their
    gradient flags are what they were. *)
Theorem X22_initialize_keeps_shapes_and_flags (m m' : Module_) :
  _initialize_weights m = inr m' ->
  map shape (parameters m') = map shape (parameters m)
  /\ map requires_grad (parameters m') = map requires_grad (parameters m)
  /\ List.length (parameters m') = List.length (parameters m).
Proof.
  intros Hinit.
  assert (Hs := initialize_keeps shape m (fun _ _ => eq_refl) Hinit).
  split; [exact Hs|]. split.
  - exact (initialize_keeps requires_grad m (fun _ _ => eq_refl) Hinit).
  - rewrite <- (length_map shape (parameters m')), Hs. apply length_map.
Qed.

Lemma X22_initialize_keeps_shapes_and_flags_witness :
  map shape (parameters (Linear 4 2 (mkParam [2; 4]%Z (NormalInit 0 0.01) true)
                                (Some (mkParam [2%Z] Zeros true))))
  = map shape (parameters (new_Linear 4 2))
  /\ map requires_grad
       (parameters (Linear 4 2 (mkParam [2; 4]%Z (NormalInit 0 0.01) true)
                           (Some (mkParam [2%Z] Zeros true))))
     = map requires_grad (parameters (new_Linear 4 2))
  /\ List.length
       (parameters (Linear 4 2 (mkParam [2; 4]%Z (NormalInit 0 0.01) true)
                           (Some (mkParam [2%Z] Zeros true))))
     = List.length (parameters (new_Linear 4 2)).
Proof.
  exact (@X22_initialize_keeps_shapes_and_flags (new_Linear 4 2) _ eq_refl).
Defined.

Lemma freeze_twice (m : Module_) : freeze (freeze m) = freeze m.
Proof.
  induction m as [m Hleaf | own cs IH] using Module_induction.
  - destruct m; try (exfalso; exact (Hleaf _ _ eq_refl)); simpl;
      repeat match goal with
             | o : option Param |- _ => destruct o; simpl
             end;
      reflexivity.
  - simpl. f_equal.
    + rewrite map_map. apply map_ext. reflexivity.
    + unfold map_children.
      induction IH as [|kc cs Hkc _ IHcs]; simpl; [reflexivity|].
      now rewrite Hkc, IHcs.
Qed.

(** X23: freezing a module is idempotent and changes gradient flags only:
    the values and the shapes of its parameters, their number and their
    order are what they were. *)
Theorem X23_freeze_changes_flags_only (m : Module_) :
  freeze (freeze m) = freeze m
  /\ map data (parameters (freeze m)) = map data (parameters m)
  /\ map shape (parameters (freeze m)) = map shape (parameters m).
Proof.
  split; [apply freeze_twice|]. split.
  - apply freeze_keeps. reflexivity.
  - apply freeze_keeps. reflexivity.
Qed.

Lemma get_at_app (p1 p2 : list key) :
  forall m x,
    get_at (p1 ++ p2) m = inr x <->
    exists sub, get_at p1 m = inr sub /\ get_at p2 sub = inr x.
Proof.
  induction p1 as [|k p1 IH]; intros m x; simpl.
  - split; [eauto|]. now intros (sub & [= <-] & H).
  - destruct m; try (split; [discriminate|now intros (sub & H & _)]).
    destruct (get_child k children) as [c|]; [apply IH|].
    split; [discriminate|now intros (sub & H & _)].
Qed.

Section WithTorchvision.

Variable tv_vgg19 : bool -> list (key * Module_).

(** X24: the AlexNet class has no weights to load. Constructed with
    [pretrained=True] and a number of classes that is not negative, it
    returns and every one of its 16 parameters still holds the values it
    was built with; constructed with [pretrained=False] every one has been
    filled by [_initialize_weights]. *)
Theorem X24_alexnet_pretrained_loads_nothing (num_classes : Z)
    (freeze_flag : bool) :
  (0 <= num_classes)%Z ->
  (exists self,
      __init__ tv_vgg19 AlexNet num_classes true freeze_flag = inr self
      /\ Forall (fun p => data p = DefaultInit) (parameters self)
      /\ List.length (parameters self) = 16%nat)
  /\ (exists self,
        __init__ tv_vgg19 AlexNet num_classes false freeze_flag = inr self
        /\ Forall initialized (parameters self)
        /\ List.length (parameters self) = 16%nat).
Proof.
  intros Hnc. split.
  - destruct (build_alexnet tv_vgg19 true Hnc)
      as (features & classifier & Hb & -> & ->).
    unfold __init__. rewrite Hb.
    destruct freeze_flag;
      (eexists; split; [reflexivity|]; split; [|reflexivity];
       repeat (apply Forall_cons; [reflexivity|]); constructor).
  - destruct (build_alexnet tv_vgg19 false Hnc)
      as (features & classifier & Hb & -> & ->).
    unfold __init__. rewrite Hb.
    destruct freeze_flag;
      (eexists; split; [reflexivity|]; split; [|reflexivity];
       repeat (apply Forall_cons; [unfold initialized; simpl; auto 6|]);
       constructor).
Qed.

(** X25: without [freeze], every one of the 16 parameters of an AlexNet
    constructed for a number of classes that is not negative tracks
    gradients, whatever [pretrained] is. *)
Theorem X25_alexnet_unfrozen_all_trainable (num_classes : Z) (pretrained : bool) :
  (0 <= num_classes)%Z ->
  exists self,
    __init__ tv_vgg19 AlexNet num_classes pretrained false = inr self
    /\ Forall trainable (parameters self)
    /\ List.length (parameters self) = 16%nat.
Proof.
  intros Hnc.
  destruct (build_alexnet tv_vgg19 pretrained Hnc)
    as (features & classifier & Hb & -> & ->).
  unfold __init__. rewrite Hb.
  destruct pretrained;
    (eexists; split; [reflexivity|]; split; [|reflexivity];
     repeat (apply Forall_cons; [reflexivity|]); constructor).
Qed.

(** The last module of the classifier that [build_layers] creates. *)
Lemma head_built (a : arch) (num_classes : Z) (pretrained : bool)
    (self : Module_) :
  build_layers tv_vgg19 a num_classes pretrained = inr self ->
  exists cp w b,
    classifier_path a = inr cp
    /\ get_at (cp ++ [Index 6]) self = inr (Linear 4096 num_classes w b).
Proof.
  intros Hb. destruct (build_returns _ _ _ _ Hb) as [i Hcl].
  unfold classifier_layers in Hcl.
  destruct (classifier_path a) as [e|cp] eqn:Hcp; [discriminate|].
  exists cp. do 2 eexists. split; [reflexivity|].
  apply get_at_app. eexists. split; [exact Hcl|].
  destruct a; reflexivity.
Qed.

Lemma initialize_linear (path : list key) (m m' : Module_) (i o : Z)
    (w : Param) (b : option Param) :
  _initialize_weights m = inr m' ->
  get_at path m = inr (Linear i o w b) ->
  exists w' b', get_at path m' = inr (Linear i o w' b').
Proof.
  intros Hinit Hsub.
  destruct (get_at_initialize path _ Hinit Hsub) as (sub' & Hsub' & Hi).
  simpl in Hi. destruct (fill Zeros b) as [e|b']; [discriminate|].
  injection Hi as <-. eauto.
Qed.

(** X26: in every model that the constructor returns, of either concrete
    class and whatever [pretrained] and [freeze] are, the seventh module
    of the classifier is a linear layer from 4096 features to
    [num_classes]. *)
Theorem X26_classifier_ends_in_num_classes (a : arch) (num_classes : Z)
    (pretrained freeze_flag : bool) (self : Module_) :
  __init__ tv_vgg19 a num_classes pretrained freeze_flag = inr self ->
  exists cl w b,
    classifier_layers a self = inr cl
    /\ get_at [Index 6] cl = inr (Linear 4096 num_classes w b).
Proof.
  unfold __init__.
  destruct (build_layers tv_vgg19 a num_classes pretrained) as [e|m0] eqn:Hb;
    [discriminate|].
  destruct (head_built _ _ _ Hb) as (cp & w0 & b0 & Hcp & Hhead0).
  assert (Hm1 : forall m1,
             (if negb pretrained then _initialize_weights m0 else inr m0) = inr m1 ->
             exists w1 b1,
               get_at (cp ++ [Index 6]) m1 = inr (Linear 4096 num_classes w1 b1)).
  { intros m1. destruct pretrained; simpl.
    - intros [= <-]. eauto.
    - intros Hinit. eapply initialize_linear; eassumption. }
  destruct (if negb pretrained then _initialize_weights m0 else inr m0)
    as [e|m1]; [discriminate|].
  destruct (Hm1 m1 eq_refl) as (w1 & b1 & Hhead1).
  assert (Hself : forall m,
             (if freeze_flag then _freeze_net a m1 else inr m1) = inr m ->
             get_at (cp ++ [Index 6]) m = inr (Linear 4096 num_classes w1 b1)).
  { intros m. destruct freeze_flag; [|now intros [= <-]].
    unfold _freeze_net.
    destruct (backbone_path a) as [e|bp] eqn:Hbp; [discriminate|].
    destruct (get_at bp m1) as [e|bb1]; [discriminate|].
    intros [= <-].
    destruct (paths_diverge a Hbp Hcp)
      as (common & k1 & k2 & rest1 & rest2 & -> & -> & Hne).
    rewrite <- app_assoc, <- app_comm_cons in Hhead1 |- *.
    now rewrite get_at_update_diverge. }
  intros Hrun. apply Hself in Hrun.
  apply get_at_app in Hrun as (cl & Hcl & Hhead).
  exists cl, w1, b1. unfold classifier_layers. rewrite Hcp. now split.
Qed.

End WithTorchvision.

Lemma X24_alexnet_pretrained_loads_nothing_witness :
  (exists self,
      __init__ small_vgg AlexNet 3 true true = inr self
      /\ Forall (fun p => data p = DefaultInit) (parameters self)
      /\ List.length (parameters self) = 16%nat)
  /\ (exists self,
        __init__ small_vgg AlexNet 3 false true = inr self
        /\ Forall initialized (parameters self)
        /\ List.length (parameters self) = 16%nat).
Proof.
  apply (@X24_alexnet_pretrained_loads_nothing small_vgg 3 true). discriminate.
Defined.

Lemma X25_alexnet_unfrozen_all_trainable_witness :
  exists self,
    __init__ small_vgg AlexNet 3 false false = inr self
    /\ Forall trainable (parameters self)
    /\ List.length (parameters self) = 16%nat.
Proof.
  apply (@X25_alexnet_unfrozen_all_trainable small_vgg 3 false). discriminate.
Defined.

Lemma X26_classifier_ends_in_num_classes_witness :
  exists self cl w b,
    __init__ small_vgg VGG19 3 false true = inr self
    /\ classifier_layers VGG19 self = inr cl
    /\ get_at [Index 6] cl = inr (Linear 4096 3 w b).
Proof.
  destruct (@X26_classifier_ends_in_num_classes small_vgg VGG19 3 false true
              _ eq_refl) as (cl & w & b & Hcl & Hhead).
  eexists. exists cl, w, b. split; [reflexivity|]. now split.
Defined.

End ModelExtras.

